(** * HC-SR04 distance-sensor driver: a shallow embedding of [hc-sr04.c]

    The driver keeps a list of sensors, each a [struct hc_sr04] allocated on
    the kernel heap.  A measurement runs in process context
    ([do_measurement]); the echo pin's interrupt handler
    ([echo_received_irq]) runs asynchronously and shares the sensor's
    fields with it.

    Kernel services are modelled by an explicit kernel state (heap, GPIO
    reservations, registered interrupt actions, class devices, mutexes) and
    by a log of the calls made, in program order.  Whatever the hardware or
    the rest of the kernel decides (allocation failures, the instants at
    which interrupts fire, the pin levels read, signals) is an explicit
    environment argument.  An interrupt is served between two statements
    of the process-context code.  Messages to the kernel log ([pr_err],
    [pr_info]) are left out. *)

From Stdlib Require Import ZArith Lia Ascii.
From stdpp Require Import gmap list strings pretty.

Open Scope Z_scope.

(** ** C integer types *)

Inductive data_model := ILP32 | LP64.

Definition long_bits (abi : data_model) : Z :=
  match abi with ILP32 => 32 | LP64 => 64 end.

Definition wrap_unsigned (bits z : Z) : Z := z mod 2 ^ bits.

Definition wrap_signed (bits z : Z) : Z :=
  (z + 2 ^ (bits - 1)) mod 2 ^ bits - 2 ^ (bits - 1).

Definition to_int : Z → Z := wrap_signed 32.
Definition to_s64 : Z → Z := wrap_signed 64.
Definition to_u64 : Z → Z := wrap_unsigned 64.
Definition to_long (abi : data_model) : Z → Z := wrap_signed (long_bits abi).
Definition to_ulong (abi : data_model) : Z → Z := wrap_unsigned (long_bits abi).

(** ** Error numbers (linux/errno.h) *)

Inductive errno :=
  | ENOENT | EIO | ENXIO | ENOMEM | EBUSY | EEXIST | ENODEV | EINVAL
  | ENOSYS | ETIMEDOUT | ERESTARTSYS | EPROBE_DEFER.

Definition errno_val (e : errno) : Z :=
  match e with
  | ENOENT => 2 | EIO => 5 | ENXIO => 6 | ENOMEM => 12 | EBUSY => 16
  | EEXIST => 17 | ENODEV => 19 | EINVAL => 22 | ENOSYS => 38
  | ETIMEDOUT => 110 | ERESTARTSYS => 512 | EPROBE_DEFER => 517
  end.

(** [-E] as the C code writes it. *)
Definition neg (e : errno) : Z := - errno_val e.

Definition MAX_ERRNO : Z := 4095.

(** ** Pointers

    A [struct hc_sr04 *] is the address of a heap object, or a raw machine
    word: [NULL] is [Raw 0] and [ERR_PTR(e)] is [Raw e]. *)

Inductive pointer := Obj (a : positive) | Raw (z : Z).

Definition ERR_PTR (err : Z) : pointer := Raw err.

Definition IS_ERR (p : pointer) : bool :=
  match p with
  | Obj _ => false
  | Raw z => (- MAX_ERRNO <=? z) && (z <? 0)
  end.

Definition PTR_ERR (p : pointer) : Z :=
  match p with Obj a => Z.pos a | Raw z => z end.

Global Instance pointer_eq_dec : EqDecision pointer.
Proof. solve_decision. Defined.

(** ** The sensor structure *)

Record timespec64 := { tv_sec : Z; tv_nsec : Z }.

Record hc_sr04 := {
  gpio_trig : Z;
  gpio_echo : Z;
  irq : Z;
  time_triggered : timespec64;
  time_echoed : timespec64;
  echo_received : Z;
  device_triggered : Z;
  measurement_mutex : bool;   (* true while the mutex is held *)
  timeout : Z                 (* unsigned long *)
}.

(** A store into one field of a [struct hc_sr04]. *)
Inductive write :=
  | W_gpio_trig (v : Z)
  | W_gpio_echo (v : Z)
  | W_irq (v : Z)
  | W_time_triggered (ts : timespec64)
  | W_time_echoed (ts : timespec64)
  | W_echo_received (v : Z)
  | W_device_triggered (v : Z)
  | W_timeout (v : Z).

Definition apply_write (w : write) (d : hc_sr04) : hc_sr04 :=
  match w with
  | W_gpio_trig v =>
      {| gpio_trig := v; gpio_echo := gpio_echo d; irq := irq d;
         time_triggered := time_triggered d; time_echoed := time_echoed d;
         echo_received := echo_received d;
         device_triggered := device_triggered d;
         measurement_mutex := measurement_mutex d; timeout := timeout d |}
  | W_gpio_echo v =>
      {| gpio_trig := gpio_trig d; gpio_echo := v; irq := irq d;
         time_triggered := time_triggered d; time_echoed := time_echoed d;
         echo_received := echo_received d;
         device_triggered := device_triggered d;
         measurement_mutex := measurement_mutex d; timeout := timeout d |}
  | W_irq v =>
      {| gpio_trig := gpio_trig d; gpio_echo := gpio_echo d; irq := v;
         time_triggered := time_triggered d; time_echoed := time_echoed d;
         echo_received := echo_received d;
         device_triggered := device_triggered d;
         measurement_mutex := measurement_mutex d; timeout := timeout d |}
  | W_time_triggered ts =>
      {| gpio_trig := gpio_trig d; gpio_echo := gpio_echo d; irq := irq d;
         time_triggered := ts; time_echoed := time_echoed d;
         echo_received := echo_received d;
         device_triggered := device_triggered d;
         measurement_mutex := measurement_mutex d; timeout := timeout d |}
  | W_time_echoed ts =>
      {| gpio_trig := gpio_trig d; gpio_echo := gpio_echo d; irq := irq d;
         time_triggered := time_triggered d; time_echoed := ts;
         echo_received := echo_received d;
         device_triggered := device_triggered d;
         measurement_mutex := measurement_mutex d; timeout := timeout d |}
  | W_echo_received v =>
      {| gpio_trig := gpio_trig d; gpio_echo := gpio_echo d; irq := irq d;
         time_triggered := time_triggered d; time_echoed := time_echoed d;
         echo_received := v;
         device_triggered := device_triggered d;
         measurement_mutex := measurement_mutex d; timeout := timeout d |}
  | W_device_triggered v =>
      {| gpio_trig := gpio_trig d; gpio_echo := gpio_echo d; irq := irq d;
         time_triggered := time_triggered d; time_echoed := time_echoed d;
         echo_received := echo_received d;
         device_triggered := v;
         measurement_mutex := measurement_mutex d; timeout := timeout d |}
  | W_timeout v =>
      {| gpio_trig := gpio_trig d; gpio_echo := gpio_echo d; irq := irq d;
         time_triggered := time_triggered d; time_echoed := time_echoed d;
         echo_received := echo_received d;
         device_triggered := device_triggered d;
         measurement_mutex := measurement_mutex d; timeout := v |}
  end.

Definition set_mutex (b : bool) (d : hc_sr04) : hc_sr04 :=
  {| gpio_trig := gpio_trig d; gpio_echo := gpio_echo d; irq := irq d;
     time_triggered := time_triggered d; time_echoed := time_echoed d;
     echo_received := echo_received d;
     device_triggered := device_triggered d;
     measurement_mutex := b; timeout := timeout d |}.

(** ** The log of kernel calls *)

Inductive mutex_id := DevicesMutex | MeasurementMutex (dev : positive).

#[warnings="-register-all"]
Inductive event :=
  | EvKmalloc (p : pointer)
  | EvKfree (dev : positive)
  | EvStore (dev : positive) (w : write)
  | EvMutexInit (dev : positive)
  | EvMutexLock (m : mutex_id)
  | EvMutexTrylock (m : mutex_id) (acquired : bool)
  | EvMutexUnlock (m : mutex_id)
  | EvGpioRequest (pin : Z) (r : Z)
  | EvGpioFree (pin : Z)
  | EvGpioDirectionOutput (pin : Z) (v : Z)
  | EvGpioDirectionInput (pin : Z)
  | EvGpioSetValue (pin : Z) (v : Z)
  | EvRequestIrq (n : Z) (dev : positive) (r : Z)
  | EvFreeIrq (n : Z) (dev : positive)
  | EvInitWaitqueue (dev : positive)
  | EvWakeUp (dev : positive)
  | EvWait (dev : positive) (jiffies : Z) (r : Z)
  | EvMsleep (ms : Z)
  | EvUdelay (us : Z)
  | EvListAddTail (dev : positive)
  | EvListDel (dev : positive)
  | EvDeviceCreate (drvdata : pointer) (ok : bool)
  | EvDeviceUnregister (idx : nat)
  | EvPutDevice (idx : nat)
  | EvIrq (n : Z) (dev : positive) (actions : list event).

(** Calls made in process context, as opposed to what an interrupt
    handler did in between. *)
Definition in_process (e : event) : bool :=
  match e with EvIrq _ _ _ => false | _ => true end.

Definition process_events (t : list event) : list event :=
  List.filter in_process t.

(** ** Kernel state *)

Record kstate := {
  heap : gmap positive hc_sr04;          (* live kmalloc'ed sensors *)
  hc_sr04_devices : list positive;       (* LIST_HEAD(hc_sr04_devices) *)
  devices_mutex : bool;                  (* DEFINE_MUTEX(devices_mutex) *)
  gpios : gset Z;                        (* requested GPIO lines *)
  irq_actions : list (Z * positive);     (* registered (irq, dev_id) *)
  class_devices : list pointer;          (* drvdata of the class's devices *)
  trace : list event
}.

Definition with_heap (h : gmap positive hc_sr04) (k : kstate) : kstate :=
  {| heap := h; hc_sr04_devices := hc_sr04_devices k;
     devices_mutex := devices_mutex k; gpios := gpios k;
     irq_actions := irq_actions k; class_devices := class_devices k;
     trace := trace k |}.

Definition with_devices (l : list positive) (k : kstate) : kstate :=
  {| heap := heap k; hc_sr04_devices := l;
     devices_mutex := devices_mutex k; gpios := gpios k;
     irq_actions := irq_actions k; class_devices := class_devices k;
     trace := trace k |}.

Definition with_devices_mutex (b : bool) (k : kstate) : kstate :=
  {| heap := heap k; hc_sr04_devices := hc_sr04_devices k;
     devices_mutex := b; gpios := gpios k;
     irq_actions := irq_actions k; class_devices := class_devices k;
     trace := trace k |}.

Definition with_gpios (g : gset Z) (k : kstate) : kstate :=
  {| heap := heap k; hc_sr04_devices := hc_sr04_devices k;
     devices_mutex := devices_mutex k; gpios := g;
     irq_actions := irq_actions k; class_devices := class_devices k;
     trace := trace k |}.

Definition with_irq_actions (a : list (Z * positive)) (k : kstate) : kstate :=
  {| heap := heap k; hc_sr04_devices := hc_sr04_devices k;
     devices_mutex := devices_mutex k; gpios := gpios k;
     irq_actions := a; class_devices := class_devices k;
     trace := trace k |}.

Definition with_class_devices (c : list pointer) (k : kstate) : kstate :=
  {| heap := heap k; hc_sr04_devices := hc_sr04_devices k;
     devices_mutex := devices_mutex k; gpios := gpios k;
     irq_actions := irq_actions k; class_devices := c;
     trace := trace k |}.

Definition with_trace (t : list event) (k : kstate) : kstate :=
  {| heap := heap k; hc_sr04_devices := hc_sr04_devices k;
     devices_mutex := devices_mutex k; gpios := gpios k;
     irq_actions := irq_actions k; class_devices := class_devices k;
     trace := t |}.

(** The state right after [class_register]: nothing allocated. *)
Definition boot : kstate :=
  {| heap := ∅; hc_sr04_devices := []; devices_mutex := false; gpios := ∅;
     irq_actions := []; class_devices := []; trace := [] |}.

(** ** The monad of kernel code

    A call returns a value in a new state, blocks on a mutex somebody else
    holds, or faults (it dereferenced a pointer to no live object, or
    released a mutex that was not held). *)

Inductive result (A : Type) :=
  | Ret (a : A) (k : kstate)
  | Blocked (m : mutex_id) (k : kstate)
  | Fault.
Arguments Ret {A} a k.
Arguments Blocked {A} m k.
Arguments Fault {A}.

Definition M (A : Type) : Type := kstate → result A.

Global Instance M_ret : MRet M := λ A a k, Ret a k.

Global Instance M_bind : MBind M := λ A B f m k,
  match m k with
  | Ret a k' => f a k'
  | Blocked mu k' => Blocked mu k'
  | Fault => Fault
  end.

Definition fault {A} : M A := λ _, Fault.

Definition block {A} (m : mutex_id) : M A := λ k, Blocked m k.

Definition gets {A} (f : kstate → A) : M A := λ k, Ret (f k) k.

Definition modify (f : kstate → kstate) : M unit := λ k, Ret () (f k).

Definition emit (e : event) : M unit :=
  modify (λ k, with_trace (trace k ++ [e]) k).

(** [*p] for a sensor pointer. *)
Definition deref (p : positive) : M hc_sr04 := λ k,
  match heap k !! p with
  | Some d => Ret d k
  | None => Fault
  end.

Definition poke (p : positive) (d : hc_sr04) : M unit :=
  modify (λ k, with_heap (<[p := d]> (heap k)) k).

(** [p->field = v]. *)
Definition store (p : positive) (w : write) : M unit :=
  d ← deref p;
  poke p (apply_write w d);;
  emit (EvStore p w).

(** *** Mutexes *)

Definition mutex_held (m : mutex_id) : M bool :=
  match m with
  | DevicesMutex => gets devices_mutex
  | MeasurementMutex p => d ← deref p; mret (measurement_mutex d)
  end.

Definition mutex_set (m : mutex_id) (b : bool) : M unit :=
  match m with
  | DevicesMutex => modify (with_devices_mutex b)
  | MeasurementMutex p => d ← deref p; poke p (set_mutex b d)
  end.

Definition mutex_lock (m : mutex_id) : M unit :=
  held ← mutex_held m;
  if held : bool then block m
  else mutex_set m true;; emit (EvMutexLock m).

Definition mutex_trylock (m : mutex_id) : M bool :=
  held ← mutex_held m;
  if held : bool then emit (EvMutexTrylock m false);; mret false
  else mutex_set m true;; emit (EvMutexTrylock m true);; mret true.

Definition mutex_unlock (m : mutex_id) : M unit :=
  held ← mutex_held m;
  if held : bool then mutex_set m false;; emit (EvMutexUnlock m)
  else fault.

Definition mutex_init (p : positive) : M unit :=
  mutex_set (MeasurementMutex p) false;;
  emit (EvMutexInit p).

(** ** The interrupt handler *)

Definition IRQ_HANDLED : Z := 1.

(** [echo_received_irq(irq, data)].  The handler touches nothing but
    [*data]: it maps the sensor's contents [device] to the value returned,
    the new contents and the calls made.  [now] is what
    [ktime_get_real_ts64] reads and [level] what
    [__gpio_get_value(device->gpio_echo)] reads. *)
Definition echo_received_irq (now : timespec64) (level : Z)
    (irq_no : Z) (data : positive) (device : hc_sr04)
    : Z * hc_sr04 * list event :=
  let irq_ts := now in
  if device_triggered device =? 0 then (IRQ_HANDLED, device, [])
  else if negb (echo_received device =? 0) then (IRQ_HANDLED, device, [])
  else
    let val := level in
    if val =? 1 then
      (IRQ_HANDLED,
       apply_write (W_time_triggered irq_ts) device,
       [EvStore data (W_time_triggered irq_ts)])
    else
      (IRQ_HANDLED,
       apply_write (W_echo_received 1)
         (apply_write (W_time_echoed irq_ts) device),
       [EvStore data (W_time_echoed irq_ts);
        EvStore data (W_echo_received 1);
        EvWakeUp data]).

(** One firing of an interrupt line, for one registered action. *)
Record irq_ev := {
  ev_irq : Z;
  ev_data : positive;
  ev_now : timespec64;
  ev_level : Z
}.

Definition registered (n : Z) (dev : positive) (k : kstate) : bool :=
  bool_decide ((n, dev) ∈ irq_actions k).

(** The sensor's contents after the handler served [e]. *)
Definition irq_dev (e : irq_ev) (d : hc_sr04) : hc_sr04 :=
  (echo_received_irq (ev_now e) (ev_level e) (ev_irq e) (ev_data e) d).1.2.

(** The calls the handler made while serving [e]. *)
Definition irq_calls (e : irq_ev) (d : hc_sr04) : list event :=
  (echo_received_irq (ev_now e) (ev_level e) (ev_irq e) (ev_data e) d).2.

(** The kernel calls the handler of a registered action on its [dev_id],
    and nothing for an action that is not registered. *)
Definition deliver (e : irq_ev) : M unit :=
  reg ← gets (registered (ev_irq e) (ev_data e));
  if reg : bool then
    d ← deref (ev_data e);
    poke (ev_data e) (irq_dev e d);;
    emit (EvIrq (ev_irq e) (ev_data e) (irq_calls e d))
  else mret ().

Fixpoint deliver_all (es : list irq_ev) : M unit :=
  match es with
  | [] => mret ()
  | e :: es' => deliver e;; deliver_all es'
  end.

(** ** Kernel services the driver calls *)

Definition gpio_free (pin : Z) : M unit :=
  modify (λ k, with_gpios (gpios k ∖ {[pin]}) k);;
  emit (EvGpioFree pin).

(** What [gpio_request] answers: a line already requested is busy;
    otherwise the platform may still refuse it ([fault_of]). *)
Definition gpio_request_code (fault_of : Z → option errno) (g : gset Z)
    (pin : Z) : Z :=
  if bool_decide (pin ∈ g) then neg EBUSY
  else match fault_of pin with Some e => neg e | None => 0 end.

Definition gpio_request (fault_of : Z → option errno) (pin : Z) : M Z :=
  g ← gets gpios;
  let r := gpio_request_code fault_of g pin in
  (if r =? 0 then modify (with_gpios ({[pin]} ∪ g)) else mret ());;
  emit (EvGpioRequest pin r);;
  mret r.

Definition gpio_direction_output (pin v : Z) : M unit :=
  emit (EvGpioDirectionOutput pin v).

Definition gpio_direction_input (pin : Z) : M unit :=
  emit (EvGpioDirectionInput pin).

Definition gpio_set_value (pin v : Z) : M unit :=
  emit (EvGpioSetValue pin v).

(** [kmalloc] does not clear memory: a new object holds whatever the
    allocator hands out ([mem]); [None] is an allocation failure. *)
Definition kmalloc (mem : option hc_sr04) : M pointer :=
  match mem with
  | None => emit (EvKmalloc (Raw 0));; mret (Raw 0)
  | Some garbage =>
      a ← gets (λ k, fresh (dom (heap k)));
      poke a garbage;;
      emit (EvKmalloc (Obj a));;
      mret (Obj a)
  end.

Definition kfree (p : positive) : M unit :=
  deref p;;
  modify (λ k, with_heap (delete p (heap k)) k);;
  emit (EvKfree p).

(** What [request_any_context_irq] answers: an error, or the context the
    handler will run in ([IRQC_IS_HARDIRQ] = 0, [IRQC_IS_NESTED] = 1). *)
Inductive irq_result := IrqFail (e : errno) | IrqHard | IrqNested.

Definition irq_result_val (r : irq_result) : Z :=
  match r with IrqFail e => neg e | IrqHard => 0 | IrqNested => 1 end.

Definition request_any_context_irq (outcome : irq_result)
    (n : Z) (dev : positive) : M Z :=
  let r := irq_result_val outcome in
  (if r <? 0 then mret ()
   else modify (λ k, with_irq_actions (irq_actions k ++ [(n, dev)]) k));;
  emit (EvRequestIrq n dev r);;
  mret r.

Definition free_irq (n : Z) (dev : positive) : M unit :=
  modify (λ k, with_irq_actions
                 (List.filter (λ a, negb (bool_decide (a = (n, dev))))
                    (irq_actions k)) k);;
  emit (EvFreeIrq n dev).

Definition init_waitqueue_head (dev : positive) : M unit :=
  emit (EvInitWaitqueue dev).

Definition list_add_tail (dev : positive) : M unit :=
  modify (λ k, with_devices (hc_sr04_devices k ++ [dev]) k);;
  emit (EvListAddTail dev).

Definition list_del (dev : positive) : M unit :=
  modify (λ k, with_devices
                 (List.filter (λ q, negb (bool_decide (q = dev)))
                    (hc_sr04_devices k)) k);;
  emit (EvListDel dev).

(** [device_create_with_groups]: on success the class has one more device,
    whose drvdata is [drvdata]. *)
Definition device_create_with_groups (ok : bool) (drvdata : pointer)
    : M unit :=
  (if ok then modify (λ k, with_class_devices (class_devices k ++ [drvdata]) k)
   else mret ());;
  emit (EvDeviceCreate drvdata ok).

(** [match_device]: [dev_get_drvdata(dev) == data]. *)
Definition match_device (drvdata : pointer) (data : pointer) : bool :=
  bool_decide (drvdata = data).

(** [class_find_device(&hc_sr04_class, NULL, data, match_device)]: the
    first device of the class that matches, by its position. *)
Definition class_find_device (data : pointer) : M (option nat) :=
  c ← gets class_devices;
  mret (fst <$> list_find (λ drvdata, match_device drvdata data = true) c).

Definition device_unregister (idx : nat) : M unit :=
  modify (λ k, with_class_devices (delete idx (class_devices k)) k);;
  emit (EvDeviceUnregister idx).

Definition put_device (idx : nat) : M unit := emit (EvPutDevice idx).

(** *** Waiting for the echo *)

Inductive wait_ev := WIrq (e : irq_ev) | WTick | WSignal.

Definition MAX_SCHEDULE_TIMEOUT (abi : data_model) : Z :=
  2 ^ (long_bits abi - 1) - 1.

(** Modelled from the spec: the kernel's
    [wait_event_interruptible_timeout] is not part of the driver's source.
    The caller sleeps until the condition [device->echo_received] holds,
    the budget of jiffies runs out, or a signal arrives, and gets the
    jiffies left (at least 1), 0, or [-ERESTARTSYS].  While it sleeps
    interrupts are served ([WIrq]) and jiffies pass ([WTick]); when the
    events run out the rest of the budget passes quietly. *)
Fixpoint wait_loop (p : positive) (evs : list wait_ev) (remaining : Z)
    : M Z :=
  d ← deref p;
  if negb (echo_received d =? 0) then mret (Z.max 1 remaining)
  else if remaining <=? 0 then mret 0
  else match evs with
       | [] => mret 0
       | WSignal :: _ => mret (neg ERESTARTSYS)
       | WTick :: evs' => wait_loop p evs' (remaining - 1)
       | WIrq e :: evs' => deliver e;; wait_loop p evs' remaining
       end.

(** Modelled from the spec: see [wait_loop].  A budget above
    [MAX_SCHEDULE_TIMEOUT] is outside the primitive's contract and is taken
    as [MAX_SCHEDULE_TIMEOUT]. *)
Definition wait_event_interruptible_timeout (abi : data_model)
    (p : positive) (evs : list wait_ev) (jiffies : Z) : M Z :=
  r ← wait_loop p evs (Z.min jiffies (MAX_SCHEDULE_TIMEOUT abi));
  emit (EvWait p jiffies r);;
  mret r.

(** ** The platform and the environment *)

Record platform := {
  abi : data_model;
  gpio_is_valid : Z → bool;
  gpio_to_irq : Z → Z;
  (* sscanf(s, "%d %d %d", ...) and sscanf(s, "%d %d", ...): the values
     converted, when all conversions succeed *)
  sscanf_ddd : string → option (Z * Z * Z);
  sscanf_dd : string → option (Z * Z)
}.

(** What happens around one measurement: the interrupts served between
    two consecutive statements of [do_measurement] (by position), and the
    events during the wait. *)
Record measure_env := {
  irqs_at : nat → list irq_ev;
  wait_evs : list wait_ev
}.

(** What the kernel answers during one [add]. *)
Record add_env := {
  kmalloc_mem : option hc_sr04;
  gpio_fault : Z → option errno;
  irq_outcome : irq_result;
  device_create_ok : bool
}.

(** The elapsed microseconds as [do_measurement] computes them: 64-bit
    signed arithmetic, C division, stored in an [unsigned long long]. *)
Definition usecs_between (abi : data_model) (d : hc_sr04) : Z :=
  to_u64
    (to_s64
       (to_s64 (to_s64 (tv_sec (time_echoed d) - tv_sec (time_triggered d))
                * 1000000)
        + Z.quot (to_long abi (tv_nsec (time_echoed d)
                                - tv_nsec (time_triggered d))) 1000)).

Section Driver.

Context (pf : platform).

Definition setup_hc_sr04_gpio (env : add_env) (trig echo : Z) : M Z :=
  if negb (gpio_is_valid pf trig) || negb (gpio_is_valid pf echo)
  then mret (neg EINVAL)
  else
    ret ← gpio_request (gpio_fault env) trig;
    if ret <? 0 then mret ret
    else
      ret ← gpio_request (gpio_fault env) echo;
      if ret <? 0 then gpio_free trig;; mret ret
      else
        gpio_direction_output trig 0;;
        gpio_direction_input echo;;
        mret ret.

Definition setup_hc_sr04_irq (env : add_env) (device : positive) : M Z :=
  d ← deref device;
  store device (W_irq (gpio_to_irq pf (gpio_echo d)));;
  d ← deref device;
  if irq d <? 0 then mret (irq d)
  else
    ret ← request_any_context_irq (irq_outcome env) (irq d) device;
    mret ret.

(** Must be called with [devices_mutex] held. *)
Definition create_hc_sr04 (env : add_env) (trig echo timeout : Z)
    : M pointer :=
  new ← kmalloc (kmalloc_mem env);
  match new with
  | Raw _ => mret (ERR_PTR (neg ENOMEM))
  | Obj new =>
      store new (W_gpio_echo echo);;
      store new (W_gpio_trig trig);;
      d ← deref new;
      err ← setup_hc_sr04_gpio env (gpio_trig d) (gpio_echo d);
      if negb (err =? 0) then kfree new;; mret (ERR_PTR err)
      else
        mutex_init new;;
        init_waitqueue_head new;;
        store new (W_timeout timeout);;
        err ← setup_hc_sr04_irq env new;
        if negb (err =? 0) then
          d ← deref new;
          gpio_free (gpio_trig d);;
          gpio_free (gpio_echo d);;
          kfree new;;
          mret (ERR_PTR err)
        else
          list_add_tail new;;
          mret (Obj new)
  end.

Definition destroy_hc_sr04 (device : positive) : M unit :=
  list_del device;;
  d ← deref device;
  free_irq (irq d) device;;
  gpio_free (gpio_echo d);;
  gpio_free (gpio_trig d);;
  kfree device.

(** [devices_mutex] must be held by the caller.  Returns the status and
    what was stored in [*usecs_elapsed], if anything.  The local variable
    [timeout] of the C function is [remaining] here, and
    [deliver_all (irqs_at env i)] stands for the interrupts served at that
    point of the function. *)
Definition do_measurement (env : measure_env) (device : positive)
    : M (Z * option Z) :=
  acquired ← mutex_trylock (MeasurementMutex device);
  if negb acquired then
    mutex_unlock DevicesMutex;;
    mret (neg EBUSY, None)
  else
    mutex_unlock DevicesMutex;;
    emit (EvMsleep 60);;
    deliver_all (irqs_at env 0);;
    store device (W_echo_received 0);;
    deliver_all (irqs_at env 1);;
    store device (W_device_triggered 0);;
    deliver_all (irqs_at env 2);;
    d ← deref device;
    gpio_set_value (gpio_trig d) 1;;
    deliver_all (irqs_at env 3);;
    emit (EvUdelay 10);;
    deliver_all (irqs_at env 4);;
    store device (W_device_triggered 1);;
    deliver_all (irqs_at env 5);;
    d ← deref device;
    gpio_set_value (gpio_trig d) 0;;
    deliver_all (irqs_at env 6);;
    d ← deref device;
    remaining ← wait_event_interruptible_timeout (abi pf) device
                  (wait_evs env) (timeout d);
    deliver_all (irqs_at env 7);;
    '(ret, usecs) ←
      (if remaining =? 0 then mret (neg ETIMEDOUT, None)
       else if remaining <? 0 then mret (to_int remaining, None)
       else
         d ← deref device;
         mret (0, Some (usecs_between (abi pf) d)));
    deliver_all (irqs_at env 8);;
    mutex_unlock (MeasurementMutex device);;
    mret (ret, usecs).

(** [sprintf(buf, "%lld\n", usecs_elapsed)]: the text written. *)
Definition sprintf_lld (usecs_elapsed : Z) : string :=
  pretty (to_s64 usecs_elapsed) +:+ String "010"%char "".

(** [sensor] is the device's drvdata.  Returns the status and the text
    written to [buf], if any. *)
Definition sysfs_do_measurement (env : measure_env) (sensor : pointer)
    : M (Z * option string) :=
  mutex_lock DevicesMutex;;
  '(status, usecs_elapsed) ←
    match sensor with
    | Obj a => do_measurement env a
    | Raw _ => fault
    end;
  if status <? 0 then mret (status, None)
  else
    let text := sprintf_lld (default 0 usecs_elapsed) in
    mret (Z.of_nat (String.length text), Some text).

Fixpoint find_sensor_from (l : list positive) (trig echo : Z)
    : M (option positive) :=
  match l with
  | [] => mret None
  | sensor :: rest =>
      d ← deref sensor;
      if (gpio_trig d =? trig) && (gpio_echo d =? echo)
      then mret (Some sensor)
      else find_sensor_from rest trig echo
  end.

Definition find_sensor (trig echo : Z) : M (option positive) :=
  l ← gets hc_sr04_devices;
  find_sensor_from l trig echo.

Definition add_sensor (env : add_env) (trig echo timeout : Z) : M Z :=
  new_sensor ← create_hc_sr04 env trig echo timeout;
  if IS_ERR new_sensor then mret (PTR_ERR new_sensor)
  else
    device_create_with_groups (device_create_ok env) new_sensor;;
    mret 0.

(** Must be called with [devices_mutex] held. *)
Definition remove_sensor (rip_sensor : positive) : M Z :=
  dev ← class_find_device (Obj rip_sensor);
  match dev with
  | None => mret (neg ENODEV)
  | Some dev =>
      mutex_lock (MeasurementMutex rip_sensor);;
      device_unregister dev;;
      put_device dev;;
      mutex_unlock (MeasurementMutex rip_sensor);;
      destroy_hc_sr04 rip_sensor;;
      mret 0
  end.

(** [buf[0]]; an empty buffer holds just the terminating NUL. *)
Definition first_char (buf : string) : ascii :=
  match buf with String c _ => c | EmptyString => "000"%char end.

(** [s]: [buf] past a leading sign. *)
Definition skip_sign (buf : string) : string :=
  if bool_decide (first_char buf = "-"%char)
     || bool_decide (first_char buf = "+"%char)
  then match buf with String _ s' => s' | EmptyString => buf end
  else buf.

Definition configure_store (env : add_env) (buf : string) (len : Z)
    : M Z :=
  let add := negb (bool_decide (first_char buf = "-"%char)) in
  let s := skip_sign buf in
  if add then
    match sscanf_ddd pf s with
    | None => mret (neg EINVAL)
    | Some (trig, echo, timeout) =>
        let trig := to_int trig in
        let echo := to_int echo in
        let timeout := to_int timeout in
        mutex_lock DevicesMutex;;
        found ← find_sensor trig echo;
        if found is Some _ then
          mutex_unlock DevicesMutex;;
          mret (neg EEXIST)
        else
          err ← add_sensor env trig echo (to_ulong (abi pf) timeout);
          mutex_unlock DevicesMutex;;
          if err <? 0 then mret err else mret len
    end
  else
    match sscanf_dd pf s with
    | None => mret (neg EINVAL)
    | Some (trig, echo) =>
        let trig := to_int trig in
        let echo := to_int echo in
        mutex_lock DevicesMutex;;
        rip_sensor ← find_sensor trig echo;
        match rip_sensor with
        | None =>
            mutex_unlock DevicesMutex;;
            mret (neg ENODEV)
        | Some rip_sensor =>
            err ← remove_sensor rip_sensor;
            mutex_unlock DevicesMutex;;
            if err <? 0 then mret err else mret len
        end
    end.

End Driver.

(** ** Unloading the module *)

(** The loop of [exit_hc_sr04]:
    [list_for_each_entry_safe(rip_sensor, tmp, &hc_sr04_devices, list)]
    around [remove_sensor(rip_sensor)].  [tmp] is read before the body
    runs and the body unlinks no node but [rip_sensor], so the loop visits
    the nodes the list had on entry, in order.  What [remove_sensor]
    returns is dropped. *)
Fixpoint remove_each (l : list positive) : M unit :=
  match l with
  | [] => mret ()
  | rip_sensor :: tmp => remove_sensor rip_sensor;; remove_each tmp
  end.

(** [class_unregister(&hc_sr04_class)]: the class itself is not part of
    the state. *)
Definition class_unregister : M unit := mret ().

Definition exit_hc_sr04 : M unit :=
  mutex_lock DevicesMutex;;
  l ← gets hc_sr04_devices;
  remove_each l;;
  mutex_unlock DevicesMutex;;
  class_unregister.

(** * Vocabulary of the properties *)

(** The calls logged between state [k] and a later state [k']. *)
Definition since (k k' : kstate) : list event :=
  drop (length (trace k)) (trace k').

Definition is_wakeup (p : positive) (e : event) : bool :=
  match e with EvWakeUp q => bool_decide (q = p) | _ => false end.

(** The calls interrupt handlers made, flattened. *)
Definition handler_calls (t : list event) : list event :=
  flat_map (λ e, match e with EvIrq _ _ acts => acts | _ => [] end) t.

(** How many times handlers woke the waiter of sensor [p]. *)
Definition wakeups (p : positive) (t : list event) : nat :=
  length (List.filter (is_wakeup p) (handler_calls t)).

(** Every registered interrupt action points to a live sensor. *)
Definition irq_live (k : kstate) : Prop :=
  ∀ n q, (n, q) ∈ irq_actions k → is_Some (heap k !! q).

(** The handler's guard: it returns at once on a sensor that is not
    triggered or has its echo already. *)
Definition guard_closed (d : hc_sr04) : Prop :=
  device_triggered d = 0 ∨ echo_received d ≠ 0.

(** The fields fixed when the sensor is created. *)
Definition same_config (d d' : hc_sr04) : Prop :=
  gpio_trig d' = gpio_trig d ∧ gpio_echo d' = gpio_echo d ∧
  irq d' = irq d ∧ timeout d' = timeout d.

(** The two heaps hold the same sensors, each with the same
    configuration. *)
Definition heap_config_eq (h h' : gmap positive hc_sr04) : Prop :=
  ∀ q, option_Forall2 same_config (h !! q) (h' !! q).

(** Everything but the sensors' timing state and mutex, [devices_mutex]
    and the log. *)
Definition frame_eq (k k' : kstate) : Prop :=
  hc_sr04_devices k' = hc_sr04_devices k ∧
  gpios k' = gpios k ∧
  irq_actions k' = irq_actions k ∧
  class_devices k' = class_devices k ∧
  heap_config_eq (heap k) (heap k').

Definition triple {A} (P : kstate → Prop) (m : M A)
    (Q : A → kstate → Prop) : Prop :=
  ∀ k, P k → ∃ a k', m k = Ret a k' ∧ Q a k'.

(** The stores [do_measurement] makes: the two flags. *)
Definition flag_write (w : write) : bool :=
  match w with
  | W_echo_received _ | W_device_triggered _ => true
  | _ => false
  end.

(** A state in the middle of a measurement on sensor [p], started in
    state [k0] where the sensor's contents were [d0]: the registry lock is
    released, the measurement's own calls so far are [pe], the sensor's
    mutex is [held] and its contents satisfy [φ]. *)
Definition mid (p : positive) (k0 : kstate) (d0 : hc_sr04)
    (held : bool) (pe : list event) (φ : hc_sr04 → Prop)
    (k : kstate) : Prop :=
  frame_eq k0 k ∧ devices_mutex k = false ∧
  (∃ t, trace k = trace k0 ++ t ∧ process_events t = pe) ∧
  ∃ d, heap k !! p = Some d ∧ same_config d0 d ∧
       measurement_mutex d = held ∧ φ d.

(** The echo is in when the wait says so. *)
Definition echo_in (w : Z) (d : hc_sr04) : Prop :=
  0 < w → echo_received d ≠ 0.

Definition wait_result (w : Z) : Prop :=
  w = 0 ∨ w = neg ERESTARTSYS ∨ 0 < w.

(** The interrupts served while [do_measurement] runs. *)
Definition env_event (env : measure_env) (e : irq_ev) : Prop :=
  (∃ i, e ∈ irqs_at env i) ∨ WIrq e ∈ wait_evs env.

(** The calls [do_measurement] makes, in order, on a sensor with contents
    [d] when the wait returns [w]. *)
Definition waiting_calls (p : positive) (d : hc_sr04) (w : Z)
    : list event :=
  [ EvMutexTrylock (MeasurementMutex p) true;
    EvMutexUnlock DevicesMutex;
    EvMsleep 60;
    EvStore p (W_echo_received 0);
    EvStore p (W_device_triggered 0);
    EvGpioSetValue (gpio_trig d) 1;
    EvUdelay 10;
    EvStore p (W_device_triggered 1);
    EvGpioSetValue (gpio_trig d) 0;
    EvWait p (timeout d) w ].

Definition measurement_calls (p : positive) (d : hc_sr04) (w : Z)
    : list event :=
  waiting_calls p d w ++ [EvMutexUnlock (MeasurementMutex p)].

(** What [do_measurement] returns ([r], and [u] in [*usecs_elapsed]) when
    the wait returned [w] and the sensor is left with contents [d]. *)
Definition outcome (abi0 : data_model) (w r : Z) (u : option Z)
    (d : hc_sr04) : Prop :=
  (w = 0 ∧ r = neg ETIMEDOUT ∧ u = None) ∨
  (w = neg ERESTARTSYS ∧ r = neg ERESTARTSYS ∧ u = None) ∨
  (0 < w ∧ r = 0 ∧ u = Some (usecs_between abi0 d) ∧ echo_received d ≠ 0).

(** *** Timestamps *)

Definition NSEC_PER_SEC : Z := 1000000000.

(** [KTIME_SEC_MAX]: the largest number of seconds the kernel's clock
    holds. *)
Definition KTIME_SEC_MAX : Z := 9223372036.

(** A timestamp [ktime_get_real_ts64] can produce. *)
Definition valid_ts (t : timespec64) : Prop :=
  0 <= tv_sec t <= KTIME_SEC_MAX ∧ 0 <= tv_nsec t < NSEC_PER_SEC.

(** [a] is not later than [b]. *)
Definition ts_le (a b : timespec64) : Prop :=
  tv_sec a < tv_sec b ∨ (tv_sec a = tv_sec b ∧ tv_nsec a <= tv_nsec b).

(** Seconds difference times one million plus nanoseconds difference
    divided by one thousand, over the integers; the division is C's,
    which rounds towards zero. *)
Definition elapsed_formula (triggered echoed : timespec64) : Z :=
  (tv_sec echoed - tv_sec triggered) * 1000000
  + (tv_nsec echoed - tv_nsec triggered) ÷ 1000.

(** *** Adding a sensor *)

(** Why [setup_hc_sr04_gpio] failed with code [r], the lines requested so
    far being [g]. *)
Inductive gpio_failure (pf : platform) (env : add_env) (trig echo : Z)
    (g : gset Z) : Z → Prop :=
  | GF_invalid :
      gpio_is_valid pf trig = false ∨ gpio_is_valid pf echo = false →
      gpio_failure pf env trig echo g (neg EINVAL)
  | GF_trig :
      gpio_is_valid pf trig = true → gpio_is_valid pf echo = true →
      gpio_request_code (gpio_fault env) g trig < 0 →
      gpio_failure pf env trig echo g
        (gpio_request_code (gpio_fault env) g trig)
  | GF_echo :
      gpio_is_valid pf trig = true → gpio_is_valid pf echo = true →
      gpio_request_code (gpio_fault env) g trig = 0 →
      gpio_request_code (gpio_fault env) ({[trig]} ∪ g) echo < 0 →
      gpio_failure pf env trig echo g
        (gpio_request_code (gpio_fault env) ({[trig]} ∪ g) echo).

(** Both lines are valid and both requests are granted, the lines
    requested so far being [g]. *)
Definition gpio_granted (pf : platform) (env : add_env) (trig echo : Z)
    (g : gset Z) : Prop :=
  gpio_is_valid pf trig = true ∧ gpio_is_valid pf echo = true ∧
  gpio_request_code (gpio_fault env) g trig = 0 ∧
  gpio_request_code (gpio_fault env) ({[trig]} ∪ g) echo = 0.

(** The first step of an add that fails, by the code [r] it fails with:
    the allocation, the validation or the request of a line, the
    translation of the echo line to an interrupt number, or the
    registration of the handler.  A step is looked at only when the
    steps before it went through. *)
Inductive add_failure (pf : platform) (env : add_env) (trig echo : Z)
    (g : gset Z) : Z → Prop :=
  | AF_nomem :
      kmalloc_mem env = None →
      add_failure pf env trig echo g (neg ENOMEM)
  | AF_gpio r :
      is_Some (kmalloc_mem env) →
      gpio_failure pf env trig echo g r →
      add_failure pf env trig echo g r
  | AF_to_irq :
      is_Some (kmalloc_mem env) →
      gpio_granted pf env trig echo g →
      gpio_to_irq pf echo < 0 →
      add_failure pf env trig echo g (gpio_to_irq pf echo)
  | AF_request_irq e :
      is_Some (kmalloc_mem env) →
      gpio_granted pf env trig echo g →
      0 <= gpio_to_irq pf echo →
      irq_outcome env = IrqFail e →
      add_failure pf env trig echo g (neg e).

(** The contents of a sensor right after [create_hc_sr04], allocated over
    the memory contents [garbage]. *)
Definition created (pf : platform) (trig echo tmo : Z) (garbage : hc_sr04)
    : hc_sr04 :=
  apply_write (W_irq (gpio_to_irq pf echo))
    (apply_write (W_timeout tmo)
       (set_mutex false
          (apply_write (W_gpio_trig trig)
             (apply_write (W_gpio_echo echo) garbage)))).

(** *** The registry *)

(** Sensor [p] is live and configured for the pins [(trig, echo)]. *)
Definition has_key (trig echo : Z) (k : kstate) (p : positive) : bool :=
  match heap k !! p with
  | Some d => (gpio_trig d =? trig) && (gpio_echo d =? echo)
  | None => false
  end.

(** The registered sensors with the key [(trig, echo)]. *)
Definition sensors_with_key (trig echo : Z) (k : kstate) : list positive :=
  List.filter (has_key trig echo k) (hc_sr04_devices k).

(** The list holds live sensors, each once, and no two share a key. *)
Definition registry_ok (k : kstate) : Prop :=
  NoDup (hc_sr04_devices k) ∧
  (∀ p, p ∈ hc_sr04_devices k → is_Some (heap k !! p)) ∧
  (∀ trig echo, (length (sensors_with_key trig echo k) ≤ 1)%nat).

(** Every registered interrupt action is the one of a live sensor, under
    the sensor's own interrupt number. *)
Definition irq_sound (k : kstate) : Prop :=
  ∀ n q, (n, q) ∈ irq_actions k → ∃ d, heap k !! q = Some d ∧ irq d = n.

(** The invariant of the driver's state. *)
Definition driver_ok (k : kstate) : Prop := registry_ok k ∧ irq_sound k.

(** The states the driver reaches from [boot] by requests written to
    [configure] and reads of a sensor's [measure], each run to its end,
    on a platform where [request_any_context_irq] does not answer
    [IRQC_IS_NESTED]. *)
Inductive reachable (pf : platform) : kstate → Prop :=
  | reach_boot : reachable pf boot
  | reach_configure k env buf len r k' :
      reachable pf k →
      irq_outcome env ≠ IrqNested →
      configure_store pf env buf len k = Ret r k' →
      reachable pf k'
  | reach_measure k env p r k' :
      reachable pf k →
      sysfs_do_measurement pf env (Obj p) k = Ret r k' →
      reachable pf k'.

(** *** Orders of calls that the code does not follow *)

(** The trigger pin is back to low before [device_triggered] is set. *)
Definition claimed_trigger_order (p : positive) (d : hc_sr04)
    (t : list event) : Prop :=
  ∃ i j : nat,
    t !! i = Some (EvGpioSetValue (gpio_trig d) 0) ∧
    t !! j = Some (EvStore p (W_device_triggered 1)) ∧
    (i < j)%nat.

(** Under the sensor's mutex: the handler is unregistered, the pins are
    released and the sensor leaves the list; then the mutex is released;
    then the sensor is freed. *)
Definition claimed_remove_order (p : positive) (d : hc_sr04)
    (t : list event) : Prop :=
  ∃ i_lock i_irq i_echo i_trig i_del i_unlock i_free : nat,
    t !! i_lock = Some (EvMutexLock (MeasurementMutex p)) ∧
    t !! i_irq = Some (EvFreeIrq (irq d) p) ∧
    t !! i_echo = Some (EvGpioFree (gpio_echo d)) ∧
    t !! i_trig = Some (EvGpioFree (gpio_trig d)) ∧
    t !! i_del = Some (EvListDel p) ∧
    t !! i_unlock = Some (EvMutexUnlock (MeasurementMutex p)) ∧
    t !! i_free = Some (EvKfree p) ∧
    (i_lock < i_irq)%nat ∧ (i_irq < i_echo)%nat ∧ (i_irq < i_trig)%nat ∧
    (i_echo < i_del)%nat ∧ (i_trig < i_del)%nat ∧
    (i_del < i_unlock)%nat ∧ (i_unlock < i_free)%nat.


(** ** A Raspberry Pi with one sensor on pins 23 and 24

    Concrete inputs on which the properties below are exercised. *)

Definition rpi : platform :=
  {| abi := ILP32;
     gpio_is_valid := λ pin, (0 <=? pin) && (pin <? 54);
     gpio_to_irq := λ pin, 160 + pin;
     sscanf_ddd := λ s, if String.eqb s "23 24 1000"
                        then Some (23, 24, 1000) else None;
     sscanf_dd := λ s, if String.eqb s "23 24" then Some (23, 24) else None |}.

(** The sensor as an earlier measurement left it. *)
Definition d_idle : hc_sr04 :=
  {| gpio_trig := 23; gpio_echo := 24; irq := 184;
     time_triggered := {| tv_sec := 100; tv_nsec := 0 |};
     time_echoed := {| tv_sec := 100; tv_nsec := 500000 |};
     echo_received := 1; device_triggered := 1;
     measurement_mutex := false; timeout := 1000 |}.

Definition k_idle : kstate :=
  {| heap := {[ 1%positive := d_idle ]};
     hc_sr04_devices := [1%positive];
     devices_mutex := false;
     gpios := {[ 23; 24 ]};
     irq_actions := [(184, 1%positive)];
     class_devices := [Obj 1];
     trace := [] |}.

(** The same, entered by [sysfs_do_measurement] with the registry lock. *)
Definition k_measure : kstate := with_devices_mutex true k_idle.

(** The same while another measurement holds the sensor's mutex. *)
Definition k_busy : kstate :=
  with_heap {[ 1%positive := set_mutex true d_idle ]} k_measure.

Definition edge (sec nsec level : Z) : irq_ev :=
  {| ev_irq := 184; ev_data := 1%positive;
     ev_now := {| tv_sec := sec; tv_nsec := nsec |}; ev_level := level |}.

(** The echo pin rises, and falls 1000 microseconds later. *)
Definition menv_echo : measure_env :=
  {| irqs_at := λ _, [];
     wait_evs := [WIrq (edge 200 1000 1); WTick; WIrq (edge 200 1001000 0)] |}.

(** An echo 1400 ns long that straddles a second. *)
Definition menv_straddle : measure_env :=
  {| irqs_at := λ _, [];
     wait_evs := [WIrq (edge 200 999999000 1); WIrq (edge 201 400 0)] |}.

(** Only the falling edge is served. *)
Definition menv_fall_only : measure_env :=
  {| irqs_at := λ _, [];
     wait_evs := [WTick; WIrq (edge 200 1001000 0)] |}.

(** No echo. *)
Definition menv_quiet : measure_env :=
  {| irqs_at := λ _, []; wait_evs := [] |}.

(** A signal arrives before any echo. *)
Definition menv_signal : measure_env :=
  {| irqs_at := λ _, []; wait_evs := [WTick; WSignal] |}.

(** Memory as [kmalloc] may hand it out. *)
Definition garbage : hc_sr04 :=
  {| gpio_trig := 77; gpio_echo := 88; irq := 99;
     time_triggered := {| tv_sec := 5; tv_nsec := 7 |};
     time_echoed := {| tv_sec := 0; tv_nsec := 0 |};
     echo_received := 3; device_triggered := 4;
     measurement_mutex := true; timeout := 5 |}.

Definition aenv_ok : add_env :=
  {| kmalloc_mem := Some garbage; gpio_fault := λ _, None;
     irq_outcome := IrqHard; device_create_ok := true |}.

(** [request_any_context_irq] registers the handler as a nested one. *)
Definition aenv_nested : add_env :=
  {| kmalloc_mem := Some garbage; gpio_fault := λ _, None;
     irq_outcome := IrqNested; device_create_ok := true |}.



(** ** Vocabulary of the further properties *)

(** Nothing changed but the registry lock and the log. *)
Definition untouched (k k' : kstate) : Prop :=
  heap k' = heap k ∧
  hc_sr04_devices k' = hc_sr04_devices k ∧
  gpios k' = gpios k ∧
  irq_actions k' = irq_actions k ∧
  class_devices k' = class_devices k.

(** [device_create_with_groups] fails. *)
Definition aenv_no_device : add_env :=
  {| kmalloc_mem := Some garbage; gpio_fault := λ _, None;
     irq_outcome := IrqHard; device_create_ok := false |}.

(** The same board, asked for pin 23 as both lines. *)
Definition rpi_one_pin : platform :=
  {| abi := ILP32;
     gpio_is_valid := gpio_is_valid rpi;
     gpio_to_irq := gpio_to_irq rpi;
     sscanf_ddd := λ s, if String.eqb s "23 23 1000"
                        then Some (23, 23, 1000) else None;
     sscanf_dd := sscanf_dd rpi |}.

(** A measurement on the sensor is under way: its mutex is held and the
    registry lock is free again. *)
Definition k_measuring : kstate := with_devices_mutex false k_busy.

(** *** A measurement with nothing served before the wait *)

(** The sensor when [do_measurement] starts to wait, having found it with
    contents [d] and its mutex free. *)
Definition armed (d : hc_sr04) : hc_sr04 :=
  apply_write (W_device_triggered 1)
    (apply_write (W_device_triggered 0)
       (apply_write (W_echo_received 0) (set_mutex true d))).

(** The state in which [do_measurement], entered in state [k], starts to
    wait when no interrupt was served on the way. *)
Definition armed_state (p : positive) (d : hc_sr04) (k : kstate) : kstate :=
  with_trace
    (trace k ++
       [ EvMutexTrylock (MeasurementMutex p) true;
         EvMutexUnlock DevicesMutex;
         EvMsleep 60;
         EvStore p (W_echo_received 0);
         EvStore p (W_device_triggered 0);
         EvGpioSetValue (gpio_trig d) 1;
         EvUdelay 10;
         EvStore p (W_device_triggered 1);
         EvGpioSetValue (gpio_trig d) 0 ])
    (with_devices_mutex false (with_heap (<[p := armed d]> (heap k)) k)).

(** The echo line of sensor [p] with contents [d] changes to [level] at
    time [now]. *)
Definition echo_edge (p : positive) (d : hc_sr04) (now : timespec64)
    (level : Z) : irq_ev :=
  {| ev_irq := irq d; ev_data := p; ev_now := now; ev_level := level |}.

(** *** Unloading *)

(** Sensor [q] is one of [l] and the class has a device for it: it is
    what [remove_sensor] takes away. *)
Definition removable (l : list positive) (k : kstate) (q : positive)
    : Prop :=
  q ∈ l ∧ Obj q ∈ class_devices k.

(** The sensor as left by the add, the class having no device for it. *)
Definition k_no_device : kstate := with_class_devices [] k_idle.

(** *** What a request leaves of the other sensors *)

(** From [k] to [k'] no sensor but [p] had its mutex taken, released or
    initialised, and no sensor but [p] appeared or went away. *)
Definition other_mutexes_kept (p : positive) (k k' : kstate) : Prop :=
  ∀ q, q ≠ p →
       measurement_mutex <$> heap k' !! q = measurement_mutex <$> heap k !! q.

(** Every [Ret] of [m] relates the state before to the state after by
    [R]. *)
Definition keeps {A} (R : kstate → kstate → Prop) (m : M A) : Prop :=
  ∀ k a k', m k = Ret a k' → R k k'.

(** *** The three things a request to [configure] can do *)

(** One sensor more: a new object, at the end of the list, on lines that
    were free, with its handler and possibly its class device. *)
Definition added (pf : platform) (k k' : kstate) : Prop :=
  ∃ trig echo tmo garbage,
    heap k' = <[fresh (dom (heap k)) := created pf trig echo tmo garbage]>
                (heap k) ∧
    hc_sr04_devices k' = hc_sr04_devices k ++ [fresh (dom (heap k))] ∧
    gpios k' = {[echo]} ∪ ({[trig]} ∪ gpios k) ∧
    irq_actions k' =
      irq_actions k ++ [(gpio_to_irq pf echo, fresh (dom (heap k)))] ∧
    (class_devices k' = class_devices k ∨
     class_devices k' = class_devices k ++ [Obj (fresh (dom (heap k)))]) ∧
    sensors_with_key trig echo k = [] ∧
    (trig ∉ gpios k) ∧ (echo ∉ gpios k) ∧ trig ≠ echo.

(** One sensor less: a listed sensor that is not measuring goes, with its
    handler, its lines and the first class device that points to it. *)
Definition removed (k k' : kstate) : Prop :=
  ∃ p d idx,
    heap k !! p = Some d ∧ p ∈ hc_sr04_devices k ∧
    measurement_mutex d = false ∧
    heap k' = delete p (heap k) ∧
    hc_sr04_devices k' =
      List.filter (λ q, negb (bool_decide (q = p))) (hc_sr04_devices k) ∧
    gpios k' = gpios k ∖ {[gpio_echo d]} ∖ {[gpio_trig d]} ∧
    irq_actions k' =
      List.filter (λ a, negb (bool_decide (a = (irq d, p)))) (irq_actions k) ∧
    class_devices k' = delete idx (class_devices k) ∧
    class_devices k !! idx = Some (Obj p) ∧
    (∀ j, (j < idx)%nat → class_devices k !! j ≠ Some (Obj p)).

(** No sensor more or less.  The class may have got a device whose
    drvdata is an error pointer: [add_sensor] goes on to
    [device_create_with_groups] when [create_hc_sr04] fails with a code
    that [IS_ERR] does not recognise. *)
Definition declined (k k' : kstate) : Prop :=
  heap k' = heap k ∧
  hc_sr04_devices k' = hc_sr04_devices k ∧
  gpios k' = gpios k ∧
  irq_actions k' = irq_actions k ∧
  (class_devices k' = class_devices k ∨
   ∃ z, class_devices k' = class_devices k ++ [Raw z]).

(** *** Between two requests *)

(** Sensor [p] with contents [d] is at rest: listed, not measuring, with
    its handler registered and its two distinct lines requested. *)
Definition sensor_settled (k : kstate) (p : positive) (d : hc_sr04)
    : Prop :=
  p ∈ hc_sr04_devices k ∧
  measurement_mutex d = false ∧
  (irq d, p) ∈ irq_actions k ∧
  gpio_trig d ∈ gpios k ∧ gpio_echo d ∈ gpios k ∧
  gpio_trig d ≠ gpio_echo d.

(** Two sensors share no line. *)
Definition lines_apart (d d' : hc_sr04) : Prop :=
  gpio_trig d ≠ gpio_trig d' ∧ gpio_trig d ≠ gpio_echo d' ∧
  gpio_echo d ≠ gpio_trig d' ∧ gpio_echo d ≠ gpio_echo d'.

(** A class device that points to a sensor points to a listed one, and
    no two point to the same sensor. *)
Definition class_devices_ok (k : kstate) : Prop :=
  (∀ p, Obj p ∈ class_devices k → p ∈ hc_sr04_devices k) ∧
  (∀ p (i j : nat),
     class_devices k !! i = Some (Obj p) →
     class_devices k !! j = Some (Obj p) → i = j).

(** The state between two requests: the invariant of the driver's state
    holds, no lock is held, nothing is allocated or requested but what
    the listed sensors own, and no two sensors share a line. *)
Definition settled (k : kstate) : Prop :=
  driver_ok k ∧
  devices_mutex k = false ∧
  (∀ p d, heap k !! p = Some d → sensor_settled k p d) ∧
  (∀ p q dp dq, heap k !! p = Some dp → heap k !! q = Some dq → p ≠ q →
                lines_apart dp dq) ∧
  (∀ pin, pin ∈ gpios k →
          ∃ p d, heap k !! p = Some d ∧
                 (pin = gpio_trig d ∨ pin = gpio_echo d)) ∧
  class_devices_ok k.

(** The first sensor has been added to an empty registry. *)
Definition k_added : kstate :=
  Eval vm_compute in
    match configure_store rpi aenv_ok "23 24 1000" 11 boot with
    | Ret _ k => k
    | _ => boot
    end.
(** *** One echo per reset *)

(** 1 when sensor [p] has its echo, 0 when it waits for one. *)
Definition echo_flag (p : positive) (k : kstate) : nat :=
  match heap k !! p with
  | Some d => if echo_received d =? 0 then 0%nat else 1%nat
  | None => 0%nat
  end.

Definition is_echo_set (p : positive) (e : event) : bool :=
  match e with
  | EvStore q (W_echo_received v) => bool_decide (q = p) && negb (v =? 0)
  | _ => false
  end.

(** How many times handlers set [echo_received] of sensor [p]: the
    handler stores it only when it finds it at 0. *)
Definition echo_sets (p : positive) (t : list event) : nat :=
  length (List.filter (is_echo_set p) (handler_calls t)).

(** From [k] to [k'] the log grew; every handler that set
    [echo_received] of [p] in between woke the waiter and the other way
    round, and each found [echo_received] at 0 and left it set, nothing
    having reset it. *)
Definition wakeups_paid (p : positive) (k k' : kstate) : Prop :=
  ∃ t, trace k' = trace k ++ t ∧
       echo_sets p t = wakeups p t ∧
       (wakeups p t + echo_flag p k ≤ echo_flag p k')%nat.

(** The claim that in one measurement, which logs the calls [t],
    [echo_received] is set at most once and the waiter is woken at most
    once. *)
Definition claimed_one_echo (p : positive) (t : list event) : Prop :=
  (echo_sets p t ≤ 1)%nat ∧ (wakeups p t ≤ 1)%nat.

(** The sensor of [k_measure] after a measurement that timed out:
    triggered, and still waiting for its echo. *)
Definition d_timed_out : hc_sr04 :=
  {| gpio_trig := 23; gpio_echo := 24; irq := 184;
     time_triggered := {| tv_sec := 100; tv_nsec := 0 |};
     time_echoed := {| tv_sec := 100; tv_nsec := 500000 |};
     echo_received := 0; device_triggered := 1;
     measurement_mutex := false; timeout := 1000 |}.

Definition k_timed_out : kstate :=
  with_heap {[ 1%positive := d_timed_out ]} k_measure.

(** The echo of the measurement that timed out falls during the settling
    delay of the next one, whose own echo then rises and falls during
    the wait. *)
Definition menv_late_edge : measure_env :=
  {| irqs_at := λ i, match i with
                     | O => [edge 150 0 0]
                     | _ => []
                     end;
     wait_evs := wait_evs menv_echo |}.

(** *** The value stored *)

(** The claim that the value stored in [*usecs_elapsed] is the formula
    over the two timestamps of the sensor. *)
Definition claimed_elapsed_value (u : option Z) (d : hc_sr04) : Prop :=
  u = Some (elapsed_formula (time_triggered d) (time_echoed d)).

(** The sensor of [k_measure] when its last rising edge was stamped at
    second 300, before the wall clock was set back. *)
Definition d_late : hc_sr04 :=
  {| gpio_trig := 23; gpio_echo := 24; irq := 184;
     time_triggered := {| tv_sec := 300; tv_nsec := 0 |};
     time_echoed := {| tv_sec := 100; tv_nsec := 500000 |};
     echo_received := 1; device_triggered := 1;
     measurement_mutex := false; timeout := 1000 |}.

Definition k_late : kstate :=
  with_heap {[ 1%positive := d_late ]} k_measure.

(** *** The wait *)

(** The jiffies [do_measurement] may wait on a sensor with contents
    [d]. *)
Definition wait_budget (pf : platform) (d : hc_sr04) : Z :=
  Z.min (timeout d) (MAX_SCHEDULE_TIMEOUT (abi pf)).

(** *** A failing add *)



(** * Proofs *)

(** ** Equations of the primitives *)

Lemma bind_Ret {A B} (m : M A) (f : A → M B) k a k' :
  m k = Ret a k' → (m ≫= f) k = f a k'.
Proof. intros H. unfold mbind, M_bind. by rewrite H. Qed.

Lemma bind_Ret_blocked {A B} (m : M A) (f : A → M B) k mu k' :
  m k = Blocked mu k' → (m ≫= f) k = Blocked mu k'.
Proof. intros H. unfold mbind, M_bind. by rewrite H. Qed.

Lemma deref_eq p k d : heap k !! p = Some d → deref p k = Ret d k.
Proof. intros H. unfold deref. by rewrite H. Qed.

Lemma since_app k k' t : trace k' = trace k ++ t → since k k' = t.
Proof. intros H. unfold since. rewrite H. by rewrite drop_app_length. Qed.

Lemma handler_closed now level n data d :
  guard_closed d →
  echo_received_irq now level n data d = (IRQ_HANDLED, d, []).
Proof.
  unfold echo_received_irq. intros [H|H].
  - by rewrite H.
  - destruct (device_triggered d =? 0); [done|].
    destruct (Z.eqb_spec (echo_received d) 0); [contradiction|done].
Qed.

Lemma deliver_registered e k d :
  registered (ev_irq e) (ev_data e) k = true →
  heap k !! ev_data e = Some d →
  deliver e k =
    Ret () (with_trace (trace k ++ [EvIrq (ev_irq e) (ev_data e) (irq_calls e d)])
              (with_heap (<[ev_data e := irq_dev e d]> (heap k)) k)).
Proof.
  intros Hr Hd. unfold deliver.
  cbv [mbind M_bind gets]. rewrite Hr.
  cbv [deref poke modify emit mbind M_bind]. rewrite Hd. reflexivity.
Qed.

Lemma deliver_unregistered e k :
  registered (ev_irq e) (ev_data e) k = false → deliver e k = Ret () k.
Proof. intros Hr. unfold deliver. cbv [mbind M_bind gets]. by rewrite Hr. Qed.

(** ** What interrupts leave alone *)

Lemma same_config_refl d : same_config d d.
Proof. by repeat split. Qed.

Lemma same_config_trans d1 d2 d3 :
  same_config d1 d2 → same_config d2 d3 → same_config d1 d3.
Proof. intros (?&?&?&?) (?&?&?&?). repeat split; congruence. Qed.

Lemma same_config_sym d1 d2 : same_config d1 d2 → same_config d2 d1.
Proof. intros (?&?&?&?). by repeat split. Qed.

Lemma heap_config_eq_refl h : heap_config_eq h h.
Proof.
  intros q. destruct (h !! q); constructor. apply same_config_refl.
Qed.

Lemma heap_config_eq_trans h1 h2 h3 :
  heap_config_eq h1 h2 → heap_config_eq h2 h3 → heap_config_eq h1 h3.
Proof.
  intros H12 H23 q. specialize (H12 q). specialize (H23 q).
  destruct H12 as [d1 d2 Hc|]; inversion H23; subst; constructor.
  by eapply same_config_trans.
Qed.

Lemma heap_config_eq_poke (h : gmap positive hc_sr04) p d d' :
  h !! p = Some d → same_config d d' → heap_config_eq h (<[p := d']> h).
Proof.
  intros Hd Hc q. destruct (decide (p = q)) as [<-|Hne].
  - rewrite lookup_insert_eq, Hd. by constructor.
  - rewrite lookup_insert_ne by done. apply heap_config_eq_refl.
Qed.

Lemma heap_config_eq_lookup h h' p d :
  heap_config_eq h h' → h !! p = Some d →
  ∃ d', h' !! p = Some d' ∧ same_config d d'.
Proof.
  intros H Hd. specialize (H p). rewrite Hd in H. inversion H; subst. eauto.
Qed.

Lemma frame_eq_refl k : frame_eq k k.
Proof. repeat (split; [done|]). apply heap_config_eq_refl. Qed.

Lemma frame_eq_trans k1 k2 k3 :
  frame_eq k1 k2 → frame_eq k2 k3 → frame_eq k1 k3.
Proof.
  intros (?&?&?&?&?) (?&?&?&?&?).
  repeat (split; [congruence|]). by eapply heap_config_eq_trans.
Qed.

Lemma frame_eq_live k k' : frame_eq k k' → irq_live k → irq_live k'.
Proof.
  intros (_&_&Ha&_&Hh) Hl n q Hin. rewrite Ha in Hin.
  destruct (Hl n q Hin) as [d Hd].
  destruct (heap_config_eq_lookup _ _ _ _ Hh Hd) as (d' & Hd' & _). eauto.
Qed.

(** Writing a sensor with the same configuration keeps the frame. *)
Lemma frame_eq_poke k p d d' :
  heap k !! p = Some d → same_config d d' →
  frame_eq k (with_heap (<[p := d']> (heap k)) k).
Proof.
  intros Hd Hc. repeat (split; [done|]). by eapply heap_config_eq_poke.
Qed.

(** The handler never touches the configuration, the mutex or
    [device_triggered]. *)
Lemma irq_dev_keeps e d :
  same_config d (irq_dev e d) ∧
  measurement_mutex (irq_dev e d) = measurement_mutex d ∧
  device_triggered (irq_dev e d) = device_triggered d.
Proof.
  unfold irq_dev, echo_received_irq.
  destruct (device_triggered d =? 0); [by repeat split|].
  destruct (negb (echo_received d =? 0)); [by repeat split|].
  destruct (ev_level e =? 1); by repeat split.
Qed.

Lemma irq_dev_closed e d : guard_closed d → irq_dev e d = d.
Proof. intros H. unfold irq_dev. by rewrite handler_closed. Qed.

Lemma irq_calls_closed e d : guard_closed d → irq_calls e d = [].
Proof. intros H. unfold irq_calls. by rewrite handler_closed. Qed.

(** A handler that wakes the waiter has closed the guard, and wakes once. *)
Lemma irq_calls_wake e d :
  irq_calls e d = [] ∨
  (∃ ts, irq_calls e d = [EvStore (ev_data e) (W_time_triggered ts)]) ∨
  (∃ ts, irq_calls e d = [EvStore (ev_data e) (W_time_echoed ts);
                           EvStore (ev_data e) (W_echo_received 1);
                           EvWakeUp (ev_data e)]
         ∧ guard_closed (irq_dev e d)).
Proof.
  unfold irq_calls, irq_dev, echo_received_irq.
  destruct (device_triggered d =? 0); [by left|].
  destruct (negb (echo_received d =? 0)); [by left|].
  destruct (ev_level e =? 1); right; [left|right]; eexists; [done|].
  split; [done|]. by right.
Qed.

(** One interrupt: either the action is not registered and nothing
    happens, or the handler runs on the live sensor. *)
Lemma deliver_spec e k :
  irq_live k →
  deliver e k = Ret () k ∨
  ∃ d, heap k !! ev_data e = Some d ∧
       deliver e k =
         Ret () (with_trace
                   (trace k ++ [EvIrq (ev_irq e) (ev_data e) (irq_calls e d)])
                   (with_heap (<[ev_data e := irq_dev e d]> (heap k)) k)).
Proof.
  intros Hl. destruct (registered (ev_irq e) (ev_data e) k) eqn:Hr.
  - right. unfold registered in Hr. apply bool_decide_eq_true in Hr.
    destruct (Hl _ _ Hr) as [d Hd]. exists d. split; [done|].
    apply deliver_registered; [|done]. unfold registered.
    by apply bool_decide_eq_true.
  - left. by apply deliver_unregistered.
Qed.

(** Interrupts keep an invariant [φ] of sensor [p] that each handler run
    on [p] keeps; they log nothing in process context. *)
Lemma deliver_all_inv (p : positive) (φ : hc_sr04 → Prop) es :
  (∀ e d, e ∈ es → ev_data e = p → φ d → φ (irq_dev e d)) →
  ∀ k d, irq_live k → heap k !! p = Some d → φ d →
  ∃ k' t d',
    deliver_all es k = Ret () k' ∧ frame_eq k k' ∧
    devices_mutex k' = devices_mutex k ∧
    trace k' = trace k ++ t ∧ process_events t = [] ∧
    heap k' !! p = Some d' ∧ φ d' ∧ same_config d d' ∧
    measurement_mutex d' = measurement_mutex d ∧
    device_triggered d' = device_triggered d.
Proof.
  induction es as [|e es IH]; intros Hφ k d Hl Hd Hp.
  - exists k, [], d. rewrite app_nil_r.
    split; [done|]. split; [apply frame_eq_refl|].
    split; [done|]. split; [done|]. split; [done|]. split; [done|].
    split; [done|]. split; [apply same_config_refl|done].
  - simpl.
    assert (Hφ' : ∀ e' d', e' ∈ es → ev_data e' = p → φ d' → φ (irq_dev e' d')).
    { intros e' d' Hin. apply Hφ. by right. }
    destruct (deliver_spec e k Hl) as [He|(d1 & Hd1 & He)].
    + rewrite (bind_Ret _ _ _ _ _ He). by apply IH.
    + rewrite (bind_Ret _ _ _ _ _ He).
      set (k1 := with_trace _ _).
      assert (Hf1 : frame_eq k k1).
      { apply (frame_eq_poke k (ev_data e) d1); [done|apply irq_dev_keeps]. }
      assert (∃ d2, heap k1 !! p = Some d2 ∧ φ d2 ∧ same_config d d2 ∧
                    measurement_mutex d2 = measurement_mutex d ∧
                    device_triggered d2 = device_triggered d)
        as (d2 & Hd2 & Hp2 & Hc2 & Hm2 & Ht2).
      { simpl. destruct (decide (ev_data e = p)) as [Heq|Hne].
        { exists (irq_dev e d1). rewrite Heq, lookup_insert_eq.
          rewrite Heq, Hd in Hd1. injection Hd1 as <-.
          destruct (irq_dev_keeps e d) as ((?&?&?&?)&?&?).
          repeat split; try done. apply Hφ; [by left|done..]. }
        exists d. rewrite lookup_insert_ne by done.
        repeat split; auto using same_config_refl. }
      destruct (IH Hφ' k1 d2 (frame_eq_live _ _ Hf1 Hl) Hd2 Hp2)
        as (k' & t & d' & Hrun & Hf & Hdm & Ht & Hpe & Hd' & Hp' & Hc & Hm & Htr).
      exists k', (EvIrq (ev_irq e) (ev_data e) (irq_calls e d1) :: t), d'.
      split; [done|]. split; [by eapply frame_eq_trans|].
      split; [done|].
      split; [rewrite Ht; simpl; by rewrite <- app_assoc|].
      split; [done|]. split; [done|]. split; [done|].
      split; [by eapply same_config_trans|]. split; congruence.
Qed.

(** ** Wake-ups *)

Lemma wakeups_cons p e t :
  wakeups p (e :: t) = (wakeups p [e] + wakeups p t)%nat.
Proof.
  unfold wakeups, handler_calls. simpl. rewrite app_nil_r.
  by rewrite List.filter_app, length_app.
Qed.

Lemma wakeups_irq p e d :
  wakeups p [EvIrq (ev_irq e) (ev_data e) (irq_calls e d)] = 0%nat ∨
  (wakeups p [EvIrq (ev_irq e) (ev_data e) (irq_calls e d)] = 1%nat ∧
   ev_data e = p ∧ guard_closed (irq_dev e d)).
Proof.
  unfold wakeups, handler_calls. simpl. rewrite app_nil_r.
  destruct (irq_calls_wake e d) as [->|[[ts ->]|[ts [-> Hc]]]];
    [by left..|].
  simpl. case_bool_decide; [by right|by left].
Qed.

(** Between two resets of [echo_received] the handlers wake the waiter of
    a sensor at most once, and not at all once the guard is closed. *)
Lemma deliver_all_wakeups (p : positive) es :
  ∀ k d, irq_live k → heap k !! p = Some d →
  ∃ k' t d',
    deliver_all es k = Ret () k' ∧ trace k' = trace k ++ t ∧
    heap k' !! p = Some d' ∧ (wakeups p t ≤ 1)%nat ∧
    (guard_closed d → d' = d ∧ wakeups p t = 0%nat).
Proof.
  induction es as [|e es IH]; intros k d Hl Hd.
  - exists k, [], d. rewrite app_nil_r. repeat split; auto.
  - simpl. destruct (deliver_spec e k Hl) as [He|(d1 & Hd1 & He)];
      rewrite (bind_Ret _ _ _ _ _ He); [by apply IH|].
    set (k1 := with_trace _ _).
    assert (Hl1 : irq_live k1).
    { eapply frame_eq_live; [|done].
      apply (frame_eq_poke k (ev_data e) d1); [done|apply irq_dev_keeps]. }
    destruct (decide (ev_data e = p)) as [Heq|Hne].
    + rewrite Heq, Hd in Hd1. injection Hd1 as <-.
      assert (Hd2 : heap k1 !! p = Some (irq_dev e d)).
      { simpl. by rewrite Heq, lookup_insert_eq. }
      destruct (IH k1 _ Hl1 Hd2) as (k' & t & d' & Hrun & Ht & Hd' & Hle & Hcl).
      exists k', (EvIrq (ev_irq e) (ev_data e) (irq_calls e d) :: t), d'.
      split; [done|].
      split; [rewrite Ht; simpl; by rewrite <- app_assoc|].
      split; [done|]. rewrite wakeups_cons.
      destruct (wakeups_irq p e d) as [H0|(H1 & _ & Hc)].
      * rewrite H0. split; [done|]. intros Hg.
        rewrite (irq_dev_closed e d Hg) in Hcl. by apply Hcl.
      * destruct (Hcl Hc) as [-> Hz]. rewrite H1, Hz. split; [done|].
        intros Hg. rewrite (irq_calls_closed e d Hg) in H1. done.
    + assert (Hd2 : heap k1 !! p = Some d).
      { simpl. by rewrite lookup_insert_ne. }
      destruct (IH k1 _ Hl1 Hd2) as (k' & t & d' & Hrun & Ht & Hd' & Hle & Hcl).
      exists k', (EvIrq (ev_irq e) (ev_data e) (irq_calls e d1) :: t), d'.
      split; [done|].
      split; [rewrite Ht; simpl; by rewrite <- app_assoc|].
      split; [done|]. rewrite wakeups_cons.
      destruct (wakeups_irq p e d1) as [H0|(_ & Hp & _)]; [|done].
      rewrite H0. done.
Qed.

(** ** Total-correctness triples for kernel code *)

Lemma triple_bind {A B} P (m : M A) Q (f : A → M B) R :
  triple P m Q → (∀ a, triple (Q a) (f a) R) → triple P (m ≫= f) R.
Proof.
  intros Hm Hf k HP. destruct (Hm k HP) as (a & k1 & Hk1 & HQ).
  destruct (Hf a k1 HQ) as (b & k2 & Hk2 & HR).
  exists b, k2. split; [|done]. by rewrite (bind_Ret _ _ _ _ _ Hk1).
Qed.

Lemma triple_ret {A} (P : kstate → Prop) (a : A) (Q : A → kstate → Prop) :
  (∀ k, P k → Q a k) → triple P (mret a) Q.
Proof. intros H k HP. exists a, k. split; [done|]. by apply H. Qed.

Lemma process_events_snoc t e :
  in_process e = true → process_events (t ++ [e]) = process_events t ++ [e].
Proof.
  intros H. unfold process_events. rewrite List.filter_app. simpl.
  by rewrite H.
Qed.

Lemma flag_write_keeps w d :
  flag_write w = true →
  same_config d (apply_write w d) ∧
  measurement_mutex (apply_write w d) = measurement_mutex d.
Proof. destruct w; try discriminate; intros _; by repeat split. Qed.

Section Measuring.

(** One measurement on sensor [p], started in state [k0] where the
    sensor's contents are [d0]. *)
Context (p : positive) (k0 : kstate) (d0 : hc_sr04).
Context (Hlive : irq_live k0).

Lemma mid_log held pe φ e k :
  in_process e = true →
  mid p k0 d0 held pe φ k → mid p k0 d0 held (pe ++ [e]) φ (with_trace (trace k ++ [e]) k).
Proof.
  intros He (Hf & Hm & (t & Ht & Hpe) & Hd).
  split; [done|]. split; [done|]. split; [|done].
  exists (t ++ [e]). simpl. rewrite Ht, <- app_assoc. split; [done|].
  rewrite process_events_snoc by done. by rewrite Hpe.
Qed.

Lemma mid_emit held pe φ e :
  in_process e = true →
  triple (mid p k0 d0 held pe φ) (emit e) (λ _, mid p k0 d0 held (pe ++ [e]) φ).
Proof.
  intros He k Hmid. eexists (), _. split; [reflexivity|]. by apply mid_log.
Qed.

Lemma mid_lookup held pe φ k :
  mid p k0 d0 held pe φ k →
  ∃ d, heap k !! p = Some d ∧ same_config d0 d ∧
       measurement_mutex d = held ∧ φ d.
Proof. by intros (_ & _ & _ & H). Qed.

Lemma mid_poke held held' pe φ (ψ : hc_sr04 → Prop) (d' : hc_sr04) k :
  (∀ d, heap k !! p = Some d → same_config d0 d →
        measurement_mutex d = held → φ d →
        same_config d0 d' ∧ measurement_mutex d' = held' ∧ ψ d') →
  mid p k0 d0 held pe φ k →
  mid p k0 d0 held' pe ψ (with_heap (<[p := d']> (heap k)) k).
Proof.
  intros Hf (Hfr & Hm & Ht & d & Hd & Hc & Hh & Hφ).
  destruct (Hf d Hd Hc Hh Hφ) as (Hc' & ? & ?).
  split.
  { eapply frame_eq_trans; [exact Hfr|]. apply (frame_eq_poke k p d); [done|].
    eapply same_config_trans; [by apply same_config_sym|done]. }
  split; [done|]. split; [done|].
  exists d'. simpl. by rewrite lookup_insert_eq.
Qed.

Lemma store_eq q w k d :
  heap k !! q = Some d →
  store q w k =
    Ret () (with_trace (trace k ++ [EvStore q w])
              (with_heap (<[q := apply_write w d]> (heap k)) k)).
Proof.
  intros H. unfold store. cbv [mbind M_bind deref poke modify emit].
  by rewrite H.
Qed.

Lemma mid_store held pe φ ψ w :
  flag_write w = true →
  (∀ d, φ d → ψ (apply_write w d)) →
  triple (mid p k0 d0 held pe φ) (store p w)
    (λ _, mid p k0 d0 held (pe ++ [EvStore p w]) ψ).
Proof.
  intros Hw Hψ k Hmid.
  destruct (mid_lookup _ _ _ _ Hmid) as (d & Hd & _).
  eexists (), _. split; [by apply store_eq|].
  apply (mid_log held pe ψ (EvStore p w)
           (with_heap (<[p := apply_write w d]> (heap k)) k)); [done|].
  eapply mid_poke; [|done]. intros d' Hd' Hc Hh Hφ.
  rewrite Hd in Hd'. injection Hd' as <-.
  destruct (flag_write_keeps w d Hw) as [Hk Hmx].
  split; [by eapply same_config_trans|]. split; [congruence|by apply Hψ].
Qed.

Lemma mid_deliver_all held pe φ es :
  (∀ e d, e ∈ es → ev_data e = p → φ d → φ (irq_dev e d)) →
  triple (mid p k0 d0 held pe φ) (deliver_all es) (λ _, mid p k0 d0 held pe φ).
Proof.
  intros Hφ k (Hf & Hm & (t & Ht & Hpe) & d & Hd & Hc & Hh & Hp).
  destruct (deliver_all_inv p φ es Hφ k d (frame_eq_live _ _ Hf Hlive) Hd Hp)
    as (k' & t' & d' & Hrun & Hf' & Hdm & Ht' & Hpe' & Hd' & Hp' & Hc' & Hh' & _).
  exists (), k'. split; [done|].
  split; [by eapply frame_eq_trans|]. split; [congruence|].
  split.
  - exists (t ++ t'). rewrite Ht', Ht, <- app_assoc. split; [done|].
    unfold process_events in *. by rewrite List.filter_app, Hpe, Hpe', app_nil_r.
  - exists d'. split; [done|]. split; [by eapply same_config_trans|].
    split; [congruence|done].
Qed.

Lemma mid_deliver held pe φ e :
  (∀ d, ev_data e = p → φ d → φ (irq_dev e d)) →
  triple (mid p k0 d0 held pe φ) (deliver e) (λ _, mid p k0 d0 held pe φ).
Proof.
  intros Hφ k Hmid.
  destruct (mid_deliver_all held pe φ [e]) with (k := k)
    as ([] & k' & Hrun & Hmid'); [|done|].
  { intros e' d' Hin. apply list_elem_of_singleton in Hin as ->. apply Hφ. }
  simpl in Hrun. unfold mbind, M_bind in Hrun.
  destruct (deliver e k) as [[] k1| |] eqn:He; try discriminate.
  injection Hrun as <-. by exists (), k1.
Qed.

Lemma mid_unlock pe φ :
  (∀ d b, φ d → φ (set_mutex b d)) →
  triple (mid p k0 d0 true pe φ) (mutex_unlock (MeasurementMutex p))
    (λ _, mid p k0 d0 false (pe ++ [EvMutexUnlock (MeasurementMutex p)]) φ).
Proof.
  intros Hφ k Hmid.
  destruct (mid_lookup _ _ _ _ Hmid) as (d & Hd & Hc & Hh & Hp).
  eexists (), _. split.
  { unfold mutex_unlock, mutex_held, mutex_set.
    cbv [mbind M_bind mret M_ret deref poke modify emit].
    rewrite Hd, Hh, Hd. reflexivity. }
  apply (mid_log false pe φ (EvMutexUnlock (MeasurementMutex p))
           (with_heap (<[p := set_mutex false d]> (heap k)) k)); [done|].
  eapply mid_poke; [|done]. intros d' Hd' _ _ _.
  split; [done|]. split; [done|]. by apply Hφ.
Qed.

Lemma mid_weaken held pe (φ ψ : hc_sr04 → Prop) k :
  (∀ d, φ d → ψ d) → mid p k0 d0 held pe φ k → mid p k0 d0 held pe ψ k.
Proof.
  intros H (Hf & Hm & Ht & d & Hd & Hc & Hh & Hp).
  split; [done|]. split; [done|]. split; [done|]. exists d. auto.
Qed.

Lemma triple_mid_pre {A} held pe (φ ψ : hc_sr04 → Prop) (m : M A) Q :
  (∀ d, φ d → ψ d) → triple (mid p k0 d0 held pe ψ) m Q → triple (mid p k0 d0 held pe φ) m Q.
Proof. intros H Hm k Hmid. apply Hm. by eapply mid_weaken. Qed.

Lemma triple_pure {A} (P : kstate → Prop) (F : Prop) (m : M A) Q :
  (F → triple P m Q) → triple (λ k, P k ∧ F) m Q.
Proof. intros H k [HP HF]. by apply H. Qed.

(** Reading the sensor: what is read is the sensor's current contents. *)
Lemma mid_deref_bind {B} held pe φ (f : hc_sr04 → M B) R :
  (∀ d, same_config d0 d → φ d →
        triple (mid p k0 d0 held pe (λ d', φ d' ∧ d' = d)) (f d) R) →
  triple (mid p k0 d0 held pe φ) (deref p ≫= f) R.
Proof.
  intros Hf k Hmid.
  destruct (mid_lookup _ _ _ _ Hmid) as (d & Hd & Hc & Hh & Hp).
  rewrite (bind_Ret _ _ _ _ _ (deref_eq _ _ _ Hd)).
  apply (Hf d Hc Hp).
  destruct Hmid as (Hfr & Hm & Ht & d' & Hd' & Hc' & Hh' & Hp').
  rewrite Hd in Hd'. injection Hd' as <-.
  split; [done|]. split; [done|]. split; [done|]. exists d.
  split; [done|]. split; [done|]. split; [done|]. by split.
Qed.

Lemma wait_loop_eq evs remaining :
  wait_loop p evs remaining =
  (d ← deref p;
   if negb (echo_received d =? 0) then mret (Z.max 1 remaining)
   else if remaining <=? 0 then mret 0
   else match evs with
        | [] => mret 0
        | WSignal :: _ => mret (neg ERESTARTSYS)
        | WTick :: evs' => wait_loop p evs' (remaining - 1)
        | WIrq e :: evs' => deliver e;; wait_loop p evs' remaining
        end).
Proof. by destruct evs. Qed.

Lemma mid_wait_loop held pe φ evs :
  (∀ e d, WIrq e ∈ evs → ev_data e = p → φ d → φ (irq_dev e d)) →
  ∀ remaining,
  triple (mid p k0 d0 held pe φ) (wait_loop p evs remaining)
    (λ w k, mid p k0 d0 held pe (λ d, φ d ∧ echo_in w d) k ∧ wait_result w).
Proof.
  induction evs as [|ev evs IH]; intros Hφ remaining;
    rewrite wait_loop_eq; apply mid_deref_bind; intros d Hc Hp.
  - destruct (Z.eqb_spec (echo_received d) 0) as [Hz|Hnz]; simpl.
    + destruct (remaining <=? 0); apply triple_ret; intros k Hmid;
        (split; [|by left]); (eapply mid_weaken; [|done]);
        intros d' [? ->]; (split; [done|]); intros ?; lia.
    + apply triple_ret. intros k Hmid. split; [|right; right; lia].
      eapply mid_weaken; [|done]. intros d' [? ->]. split; [done|].
      by intros _.
  - destruct (Z.eqb_spec (echo_received d) 0) as [Hz|Hnz]; simpl.
    + destruct (remaining <=? 0).
      { apply triple_ret; intros k Hmid.
        split; [|by left]. eapply mid_weaken; [|done].
        intros d' [? ->]. split; [done|]. intros ?. lia. }
      destruct ev as [e| |].
      * eapply triple_bind.
        { eapply triple_mid_pre; [|apply mid_deliver].
          - by intros d' [? _].
          - intros d' He. apply Hφ; [by left|done]. }
        intros []. apply IH. intros e' d' Hin. apply Hφ. by right.
      * eapply triple_mid_pre; [|apply IH].
        -- by intros d' [? _].
        -- intros e' d' Hin. apply Hφ. by right.
      * apply triple_ret. intros k Hmid. split; [|by right; left].
        eapply mid_weaken; [|done]. intros d' [? ->]. split; [done|].
        intros ?. unfold neg in *. simpl in *. lia.
    + apply triple_ret. intros k Hmid. split; [|right; right; lia].
      eapply mid_weaken; [|done]. intros d' [? ->]. split; [done|].
      by intros _.
Qed.

Lemma mid_wait held pe φ abi0 evs jiffies :
  (∀ e d, WIrq e ∈ evs → ev_data e = p → φ d → φ (irq_dev e d)) →
  triple (mid p k0 d0 held pe φ)
    (wait_event_interruptible_timeout abi0 p evs jiffies)
    (λ w k, mid p k0 d0 held (pe ++ [EvWait p jiffies w])
              (λ d, φ d ∧ echo_in w d) k ∧ wait_result w).
Proof.
  intros Hφ. unfold wait_event_interruptible_timeout.
  eapply triple_bind; [by apply mid_wait_loop|]. intros w.
  apply triple_pure. intros Hw.
  eapply triple_bind; [by apply mid_emit|]. intros [].
  apply triple_ret. by intros k Hmid.
Qed.

End Measuring.

(** ** A measurement that got the sensor's mutex *)

Lemma outcome_irq abi0 w r u e d :
  outcome abi0 w r u d → outcome abi0 w r u (irq_dev e d).
Proof.
  intros [H|[H|(?&?&?&Hnz)]]; [by left|by right; left|].
  rewrite irq_dev_closed by (by right). by right; right.
Qed.

Lemma outcome_set_mutex abi0 w r u b d :
  outcome abi0 w r u d → outcome abi0 w r u (set_mutex b d).
Proof.
  intros [H|[H|(?&?&?&Hnz)]]; [by left|by right; left|]. by right; right.
Qed.

Lemma triple_ret_bind {A B} P (a : A) (f : A → M B) R :
  triple P (f a) R → triple P (mret a ≫= f) R.
Proof. intros H k HP. exact (H k HP). Qed.

Lemma trylock_free_eq p k d :
  heap k !! p = Some d → measurement_mutex d = false →
  mutex_trylock (MeasurementMutex p) k =
    Ret true (with_trace (trace k ++ [EvMutexTrylock (MeasurementMutex p) true])
                (with_heap (<[p := set_mutex true d]> (heap k)) k)).
Proof.
  intros Hd Hm. unfold mutex_trylock, mutex_held, mutex_set.
  cbv [mbind M_bind mret M_ret deref poke modify emit].
  rewrite Hd, Hm, Hd. reflexivity.
Qed.

Lemma trylock_held_eq p k d :
  heap k !! p = Some d → measurement_mutex d = true →
  mutex_trylock (MeasurementMutex p) k =
    Ret false
      (with_trace (trace k ++ [EvMutexTrylock (MeasurementMutex p) false]) k).
Proof.
  intros Hd Hm. unfold mutex_trylock, mutex_held, mutex_set.
  cbv [mbind M_bind mret M_ret deref poke modify emit].
  rewrite Hd, Hm. reflexivity.
Qed.

Lemma unlock_devices_eq k :
  devices_mutex k = true →
  mutex_unlock DevicesMutex k =
    Ret () (with_trace (trace k ++ [EvMutexUnlock DevicesMutex])
              (with_devices_mutex false k)).
Proof.
  intros H. unfold mutex_unlock, mutex_held, mutex_set.
  cbv [mbind M_bind mret M_ret gets modify emit]. rewrite H. reflexivity.
Qed.

Section Acquired.

Context (pf : platform) (env : measure_env) (p : positive).
Context (k : kstate) (d : hc_sr04).
Context (Hd : heap k !! p = Some d).
Context (Hfree : measurement_mutex d = false).
Context (Hheld : devices_mutex k = true).
Context (Hlive : irq_live k).

(** An invariant of the sensor's contents that the measurement's own
    stores and the interrupts served meanwhile keep. *)
Context (I : hc_sr04 → Prop).
Context (HI : I d).
Context (HImutex : ∀ d' b, I d' → I (set_mutex b d')).
Context (HIflag : ∀ d' w, flag_write w = true → I d' → I (apply_write w d')).
Context (HIirq : ∀ e d', env_event env e → ev_data e = p → I d' → I (irq_dev e d')).

Lemma do_measurement_acquired :
  ∃ r u k' w,
    do_measurement pf env p k = Ret (r, u) k' ∧
    wait_result w ∧
    mid p k d false (measurement_calls p d w)
      (λ d', I d' ∧ outcome (abi pf) w r u d') k'.
Proof.
  unfold do_measurement.
  rewrite (bind_Ret _ _ _ _ _ (trylock_free_eq p k d Hd Hfree)).
  cbn [negb].
  set (k1 := with_trace _ (with_heap _ k)).
  rewrite (bind_Ret _ _ _ _ _ (unlock_devices_eq k1 Hheld)).
  set (k2 := with_trace _ (with_devices_mutex false k1)).
  assert (Hmid0 : mid p k d true
            [EvMutexTrylock (MeasurementMutex p) true;
             EvMutexUnlock DevicesMutex] I k2).
  { split. { by apply (frame_eq_poke k p d). }
    split; [done|]. split.
    - eexists. simpl. rewrite <- app_assoc. split; [reflexivity|done].
    - exists (set_mutex true d). simpl. rewrite lookup_insert_eq.
      split; [done|]. split; [by repeat split|].
      split; [done|]. by apply HImutex. }
  match goal with
  | |- ∃ r u k' w, ?rest k2 = _ ∧ _ =>
      assert (Ht : triple
                (mid p k d true
                   [EvMutexTrylock (MeasurementMutex p) true;
                    EvMutexUnlock DevicesMutex] I)
                rest
                (λ ru k', ∃ w, wait_result w ∧
                   mid p k d false (measurement_calls p d w)
                     (λ d', I d' ∧ outcome (abi pf) w ru.1 ru.2 d') k'))
  end.
  2: { destruct (Ht k2 Hmid0) as ([r u] & k' & Hrun & w & Hw & Hfin).
       by exists r, u, k', w. }
  clear Hmid0. clearbody k1 k2. clear k1 k2.
  assert (Hwin : ∀ i e d', e ∈ irqs_at env i → ev_data e = p → I d' →
                           I (irq_dev e d')).
  { intros i e d' Hin. apply HIirq. left. by exists i. }
  eapply triple_bind; [by apply mid_emit|]; intros [].
  eapply triple_bind; [apply mid_deliver_all; [done|apply Hwin]|]; intros [].
  eapply triple_bind;
    [apply mid_store with (ψ := I); [done|by intros; apply HIflag]|];
    intros [].
  eapply triple_bind; [apply mid_deliver_all; [done|apply Hwin]|]; intros [].
  eapply triple_bind;
    [apply mid_store with (ψ := I); [done|by intros; apply HIflag]|];
    intros [].
  eapply triple_bind; [apply mid_deliver_all; [done|apply Hwin]|]; intros [].
  apply mid_deref_bind. intros d1 (Hg1 & _) _. rewrite Hg1.
  eapply triple_mid_pre; [by intros ? [? _]|].
  eapply triple_bind; [by apply mid_emit|]; intros [].
  eapply triple_bind; [apply mid_deliver_all; [done|apply Hwin]|]; intros [].
  eapply triple_bind; [by apply mid_emit|]; intros [].
  eapply triple_bind; [apply mid_deliver_all; [done|apply Hwin]|]; intros [].
  eapply triple_bind;
    [apply mid_store with (ψ := I); [done|by intros; apply HIflag]|];
    intros [].
  eapply triple_bind; [apply mid_deliver_all; [done|apply Hwin]|]; intros [].
  apply mid_deref_bind. intros d2 (Hg2 & _) _. rewrite Hg2.
  eapply triple_mid_pre; [by intros ? [? _]|].
  eapply triple_bind; [by apply mid_emit|]; intros [].
  eapply triple_bind; [apply mid_deliver_all; [done|apply Hwin]|]; intros [].
  apply mid_deref_bind. intros d3 (_ & _ & _ & Ht3) _. rewrite Ht3.
  eapply triple_mid_pre; [by intros ? [? _]|].
  eapply triple_bind.
  { apply mid_wait; [done|]. intros e d' Hin. apply HIirq. by right. }
  intros w. apply triple_pure. intros Hw.
  assert (Hclosed : ∀ e d', I d' ∧ echo_in w d' → echo_in w (irq_dev e d')).
  { intros e d' [_ He] Hpos. rewrite irq_dev_closed; [by apply He|].
    right. by apply He. }
  eapply triple_bind.
  { apply mid_deliver_all; [done|]. intros e d' Hin Hp Hφ.
    split; [apply (Hwin 7%nat); [done..|apply Hφ]|by apply Hclosed]. }
  intros [].
  assert (Hfin : ∀ r u,
    triple
      (mid p k d true (waiting_calls p d w)
         (λ d', I d' ∧ outcome (abi pf) w r u d'))
      (deliver_all (irqs_at env 8);;
       mutex_unlock (MeasurementMutex p);;
       mret (r, u))
      (λ ru k', ∃ w, wait_result w ∧
         mid p k d false (measurement_calls p d w)
           (λ d', I d' ∧ outcome (abi pf) w ru.1 ru.2 d') k')).
  { intros r u.
    eapply triple_bind.
    { apply mid_deliver_all; [done|]. intros e d' Hin Hp [Hφ Ho].
      split; [by apply (Hwin 8%nat)|by apply outcome_irq]. }
    intros [].
    eapply triple_bind.
    { apply mid_unlock. intros d' b [Hφ Ho].
      split; [by apply HImutex|by apply outcome_set_mutex]. }
    intros []. apply triple_ret. intros k' Hmid. exists w. by split. }
  destruct Hw as [->|[->|Hpos]].
  - apply triple_ret_bind.
    eapply triple_mid_pre; [|apply (Hfin (neg ETIMEDOUT) None)].
    intros d' [? _]. split; [done|]. by left.
  - apply triple_ret_bind.
    eapply triple_mid_pre; [|apply (Hfin (neg ERESTARTSYS) None)].
    intros d' [? _]. split; [done|]. by right; left.
  - destruct (Z.eqb_spec w 0) as [?|_]; [lia|].
    destruct (Z.ltb_spec w 0) as [?|_]; [lia|].
    eapply triple_bind with
      (Q := λ ru, mid p k d true (waiting_calls p d w)
                    (λ d', I d' ∧ outcome (abi pf) w ru.1 ru.2 d'));
      [|intros [r u]; apply (Hfin r u)].
    apply mid_deref_bind. intros d4 _ [_ He]. apply triple_ret.
    intros k' Hmid. eapply mid_weaken; [|done]. intros d' [[? ?] ->].
    split; [done|]. right; right. repeat split; auto.
Qed.

End Acquired.

(** ** Integer arithmetic *)

Ltac pow_lit :=
  change (2 ^ 64) with 18446744073709551616 in *;
  change (2 ^ 63) with 9223372036854775808 in *;
  change (2 ^ 32) with 4294967296 in *;
  change (2 ^ 31) with 2147483648 in *.

Lemma to_s64_small z : - 2 ^ 63 <= z < 2 ^ 63 → to_s64 z = z.
Proof.
  intros H. unfold to_s64, wrap_signed.
  change (64 - 1) with 63. pow_lit. rewrite Z.mod_small; lia.
Qed.

Lemma to_u64_small z : 0 <= z < 2 ^ 64 → to_u64 z = z.
Proof. intros H. unfold to_u64, wrap_unsigned. by rewrite Z.mod_small. Qed.

Lemma to_long_small abi0 z : - 2 ^ 31 <= z < 2 ^ 31 → to_long abi0 z = z.
Proof.
  intros H. unfold to_long, wrap_signed.
  destruct abi0; simpl long_bits.
  - change (32 - 1) with 31. pow_lit. rewrite Z.mod_small; lia.
  - change (64 - 1) with 63. pow_lit. rewrite Z.mod_small; lia.
Qed.

Lemma to_s64_to_u64 z : to_s64 (to_u64 z) = to_s64 z.
Proof.
  unfold to_s64, to_u64, wrap_signed, wrap_unsigned.
  by rewrite Zplus_mod_idemp_l.
Qed.

Lemma formula_range (tt te : timespec64) :
  valid_ts tt → valid_ts te →
  - 2 ^ 31 <= tv_nsec te - tv_nsec tt < 2 ^ 31 ∧
  - 2 ^ 63 <= tv_sec te - tv_sec tt < 2 ^ 63 ∧
  - 2 ^ 63 <= (tv_sec te - tv_sec tt) * 1000000 < 2 ^ 63 ∧
  - 2 ^ 63 <= elapsed_formula tt te < 2 ^ 63.
Proof.
  unfold valid_ts, elapsed_formula, KTIME_SEC_MAX, NSEC_PER_SEC.
  intros [? ?] [? ?]. pow_lit.
  Z.to_euclidean_division_equations. lia.
Qed.

Lemma formula_nonneg (tt te : timespec64) :
  valid_ts tt → valid_ts te → ts_le tt te → 0 <= elapsed_formula tt te.
Proof.
  unfold valid_ts, ts_le, elapsed_formula, KTIME_SEC_MAX, NSEC_PER_SEC.
  intros [? ?] [? ?] Hle.
  Z.to_euclidean_division_equations. lia.
Qed.

(** With timestamps the clock can produce, [do_measurement]'s 64-bit
    arithmetic does not wrap: read as a signed number, the value stored
    is the formula's. *)
Lemma usecs_between_signed abi0 d :
  valid_ts (time_triggered d) → valid_ts (time_echoed d) →
  to_s64 (usecs_between abi0 d) =
  elapsed_formula (time_triggered d) (time_echoed d).
Proof.
  intros Ht He.
  destruct (formula_range _ _ Ht He) as (Hn & Hs & Hm & Hf).
  unfold usecs_between, elapsed_formula in *. rewrite to_s64_to_u64.
  rewrite (to_long_small abi0 _ Hn), (to_s64_small _ Hs), (to_s64_small _ Hm).
  by rewrite !(to_s64_small _ Hf).
Qed.

Lemma usecs_between_exact abi0 d :
  valid_ts (time_triggered d) → valid_ts (time_echoed d) →
  ts_le (time_triggered d) (time_echoed d) →
  usecs_between abi0 d = elapsed_formula (time_triggered d) (time_echoed d).
Proof.
  intros Ht He Hle.
  destruct (formula_range _ _ Ht He) as (Hn & Hs & Hm & Hf).
  pose proof (formula_nonneg _ _ Ht He Hle).
  unfold usecs_between, elapsed_formula in *.
  rewrite (to_long_small abi0 _ Hn), (to_s64_small _ Hs), (to_s64_small _ Hm).
  rewrite (to_s64_small _ Hf). apply to_u64_small.
  revert Hf. pow_lit. lia.
Qed.

(** ** What a measurement does, put together *)

Lemma do_measurement_spec pf env p k d (I : hc_sr04 → Prop) :
  heap k !! p = Some d →
  measurement_mutex d = false →
  devices_mutex k = true →
  irq_live k →
  I d →
  (∀ d' b, I d' → I (set_mutex b d')) →
  (∀ d' w, flag_write w = true → I d' → I (apply_write w d')) →
  (∀ e d', env_event env e → ev_data e = p → I d' → I (irq_dev e d')) →
  ∃ r u k' d' w,
    do_measurement pf env p k = Ret (r, u) k' ∧
    frame_eq k k' ∧ devices_mutex k' = false ∧
    process_events (since k k') = measurement_calls p d w ∧
    heap k' !! p = Some d' ∧ same_config d d' ∧
    measurement_mutex d' = false ∧ I d' ∧
    wait_result w ∧ outcome (abi pf) w r u d'.
Proof.
  intros Hd Hfree Hheld Hlive HI Hm Hf Hi.
  destruct (do_measurement_acquired pf env p k d Hd Hfree Hheld Hlive
              I HI Hm Hf Hi)
    as (r & u & k' & w & Hrun & Hw & Hfr & Hdm & (t & Ht & Hpe)
        & d' & Hd' & Hc & Hmx & HI' & Ho).
  exists r, u, k', d', w. rewrite (since_app _ _ _ Ht).
  by repeat (split; [done|]).
Qed.


(** A busy sensor: the call gives the registry lock back and returns. *)
Lemma do_measurement_busy pf env p k d :
  heap k !! p = Some d →
  measurement_mutex d = true →
  devices_mutex k = true →
  do_measurement pf env p k =
    Ret (neg EBUSY, None)
      (with_trace (trace k ++ [EvMutexTrylock (MeasurementMutex p) false;
                               EvMutexUnlock DevicesMutex])
         (with_devices_mutex false k)).
Proof.
  intros Hd Hm Hdm. unfold do_measurement.
  rewrite (bind_Ret _ _ _ _ _ (trylock_held_eq p k d Hd Hm)). cbn [negb].
  set (k1 := with_trace _ k).
  rewrite (bind_Ret _ _ _ _ _ (unlock_devices_eq k1 Hdm)).
  unfold mret, M_ret. simpl. by rewrite <- app_assoc.
Qed.

(** ** The claims about a measurement *)

(** C2 (as amended).  In every measurement that got the sensor's mutex,
    after the settling delay and the reset of the two flags, the call
    drives the trigger pin high, holds it for the fixed 10 microseconds,
    sets [device_triggered] and then drives the pin low: the store of
    [device_triggered = 1] comes after the hold and right before the pin
    returns to low. *)
Theorem trigger_pulse_order pf env p k d :
  heap k !! p = Some d →
  measurement_mutex d = false →
  devices_mutex k = true →
  irq_live k →
  ∃ r u k' w,
    do_measurement pf env p k = Ret (r, u) k' ∧
    process_events (since k k') =
      [ EvMutexTrylock (MeasurementMutex p) true;
        EvMutexUnlock DevicesMutex;
        EvMsleep 60;
        EvStore p (W_echo_received 0);
        EvStore p (W_device_triggered 0);
        EvGpioSetValue (gpio_trig d) 1;
        EvUdelay 10;
        EvStore p (W_device_triggered 1);
        EvGpioSetValue (gpio_trig d) 0;
        EvWait p (timeout d) w;
        EvMutexUnlock (MeasurementMutex p) ].
Proof.
  intros Hd Hfree Hheld Hlive.
  destruct (do_measurement_spec pf env p k d (λ _, True))
    as (r & u & k' & d' & w & Hrun & _ & _ & Hpe & _); auto.
  by exists r, u, k', w.
Qed.

(** C5.  On a sensor whose mutex is held [do_measurement] returns [-EBUSY]
    at once: it sleeps and waits for nothing and leaves every sensor as it
    was.  Busy or not, the registry lock is released right after the
    try-lock, before any delay, pulse or wait. *)
Theorem busy_and_registry_lock pf env p k d :
  heap k !! p = Some d →
  devices_mutex k = true →
  irq_live k →
  ∃ r u k',
    do_measurement pf env p k = Ret (r, u) k' ∧
    devices_mutex k' = false ∧
    (if measurement_mutex d then
       r = neg EBUSY ∧ u = None ∧ heap k' = heap k ∧ frame_eq k k' ∧
       since k k' = [EvMutexTrylock (MeasurementMutex p) false;
                     EvMutexUnlock DevicesMutex]
     else
       ∃ rest,
         process_events (since k k') =
           EvMutexTrylock (MeasurementMutex p) true
           :: EvMutexUnlock DevicesMutex
           :: EvMsleep 60 :: rest).
Proof.
  intros Hd Hheld Hlive. destruct (measurement_mutex d) eqn:Hm.
  - eexists _, _, _. split; [by eapply do_measurement_busy|].
    split; [done|]. repeat (split; [done|]).
    split; [apply (frame_eq_refl k)|]. by eapply since_app.
  - destruct (do_measurement_spec pf env p k d (λ _, True))
      as (r & u & k' & d' & w & Hrun & _ & Hdm & Hpe & _); auto.
    exists r, u, k'. split; [done|]. split; [done|].
    rewrite Hpe. by eexists.
Qed.

(** C6.  Whenever [do_measurement] acquired the sensor's mutex, it has
    released it when it returns, whether it returns success, a timeout or
    an interruption: releasing it is the last thing the call does. *)
Theorem measurement_mutex_released pf env p k d :
  heap k !! p = Some d →
  measurement_mutex d = false →
  devices_mutex k = true →
  irq_live k →
  ∃ r u k' d',
    do_measurement pf env p k = Ret (r, u) k' ∧
    (r = 0 ∨ r = neg ETIMEDOUT ∨ r = neg ERESTARTSYS) ∧
    heap k' !! p = Some d' ∧
    measurement_mutex d' = false ∧
    last (process_events (since k k')) =
      Some (EvMutexUnlock (MeasurementMutex p)).
Proof.
  intros Hd Hfree Hheld Hlive.
  destruct (do_measurement_spec pf env p k d (λ _, True))
    as (r & u & k' & d' & w & Hrun & _ & _ & Hpe & Hd' & _ & Hmx & _ & _ & Ho);
    auto.
  exists r, u, k', d'. split; [done|].
  split. { destruct Ho as [(_&->&_)|[(_&->&_)|(_&->&_)]]; auto. }
  repeat (split; [done|]). by rewrite Hpe.
Qed.

(** C10.  Arming a measurement resets [echo_received] and
    [device_triggered] and leaves [time_triggered] alone.  If every edge
    the handler serves for this sensor during the measurement reads the
    pin low, [time_triggered] still holds what it held before the call
    (the previous measurement's value, or whatever [kmalloc] handed out),
    and a successful return reports the elapsed time computed from it. *)
Theorem stale_time_triggered pf env p k d :
  heap k !! p = Some d →
  measurement_mutex d = false →
  devices_mutex k = true →
  irq_live k →
  (∀ e, env_event env e → ev_data e = p → ev_level e ≠ 1) →
  ∃ r u k' d',
    do_measurement pf env p k = Ret (r, u) k' ∧
    heap k' !! p = Some d' ∧
    time_triggered d' = time_triggered d ∧
    In (EvStore p (W_echo_received 0)) (process_events (since k k')) ∧
    In (EvStore p (W_device_triggered 0)) (process_events (since k k')) ∧
    (∀ ts, ¬ In (EvStore p (W_time_triggered ts))
               (process_events (since k k'))) ∧
    (r = 0 →
     u = Some (to_u64
                 (to_s64
                    (to_s64 (to_s64 (tv_sec (time_echoed d')
                                     - tv_sec (time_triggered d))
                             * 1000000)
                     + Z.quot (to_long (abi pf)
                                 (tv_nsec (time_echoed d')
                                  - tv_nsec (time_triggered d))) 1000)))).
Proof.
  intros Hd Hfree Hheld Hlive Hlow.
  destruct (do_measurement_spec pf env p k d
              (λ d', time_triggered d' = time_triggered d))
    as (r & u & k' & d' & w & Hrun & _ & _ & Hpe & Hd' & _ & _ & Htt & Hw & Ho);
    auto.
  { intros d' w Hw. by destruct w. }
  { intros e d' He Hp Htt. unfold irq_dev, echo_received_irq.
    destruct (device_triggered d' =? 0); [done|].
    destruct (negb (echo_received d' =? 0)); [done|].
    destruct (Z.eqb_spec (ev_level e) 1) as [H1|_]; [|done].
    by destruct (Hlow e He Hp). }
  exists r, u, k', d'. repeat (split; [done|]). rewrite Hpe.
  unfold measurement_calls, waiting_calls. simpl.
  split; [tauto|]. split; [tauto|]. split.
  { intros ts H. repeat (destruct H as [H|H]; [discriminate|]). done. }
  intros ->. destruct Ho as [(_&H&_)|[(_&H&_)|(_&_&->&_)]];
    [discriminate..|].
  unfold usecs_between. by rewrite Htt.
Qed.

(** ** The registry: adding a sensor *)

Ltac munfold :=
  cbv [kmalloc kfree gpio_request gpio_free gpio_direction_output
       gpio_direction_input gpio_set_value request_any_context_irq free_irq
       init_waitqueue_head list_add_tail list_del device_create_with_groups
       class_find_device device_unregister put_device
       mutex_init mutex_lock mutex_unlock mutex_trylock mutex_held mutex_set
       store deref poke emit modify gets fault block
       mbind M_bind mret M_ret
       with_heap with_devices with_devices_mutex with_gpios with_irq_actions
       with_class_devices with_trace
       heap hc_sr04_devices devices_mutex gpios irq_actions class_devices
       trace negb orb andb].

Lemma neg_lt_0 e : neg e < 0.
Proof. by destruct e. Qed.

Lemma gpio_request_code_cases fault_of g pin :
  (gpio_request_code fault_of g pin = 0 ∧ pin ∉ g) ∨
  gpio_request_code fault_of g pin < 0.
Proof.
  unfold gpio_request_code. case_bool_decide.
  { right. apply neg_lt_0. }
  destruct (fault_of pin).
  { right. apply neg_lt_0. }
  by left.
Qed.

Lemma union_difference_fresh (g : gset Z) (pin : Z) :
  pin ∉ g → ({[pin]} ∪ g) ∖ {[pin]} = g.
Proof.
  intros H. apply set_eq. intros x.
  rewrite elem_of_difference, elem_of_union, !elem_of_singleton.
  split; [by intros [[?|?] ?]|].
  intros Hx. split; [by right|]. by intros ->.
Qed.

(** [setup_hc_sr04_gpio] either holds both lines, or holds neither and
    says why. *)
Lemma setup_hc_sr04_gpio_spec pf env trig echo k :
  ∃ r g' t,
    setup_hc_sr04_gpio pf env trig echo k =
      Ret r (with_trace (trace k ++ t) (with_gpios g' k)) ∧
    ((r = 0 ∧ g' = {[echo]} ∪ ({[trig]} ∪ gpios k) ∧
      (trig ∉ gpios k) ∧ (echo ∉ gpios k) ∧ trig ≠ echo ∧
      gpio_is_valid pf trig = true ∧ gpio_is_valid pf echo = true ∧
      gpio_granted pf env trig echo (gpios k)) ∨
     (r < 0 ∧ g' = gpios k ∧ gpio_failure pf env trig echo (gpios k) r)).
Proof.
  destruct k as [h l dm g a c t]. unfold setup_hc_sr04_gpio.
  destruct (gpio_is_valid pf trig) eqn:Hvt; cbn [negb orb].
  2: { eexists _, _, []. split; [by rewrite app_nil_r|].
       right. split; [done|]. split; [done|].
       apply GF_invalid. by left. }
  destruct (gpio_is_valid pf echo) eqn:Hve; cbn [negb orb].
  2: { eexists _, _, []. split; [by rewrite app_nil_r|].
       right. split; [done|]. split; [done|].
       apply GF_invalid. by right. }
  munfold.
  destruct (gpio_request_code_cases (gpio_fault env) g trig) as [[Ht Hnt]|Ht].
  2: { destruct (Z.eqb_spec (gpio_request_code (gpio_fault env) g trig) 0);
         [lia|].
       destruct (Z.ltb_spec (gpio_request_code (gpio_fault env) g trig) 0);
         [|lia].
       eexists _, _, [_]. split; [reflexivity|].
       right. split; [done|]. split; [done|]. by apply GF_trig. }
  rewrite Ht. simpl.
  destruct (gpio_request_code_cases (gpio_fault env) ({[trig]} ∪ g) echo)
    as [[He Hne]|He].
  2: { destruct (Z.eqb_spec
                   (gpio_request_code (gpio_fault env) ({[trig]} ∪ g) echo) 0);
         [lia|].
       destruct (Z.ltb_spec
                   (gpio_request_code (gpio_fault env) ({[trig]} ∪ g) echo) 0);
         [|lia].
       eexists _, _, [_; _; _]. rewrite <- !app_assoc.
       split; [reflexivity|].
       right. split; [done|]. split; [by apply union_difference_fresh|].
       by apply GF_echo. }
  rewrite He. simpl.
  eexists _, _, [_; _; _; _]. rewrite <- !app_assoc. split; [reflexivity|].
  left. split; [done|]. split; [done|].
  apply not_elem_of_union in Hne as [Hne1 Hne2].
  apply not_elem_of_singleton in Hne1. done.
Qed.

Lemma fresh_not_in_heap (h : gmap positive hc_sr04) :
  h !! fresh (dom h) = None.
Proof. apply not_elem_of_dom, is_fresh. Qed.

Lemma free_both (g : gset Z) (trig echo : Z) :
  trig ∉ g → echo ∉ g →
  ({[echo]} ∪ ({[trig]} ∪ g)) ∖ {[trig]} ∖ {[echo]} = g.
Proof.
  intros Ht He. apply set_eq. intros x.
  rewrite !elem_of_difference, !elem_of_union, !elem_of_singleton.
  split.
  - intros [[[?|[?|?]] ?] ?]; done.
  - intros Hx. split; [split; [auto|]|]; by intros ->.
Qed.

Ltac hstep :=
  repeat first [rewrite lookup_insert_eq | rewrite insert_insert_eq];
  munfold.

(** [create_hc_sr04] either registers a new sensor, or gives back all it
    took; when [request_any_context_irq] answers [IRQC_IS_NESTED] it takes
    the failure path although the handler is registered. *)
Lemma create_hc_sr04_spec pf env trig echo tmo k :
  ∃ ptr k' t,
    create_hc_sr04 pf env trig echo tmo k = Ret ptr k' ∧
    devices_mutex k' = devices_mutex k ∧
    class_devices k' = class_devices k ∧
    trace k' = trace k ++ t ∧
    ((∃ garbage,
        kmalloc_mem env = Some garbage ∧
        ptr = Obj (fresh (dom (heap k))) ∧
        heap k' = <[fresh (dom (heap k)) := created pf trig echo tmo garbage]>
                    (heap k) ∧
        hc_sr04_devices k' = hc_sr04_devices k ++ [fresh (dom (heap k))] ∧
        gpios k' = {[echo]} ∪ ({[trig]} ∪ gpios k) ∧
        irq_actions k' =
          irq_actions k ++ [(gpio_to_irq pf echo, fresh (dom (heap k)))] ∧
        irq_outcome env = IrqHard ∧
        gpio_granted pf env trig echo (gpios k) ∧
        0 <= gpio_to_irq pf echo) ∨
     (∃ err,
        ptr = ERR_PTR err ∧ err ≠ 0 ∧
        heap k' = heap k ∧
        hc_sr04_devices k' = hc_sr04_devices k ∧
        gpios k' = gpios k ∧
        ((err < 0 ∧ irq_actions k' = irq_actions k ∧
          add_failure pf env trig echo (gpios k) err) ∨
         (err = 1 ∧ irq_outcome env = IrqNested ∧
          irq_actions k' =
            irq_actions k ++ [(gpio_to_irq pf echo, fresh (dom (heap k)))] ∧
          gpio_granted pf env trig echo (gpios k) ∧
          0 <= gpio_to_irq pf echo ∧
          is_Some (kmalloc_mem env))))).
Proof.
  destruct k as [h l dm g a c t]. unfold create_hc_sr04.
  destruct (kmalloc_mem env) as [garbage|] eqn:Hmem.
  2: { munfold. eexists _, _, [_]. split; [reflexivity|].
       repeat (split; [done|]). right. exists (neg ENOMEM).
       repeat (split; [done|]). left. split; [done|]. split; [done|].
       by apply AF_nomem. }
  pose proof (fresh_not_in_heap h) as Hfresh.
  set (new := fresh (dom h)) in *.
  munfold. fold new. hstep. hstep. hstep.
  cbn [apply_write gpio_trig gpio_echo].
  match goal with
  | |- context [setup_hc_sr04_gpio pf env trig echo ?k1] =>
      destruct (setup_hc_sr04_gpio_spec pf env trig echo k1)
        as (r & g' & tg & Hg & Hcase); rewrite Hg; clear Hg
  end.
  cbn [gpios trace] in Hcase. munfold.
  destruct Hcase as [(-> & -> & Hnt & Hne & Hte & Hvt & Hve & Hgr)
                    |(Hneg & -> & Hfail)].
  2: { destruct (Z.eqb_spec r 0) as [?|_]; [lia|]. hstep.
       rewrite delete_insert_eq, (delete_id _ _ Hfresh).
       eexists _, _, _. split; [reflexivity|]. cbn.
       split; [done|]. split; [done|].
       split. { rewrite <- !app_assoc. reflexivity. }
       right. exists r. split; [done|]. split; [lia|].
       repeat (split; [done|]). left. split; [done|]. split; [done|].
       by apply AF_gpio. }
  cbn [Z.eqb negb]. hstep. hstep. unfold setup_hc_sr04_irq. hstep. hstep.
  cbn [apply_write set_mutex irq gpio_echo gpio_trig].
  destruct (Z.ltb_spec (gpio_to_irq pf echo) 0) as [Hirq|Hirq].
  { destruct (Z.eqb_spec (gpio_to_irq pf echo) 0) as [?|_]; [lia|].
    cbn [negb]. hstep. cbn [gpio_trig gpio_echo].
    rewrite delete_insert_eq, (delete_id _ _ Hfresh).
    eexists _, _, _. split; [reflexivity|]. cbn.
    split; [done|]. split; [done|].
    split. { rewrite <- !app_assoc. reflexivity. }
    right. exists (gpio_to_irq pf echo). split; [done|]. split; [lia|].
    split; [done|]. split; [done|].
    split; [by apply free_both|].
    left. split; [done|]. split; [done|]. by apply AF_to_irq. }
  destruct (irq_outcome env) as [e| |] eqn:Hout; munfold;
    cbn [irq_result_val].
  - pose proof (neg_lt_0 e) as Hlt.
    destruct (Z.ltb_spec (neg e) 0) as [_|?]; [|lia].
    destruct (Z.eqb_spec (neg e) 0) as [?|_]; [lia|].
    cbn [negb]. hstep. cbn [gpio_trig gpio_echo].
    rewrite delete_insert_eq, (delete_id _ _ Hfresh).
    eexists _, _, _. split; [reflexivity|]. cbn.
    split; [done|]. split; [done|].
    split. { rewrite <- !app_assoc. reflexivity. }
    right. exists (neg e). split; [done|]. split; [lia|].
    split; [done|]. split; [done|].
    split; [by apply free_both|].
    left. split; [done|]. split; [done|]. by apply AF_request_irq.
  - cbn [Z.ltb Z.eqb Z.compare negb]. munfold.
    eexists _, _, _. split; [reflexivity|]. cbn.
    split; [done|]. split; [done|].
    split. { rewrite <- !app_assoc. reflexivity. }
    left. exists garbage. by repeat (split; [done|]).
  - cbn [Z.ltb Z.eqb Z.compare negb]. hstep. cbn [gpio_trig gpio_echo].
    rewrite delete_insert_eq, (delete_id _ _ Hfresh).
    eexists _, _, _. split; [reflexivity|]. cbn.
    split; [done|]. split; [done|].
    split. { rewrite <- !app_assoc. reflexivity. }
    right. exists 1. split; [done|]. split; [lia|].
    split; [done|]. split; [done|].
    split; [by apply free_both|].
    right. repeat (split; [done|]). by exists garbage.
Qed.

Lemma add_sensor_spec pf env trig echo tmo k :
  ∃ r k' t,
    add_sensor pf env trig echo tmo k = Ret r k' ∧
    devices_mutex k' = devices_mutex k ∧
    trace k' = trace k ++ t ∧
    ((r < 0 ∧ add_failure pf env trig echo (gpios k) r ∧
      heap k' = heap k ∧ hc_sr04_devices k' = hc_sr04_devices k ∧
      gpios k' = gpios k ∧ irq_actions k' = irq_actions k ∧
      class_devices k' = class_devices k) ∨
     (r = 0 ∧
      ((∃ garbage,
          kmalloc_mem env = Some garbage ∧
          heap k' = <[fresh (dom (heap k)) := created pf trig echo tmo garbage]>
                      (heap k) ∧
          hc_sr04_devices k' = hc_sr04_devices k ++ [fresh (dom (heap k))] ∧
          gpios k' = {[echo]} ∪ ({[trig]} ∪ gpios k) ∧
          irq_actions k' =
            irq_actions k ++ [(gpio_to_irq pf echo, fresh (dom (heap k)))]) ∨
       (heap k' = heap k ∧ hc_sr04_devices k' = hc_sr04_devices k ∧
        gpios k' = gpios k ∧
        (irq_actions k' = irq_actions k ∨ irq_outcome env = IrqNested))))).
Proof.
  unfold add_sensor.
  destruct (create_hc_sr04_spec pf env trig echo tmo k)
    as (ptr & k1 & t1 & Hrun & Hdm & Hcd & Ht & Hcase).
  rewrite (bind_Ret _ _ _ _ _ Hrun).
  assert (Hdev : ∀ drvdata, ∃ c',
            (device_create_with_groups (device_create_ok env) drvdata;;
             mret 0) k1 =
            Ret 0 (with_trace
                     (trace k1 ++ [EvDeviceCreate drvdata (device_create_ok env)])
                     (with_class_devices c' k1))).
  { intros drvdata. destruct k1 as [h1 l1 dm1 g1 a1 c1 tr1].
    destruct (device_create_ok env); munfold; by eexists. }
  destruct Hcase as [(garbage & Hmem & -> & Hh & Hl & Hg & Ha & Ho)
                    |(err & -> & Hne & Hh & Hl & Hg & Hcase)].
  - cbn [IS_ERR]. destruct (Hdev (Obj (fresh (dom (heap k))))) as [c' ->].
    eexists _, _, _. split; [reflexivity|]. cbn [devices_mutex trace
      with_trace with_class_devices heap hc_sr04_devices gpios].
    split; [done|]. split. { rewrite Ht, <- app_assoc. reflexivity. }
    right. split; [done|]. left. by exists garbage.
  - unfold ERR_PTR. destruct (IS_ERR (Raw err)) eqn:Herr.
    + cbn [PTR_ERR]. unfold IS_ERR in Herr.
      apply andb_true_iff in Herr as [_ Hlt%Z.ltb_lt].
      destruct Hcase as [(_ & Ha & Hf)|(-> & _)]; [|lia].
      exists err, k1, t1. split; [done|]. split; [done|]. split; [done|].
      left. by repeat (split; [done|]).
    + destruct (Hdev (Raw err)) as [c' ->].
      eexists _, _, _. split; [reflexivity|]. cbn [devices_mutex trace
        with_trace with_class_devices heap hc_sr04_devices gpios].
      split; [done|]. split. { rewrite Ht, <- app_assoc. reflexivity. }
      right. split; [done|]. right. repeat (split; [done|]).
      destruct Hcase as [(_ & Ha & _)|(_ & Ho & _)]; [by left|by right].
Qed.

(** ** The claim about a failing add *)

Lemma gpio_failure_neg pf env trig echo g r :
  gpio_failure pf env trig echo g r → r < 0.
Proof. intros [_|_ _ H|_ _ _ H]; [apply neg_lt_0|done..]. Qed.

Lemma add_failure_neg pf env trig echo g r :
  add_failure pf env trig echo g r → r < 0.
Proof.
  intros [_|r' _ H|_ _ H|e _ _ _ _];
    [apply neg_lt_0|by eapply gpio_failure_neg|done|apply neg_lt_0].
Qed.






(** ** The claims about the registry *)

(** ** Looking a sensor up *)

Lemma find_sensor_from_spec l trig echo k :
  (∀ p, p ∈ l → is_Some (heap k !! p)) →
  find_sensor_from l trig echo k =
    Ret (head (List.filter (has_key trig echo k) l)) k.
Proof.
  induction l as [|p l IH]; intros Hlive; [done|].
  destruct (Hlive p) as [d Hd]; [by left|].
  cbn [find_sensor_from List.filter]. rewrite (bind_Ret _ _ _ _ _ (deref_eq _ _ _ Hd)).
  unfold has_key at 1. rewrite Hd.
  destruct ((gpio_trig d =? trig) && (gpio_echo d =? echo)); [done|].
  apply IH. intros q Hq. apply Hlive. by right.
Qed.

Lemma find_sensor_spec trig echo k :
  registry_ok k →
  find_sensor trig echo k = Ret (head (sensors_with_key trig echo k)) k.
Proof.
  intros (_ & Hlive & _). unfold find_sensor. cbv [mbind M_bind gets].
  by apply find_sensor_from_spec.
Qed.

Lemma lock_devices_eq k :
  devices_mutex k = false →
  mutex_lock DevicesMutex k =
    Ret () (with_trace (trace k ++ [EvMutexLock DevicesMutex])
              (with_devices_mutex true k)).
Proof.
  intros H. unfold mutex_lock, mutex_held, mutex_set.
  cbv [mbind M_bind mret M_ret gets modify emit]. rewrite H. reflexivity.
Qed.

Lemma sensors_with_key_ext trig echo k k' :
  heap k' = heap k → hc_sr04_devices k' = hc_sr04_devices k →
  sensors_with_key trig echo k' = sensors_with_key trig echo k.
Proof.
  intros Hh Hl. unfold sensors_with_key. rewrite Hl.
  apply List.filter_ext. intros p. unfold has_key. by rewrite Hh.
Qed.

Lemma registry_ok_ext k k' :
  heap k' = heap k → hc_sr04_devices k' = hc_sr04_devices k →
  registry_ok k → registry_ok k'.
Proof.
  intros Hh Hl (Hnd & Hlive & Huniq). split; [by rewrite Hl|]. split.
  - intros p. rewrite Hl, Hh. apply Hlive.
  - intros trig echo. rewrite (sensors_with_key_ext _ _ k k') by done.
    apply Huniq.
Qed.

(** C8.  When a sensor with the pins [(trig, echo)] is registered, a
    request to add these pins again returns [-EEXIST], changes nothing in
    the registry, the heap, the pins or the handlers, and leaves exactly
    one sensor registered with this key. *)
Theorem duplicate_add_rejected pf env buf len k trig echo tmo :
  registry_ok k →
  devices_mutex k = false →
  first_char buf ≠ "-"%char →
  sscanf_ddd pf (skip_sign buf) = Some (trig, echo, tmo) →
  sensors_with_key (to_int trig) (to_int echo) k ≠ [] →
  ∃ k',
    configure_store pf env buf len k = Ret (neg EEXIST) k' ∧
    heap k' = heap k ∧
    hc_sr04_devices k' = hc_sr04_devices k ∧
    gpios k' = gpios k ∧
    irq_actions k' = irq_actions k ∧
    class_devices k' = class_devices k ∧
    devices_mutex k' = false ∧
    since k k' = [EvMutexLock DevicesMutex; EvMutexUnlock DevicesMutex] ∧
    length (sensors_with_key (to_int trig) (to_int echo) k') = 1%nat.
Proof.
  intros Hok Hdm Hadd Hscan Hpresent. unfold configure_store.
  rewrite (bool_decide_eq_false_2 _ Hadd). cbn [negb]. rewrite Hscan.
  rewrite (bind_Ret _ _ _ _ _ (lock_devices_eq k Hdm)).
  set (k1 := with_trace _ _).
  assert (Hok1 : registry_ok k1) by (by apply (registry_ok_ext k)).
  rewrite (bind_Ret _ _ _ _ _ (find_sensor_spec _ _ k1 Hok1)).
  rewrite (sensors_with_key_ext _ _ k k1) by done.
  destruct (sensors_with_key (to_int trig) (to_int echo) k) as [|p rest] eqn:Hs;
    [done|].
  cbn [head].
  rewrite (bind_Ret _ _ _ _ _ (unlock_devices_eq k1 eq_refl)).
  eexists. split; [reflexivity|]. repeat (split; [done|]).
  split. { apply since_app. cbn. by rewrite <- app_assoc. }
  destruct Hok as (_ & _ & Huniq). specialize (Huniq (to_int trig) (to_int echo)).
  rewrite (sensors_with_key_ext _ _ k) by done.
  rewrite Hs in *. cbn in *. lia.
Qed.

(** ** Removing a sensor *)

Lemma remove_sensor_free p k d idx :
  heap k !! p = Some d →
  measurement_mutex d = false →
  class_find_device (Obj p) k = Ret (Some idx) k →
  remove_sensor p k =
    Ret 0
      {| heap := delete p (heap k);
         hc_sr04_devices :=
           List.filter (λ q, negb (bool_decide (q = p))) (hc_sr04_devices k);
         devices_mutex := devices_mutex k;
         gpios := gpios k ∖ {[gpio_echo d]} ∖ {[gpio_trig d]};
         irq_actions :=
           List.filter (λ a, negb (bool_decide (a = (irq d, p))))
             (irq_actions k);
         class_devices := delete idx (class_devices k);
         trace := trace k ++
           [ EvMutexLock (MeasurementMutex p);
             EvDeviceUnregister idx;
             EvPutDevice idx;
             EvMutexUnlock (MeasurementMutex p);
             EvListDel p;
             EvFreeIrq (irq d) p;
             EvGpioFree (gpio_echo d);
             EvGpioFree (gpio_trig d);
             EvKfree p ] |}.
Proof.
  intros Hd Hm Hfind. unfold remove_sensor.
  rewrite (bind_Ret _ _ _ _ _ Hfind).
  destruct k as [h l dm g a c t]. cbn [heap] in Hd.
  unfold destroy_hc_sr04. munfold. rewrite Hd, Hm. munfold. rewrite Hd.
  munfold. hstep. cbn [set_mutex measurement_mutex]. hstep. hstep.
  cbn [set_mutex irq gpio_echo gpio_trig]. hstep.
  rewrite delete_insert_eq. rewrite <- !app_assoc. reflexivity.
Qed.

Lemma remove_sensor_blocked p k d idx :
  heap k !! p = Some d →
  measurement_mutex d = true →
  class_find_device (Obj p) k = Ret (Some idx) k →
  remove_sensor p k = Blocked (MeasurementMutex p) k.
Proof.
  intros Hd Hm Hfind. unfold remove_sensor.
  unfold mbind at 1. unfold M_bind at 1. rewrite Hfind.
  destruct k as [h l dm g a c t]. cbn [heap] in Hd.
  munfold. rewrite Hd, Hm. reflexivity.
Qed.

(** C7 (as amended).  Removing a sensor whose class device is found first
    takes the sensor's mutex, which blocks while a measurement holds it.
    It then unregisters the class device, gives the mutex back, and only
    after that takes the sensor off the list, unregisters the interrupt
    handler, releases the echo pin and the trigger pin, and frees the
    sensor, in this order. *)
Theorem remove_order p k d idx :
  heap k !! p = Some d →
  class_find_device (Obj p) k = Ret (Some idx) k →
  if measurement_mutex d then
    remove_sensor p k = Blocked (MeasurementMutex p) k
  else
    ∃ k',
      remove_sensor p k = Ret 0 k' ∧
      since k k' =
        [ EvMutexLock (MeasurementMutex p);
          EvDeviceUnregister idx;
          EvPutDevice idx;
          EvMutexUnlock (MeasurementMutex p);
          EvListDel p;
          EvFreeIrq (irq d) p;
          EvGpioFree (gpio_echo d);
          EvGpioFree (gpio_trig d);
          EvKfree p ] ∧
      heap k' !! p = None ∧
      (p ∉ hc_sr04_devices k') ∧
      ((irq d, p) ∉ irq_actions k') ∧
      (gpio_echo d ∉ gpios k') ∧ (gpio_trig d ∉ gpios k').
Proof.
  intros Hd Hfind. destruct (measurement_mutex d) eqn:Hm.
  - by eapply remove_sensor_blocked.
  - eexists. split; [by eapply remove_sensor_free|].
    split. { by eapply since_app. }
    cbn [heap hc_sr04_devices irq_actions gpios].
    split; [apply lookup_delete_eq|].
    split.
    { rewrite list_elem_of_In, List.filter_In. intros [_ H].
      by rewrite bool_decide_eq_true_2 in H. }
    split.
    { rewrite list_elem_of_In, List.filter_In. intros [_ H].
      by rewrite bool_decide_eq_true_2 in H. }
    rewrite !elem_of_difference, !elem_of_singleton.
    split; [intros [[_ ?] _]|intros [_ ?]]; done.
Qed.

(** ** The invariant of the driver's state *)

Lemma driver_ok_live k : driver_ok k → irq_live k.
Proof.
  intros [_ Hs] n q Hin. destruct (Hs n q Hin) as (d & Hd & _). eauto.
Qed.

Lemma boot_ok : driver_ok boot.
Proof.
  split; [split; [apply NoDup_nil_2|split]|].
  - intros p Hp. by apply elem_of_nil in Hp.
  - intros trig echo. simpl. lia.
  - intros n q Hin. by apply elem_of_nil in Hin.
Qed.

Lemma has_key_frame trig echo h h' l dm g a c t l' dm' g' a' c' t' q :
  heap_config_eq h h' →
  has_key trig echo
    {| heap := h'; hc_sr04_devices := l'; devices_mutex := dm'; gpios := g';
       irq_actions := a'; class_devices := c'; trace := t' |} q =
  has_key trig echo
    {| heap := h; hc_sr04_devices := l; devices_mutex := dm; gpios := g;
       irq_actions := a; class_devices := c; trace := t |} q.
Proof.
  intros H. unfold has_key. cbn [heap]. specialize (H q).
  destruct H as [d d' (Ht & He & _)|]; [|done]. by rewrite Ht, He.
Qed.

(** What keeps the frame keeps the invariant. *)
Lemma driver_ok_frame k k' : frame_eq k k' → driver_ok k → driver_ok k'.
Proof.
  intros (Hl & _ & Ha & _ & Hh) [(Hnd & Hlive & Huniq) Hs].
  split; [split; [by rewrite Hl|split]|].
  - intros p. rewrite Hl. intros Hp. destruct (Hlive p Hp) as [d Hd].
    destruct (heap_config_eq_lookup _ _ _ _ Hh Hd) as (d' & Hd' & _). eauto.
  - intros trig echo. unfold sensors_with_key. rewrite Hl.
    rewrite (List.filter_ext _ (has_key trig echo k)); [apply Huniq|].
    intros q. destruct k, k'. by apply has_key_frame.
  - intros n q. rewrite Ha. intros Hin.
    destruct (Hs n q Hin) as (d & Hd & Hirq).
    destruct (heap_config_eq_lookup _ _ _ _ Hh Hd)
      as (d' & Hd' & (_ & _ & Hi & _)).
    exists d'. split; [done|congruence].
Qed.

(** A measurement keeps the invariant. *)
Lemma do_measurement_keeps_ok pf env p k ru k' :
  driver_ok k → do_measurement pf env p k = Ret ru k' → driver_ok k'.
Proof.
  intros Hok Hrun. destruct (heap k !! p) as [d|] eqn:Hd.
  2: { unfold do_measurement, mutex_trylock, mutex_held in Hrun.
       cbv [mbind M_bind deref] in Hrun. by rewrite Hd in Hrun. }
  destruct (measurement_mutex d) eqn:Hm;
    destruct (devices_mutex k) eqn:Hdm.
  - rewrite (do_measurement_busy pf env p k d Hd Hm Hdm) in Hrun.
    injection Hrun as _ <-. eapply driver_ok_frame; [|done].
    apply (frame_eq_refl k).
  - unfold do_measurement in Hrun.
    rewrite (bind_Ret _ _ _ _ _ (trylock_held_eq p k d Hd Hm)) in Hrun.
    cbn [negb] in Hrun. unfold mutex_unlock, mutex_held in Hrun.
    cbv [mbind M_bind gets fault with_trace devices_mutex] in Hrun.
    destruct k. cbn in Hdm. by rewrite Hdm in Hrun.
  - destruct (do_measurement_spec pf env p k d (λ _, True))
      as (r & u & k'' & d' & w & Hrun' & Hfr & _); auto using driver_ok_live.
    rewrite Hrun' in Hrun. injection Hrun as _ <-.
    by eapply driver_ok_frame.
  - unfold do_measurement in Hrun.
    rewrite (bind_Ret _ _ _ _ _ (trylock_free_eq p k d Hd Hm)) in Hrun.
    cbn [negb] in Hrun. unfold mutex_unlock, mutex_held in Hrun.
    cbv [mbind M_bind gets fault with_trace with_heap devices_mutex] in Hrun.
    destruct k. cbn in Hdm. by rewrite Hdm in Hrun.
Qed.

Lemma driver_ok_ext k k' :
  heap k' = heap k → hc_sr04_devices k' = hc_sr04_devices k →
  irq_actions k' = irq_actions k → driver_ok k → driver_ok k'.
Proof.
  intros Hh Hl Ha [Hr Hs]. split; [by apply (registry_ok_ext k)|].
  intros n q. rewrite Ha, Hh. apply Hs.
Qed.

Lemma has_key_created pf trig echo tmo garbage t e k p :
  heap k !! p = Some (created pf trig echo tmo garbage) →
  has_key t e k p = (trig =? t) && (echo =? e).
Proof. intros H. unfold has_key. by rewrite H. Qed.

Lemma has_key_other t e k k' p :
  heap k' !! p = heap k !! p → has_key t e k' p = has_key t e k p.
Proof. intros H. unfold has_key. by rewrite H. Qed.

(** Registering a new sensor under a key nobody has keeps the invariant. *)
Lemma driver_ok_add pf trig echo tmo garbage k k' :
  driver_ok k →
  sensors_with_key trig echo k = [] →
  heap k' = <[fresh (dom (heap k)) := created pf trig echo tmo garbage]>
              (heap k) →
  hc_sr04_devices k' = hc_sr04_devices k ++ [fresh (dom (heap k))] →
  irq_actions k' =
    irq_actions k ++ [(gpio_to_irq pf echo, fresh (dom (heap k)))] →
  driver_ok k'.
Proof.
  intros [(Hnd & Hlive & Huniq) Hs] Hnone Hh Hl Ha.
  pose proof (fresh_not_in_heap (heap k)) as Hfresh.
  set (new := fresh (dom (heap k))) in *.
  assert (Hold : ∀ q, is_Some (heap k !! q) → heap k' !! q = heap k !! q).
  { intros q [dq Hq]. rewrite Hh. apply lookup_insert_ne. congruence. }
  assert (Hnew : heap k' !! new = Some (created pf trig echo tmo garbage)).
  { by rewrite Hh, lookup_insert_eq. }
  split; [split; [|split]|].
  - rewrite Hl. apply NoDup_app. split; [done|]. split; [|apply NoDup_singleton].
    intros q Hq Hq'. apply list_elem_of_singleton in Hq' as ->.
    destruct (Hlive _ Hq) as [dq Hdq]. congruence.
  - intros q. rewrite Hl. intros [Hq|Hq%list_elem_of_singleton]%elem_of_app.
    + rewrite (Hold q (Hlive q Hq)). by apply Hlive.
    + subst q. by rewrite Hnew.
  - intros t e. unfold sensors_with_key. rewrite Hl, List.filter_app, length_app.
    assert (Hfl : List.filter (has_key t e k') (hc_sr04_devices k) =
                  sensors_with_key t e k).
    { apply List.filter_ext_in. intros q Hq%list_elem_of_In.
      apply has_key_other, Hold, Hlive, Hq. }
    rewrite Hfl. cbn [List.filter].
    rewrite (has_key_created pf trig echo tmo garbage t e k' new Hnew).
    destruct (Z.eqb_spec trig t) as [<-|?]; cbn [andb];
      [destruct (Z.eqb_spec echo e) as [<-|?]|].
    + rewrite Hnone. simpl. lia.
    + simpl. specialize (Huniq trig e). lia.
    + simpl. specialize (Huniq t e). lia.
  - intros n q. rewrite Ha.
    intros [Hq|Hq%list_elem_of_singleton]%elem_of_app.
    + destruct (Hs n q Hq) as (dq & Hdq & Hirq). exists dq.
      by rewrite (Hold q (mk_is_Some _ _ Hdq)).
    + injection Hq as -> ->. by exists (created pf trig echo tmo garbage).
Qed.

(** Destroying a registered sensor keeps the invariant. *)
Lemma driver_ok_remove p d k k' :
  driver_ok k →
  heap k !! p = Some d →
  heap k' = delete p (heap k) →
  hc_sr04_devices k' =
    List.filter (λ q, negb (bool_decide (q = p))) (hc_sr04_devices k) →
  irq_actions k' =
    List.filter (λ a, negb (bool_decide (a = (irq d, p)))) (irq_actions k) →
  driver_ok k'.
Proof.
  intros [(Hnd & Hlive & Huniq) Hs] Hd Hh Hl Ha.
  assert (Hold : ∀ q, q ≠ p → heap k' !! q = heap k !! q).
  { intros q Hq. rewrite Hh. by apply lookup_delete_ne. }
  assert (Hin : ∀ q, q ∈ hc_sr04_devices k' ↔ q ∈ hc_sr04_devices k ∧ q ≠ p).
  { intros q. rewrite Hl, !list_elem_of_In, List.filter_In, negb_true_iff.
    by rewrite bool_decide_eq_false. }
  split; [split; [|split]|].
  - rewrite Hl. apply NoDup_ListNoDup, List.NoDup_filter.
    by apply NoDup_ListNoDup.
  - intros q [Hq Hne]%Hin. rewrite (Hold q Hne). by apply Hlive.
  - intros t e. transitivity (length (sensors_with_key t e k)); [|apply Huniq].
    unfold sensors_with_key. rewrite Hl.
    rewrite (List.filter_ext_in (has_key t e k') (has_key t e k)).
    + clear. induction (hc_sr04_devices k) as [|q l IH]; [done|].
      cbn [List.filter]. destruct (bool_decide (q = p)); cbn [negb];
        cbn [List.filter]; destruct (has_key t e k q); simpl; lia.
    + intros q [_ Hq]%List.filter_In. apply negb_true_iff in Hq.
      apply bool_decide_eq_false in Hq. by apply has_key_other, Hold.
  - intros n q. rewrite Ha, list_elem_of_In, List.filter_In, negb_true_iff.
    rewrite bool_decide_eq_false, <- list_elem_of_In. intros [Hq Hne].
    destruct (Hs n q Hq) as (dq & Hdq & Hirq).
    destruct (decide (q = p)) as [->|Hqp].
    + rewrite Hd in Hdq. injection Hdq as <-. by subst n.
    + exists dq. by rewrite (Hold q Hqp).
Qed.

Lemma lock_devices_held k :
  devices_mutex k = true → mutex_lock DevicesMutex k = Blocked DevicesMutex k.
Proof.
  intros H. unfold mutex_lock, mutex_held.
  cbv [mbind M_bind gets block]. by rewrite H.
Qed.

Lemma class_find_device_eq data k :
  class_find_device data k =
    Ret (fst <$> list_find (λ drvdata, match_device drvdata data = true)
                   (class_devices k)) k.
Proof. reflexivity. Qed.

Lemma sensors_with_key_head trig echo k p rest :
  registry_ok k →
  sensors_with_key trig echo k = p :: rest →
  ∃ d, heap k !! p = Some d.
Proof.
  intros (_ & Hlive & _) Hs. apply Hlive, list_elem_of_In.
  assert (Hin : In p (sensors_with_key trig echo k)) by (rewrite Hs; by left).
  by apply List.filter_In in Hin as [Hin _].
Qed.

(** Adding and removing sensors keeps the invariant, as long as
    [request_any_context_irq] does not answer [IRQC_IS_NESTED]. *)
Lemma configure_store_keeps_ok pf env buf len k r k' :
  driver_ok k →
  irq_outcome env ≠ IrqNested →
  configure_store pf env buf len k = Ret r k' →
  driver_ok k'.
Proof.
  intros Hok Hnest Hrun. unfold configure_store in Hrun.
  destruct (devices_mutex k) eqn:Hdm.
  { (* somebody holds the registry lock: the call blocks or parses badly *)
    destruct (negb (bool_decide (first_char buf = "-"%char)));
      [destruct (sscanf_ddd pf (skip_sign buf)) as [[[trig echo] tmo]|]
      |destruct (sscanf_dd pf (skip_sign buf)) as [[trig echo]|]];
      try (injection Hrun as _ <-; done);
      by rewrite (bind_Ret_blocked _ _ _ _ _ (lock_devices_held k Hdm)) in Hrun. }
  pose proof (lock_devices_eq k Hdm) as Hlock.
  set (k1 := with_trace _ _) in Hlock.
  assert (Hok1 : driver_ok k1) by (by apply (driver_ok_ext k)).
  destruct (negb (bool_decide (first_char buf = "-"%char))).
  - destruct (sscanf_ddd pf (skip_sign buf)) as [[[trig echo] tmo]|];
      [|by injection Hrun as _ <-].
    rewrite (bind_Ret _ _ _ _ _ Hlock) in Hrun.
    rewrite (bind_Ret _ _ _ _ _ (find_sensor_spec _ _ k1 (proj1 Hok1))) in Hrun.
    destruct (sensors_with_key (to_int trig) (to_int echo) k1)
      as [|p rest] eqn:Hs; cbn [head] in Hrun.
    + destruct (add_sensor_spec pf env (to_int trig) (to_int echo)
                  (to_ulong (abi pf) (to_int tmo)) k1)
        as (r1 & k2 & t & Hadd & Hdm2 & _ & Hcase).
      rewrite (bind_Ret _ _ _ _ _ Hadd) in Hrun.
      rewrite (bind_Ret _ _ _ _ _ (unlock_devices_eq k2 Hdm2)) in Hrun.
      assert (Hok2 : driver_ok k2).
      { destruct Hcase as [(_ & _ & Hh & Hl & _ & Ha & _)
                          |(_ & [(g0 & _ & Hh & Hl & _ & Ha)
                                |(Hh & Hl & _ & [Ha|Ho])])].
        - by apply (driver_ok_ext k1).
        - by eapply driver_ok_add.
        - by apply (driver_ok_ext k1).
        - done. }
      destruct (r1 <? 0); injection Hrun as _ <-;
        by apply (driver_ok_ext k2).
    + rewrite (bind_Ret _ _ _ _ _ (unlock_devices_eq k1 eq_refl)) in Hrun.
      injection Hrun as _ <-. by apply (driver_ok_ext k1).
  - destruct (sscanf_dd pf (skip_sign buf)) as [[trig echo]|];
      [|by injection Hrun as _ <-].
    rewrite (bind_Ret _ _ _ _ _ Hlock) in Hrun.
    rewrite (bind_Ret _ _ _ _ _ (find_sensor_spec _ _ k1 (proj1 Hok1))) in Hrun.
    destruct (sensors_with_key (to_int trig) (to_int echo) k1)
      as [|p rest] eqn:Hs; cbn [head] in Hrun.
    + rewrite (bind_Ret _ _ _ _ _ (unlock_devices_eq k1 eq_refl)) in Hrun.
      injection Hrun as _ <-. by apply (driver_ok_ext k1).
    + destruct (sensors_with_key_head _ _ _ _ _ (proj1 Hok1) Hs) as [d Hd].
      pose proof (class_find_device_eq (Obj p) k1) as Hfind.
      destruct (fst <$> list_find _ (class_devices k1)) as [idx|].
      * destruct (measurement_mutex d) eqn:Hm.
        { rewrite (bind_Ret_blocked _ _ _ _ _
                     (remove_sensor_blocked p k1 d idx Hd Hm Hfind)) in Hrun.
          discriminate. }
        rewrite (bind_Ret _ _ _ _ _ (remove_sensor_free p k1 d idx Hd Hm Hfind))
          in Hrun.
        set (k2 := Build_kstate _ _ _ _ _ _ _) in Hrun.
        rewrite (bind_Ret _ _ _ _ _ (unlock_devices_eq k2 eq_refl)) in Hrun.
        assert (Hok2 : driver_ok k2) by (by apply (driver_ok_remove p d k1)).
        cbn [Z.ltb Z.compare] in Hrun. injection Hrun as _ <-.
        by apply (driver_ok_ext k2).
      * assert (Hrem : remove_sensor p k1 = Ret (neg ENODEV) k1).
        { unfold remove_sensor. by rewrite (bind_Ret _ _ _ _ _ Hfind). }
        rewrite (bind_Ret _ _ _ _ _ Hrem) in Hrun.
        rewrite (bind_Ret _ _ _ _ _ (unlock_devices_eq k1 eq_refl)) in Hrun.
        cbn in Hrun. injection Hrun as _ <-. by apply (driver_ok_ext k1).
Qed.

Lemma sysfs_do_measurement_keeps_ok pf env p k r k' :
  driver_ok k →
  sysfs_do_measurement pf env (Obj p) k = Ret r k' →
  driver_ok k'.
Proof.
  intros Hok Hrun. unfold sysfs_do_measurement in Hrun.
  destruct (devices_mutex k) eqn:Hdm.
  { by rewrite (bind_Ret_blocked _ _ _ _ _ (lock_devices_held k Hdm)) in Hrun. }
  rewrite (bind_Ret _ _ _ _ _ (lock_devices_eq k Hdm)) in Hrun.
  set (k1 := with_trace _ _) in Hrun.
  assert (Hok1 : driver_ok k1) by (by apply (driver_ok_ext k)).
  unfold mbind at 1 in Hrun. unfold M_bind at 1 in Hrun.
  destruct (do_measurement pf env p k1) as [[status usecs] k2| |] eqn:Hm;
    [|discriminate..].
  assert (Hok2 : driver_ok k2) by (by eapply do_measurement_keeps_ok).
  destruct (status <? 0); by injection Hrun as _ <-.
Qed.

(** In every state the driver reaches, the registry is well formed and
    every interrupt action points to a live sensor. *)
Lemma reachable_ok pf k : reachable pf k → driver_ok k ∧ irq_live k.
Proof.
  intros Hr. assert (Hok : driver_ok k).
  { induction Hr as [|k env buf len r k' _ IH Hn Hrun|k env p r k' _ IH Hrun].
    - apply boot_ok.
    - by eapply configure_store_keeps_ok.
    - by eapply sysfs_do_measurement_keeps_ok. }
  split; [done|by apply driver_ok_live].
Qed.

(** ** The model on the Raspberry Pi *)

Lemma k_idle_registry_ok : registry_ok k_idle.
Proof.
  split; [apply NoDup_singleton|]. split.
  - intros q Hq. apply list_elem_of_singleton in Hq as ->. by exists d_idle.
  - intros trig echo. unfold sensors_with_key. simpl.
    destruct (has_key trig echo k_idle 1%positive); simpl; lia.
Qed.

Lemma k_idle_ok : driver_ok k_idle.
Proof.
  split; [exact k_idle_registry_ok|]. intros n q Hin.
  apply list_elem_of_singleton in Hin. injection Hin as -> ->.
  by exists d_idle.
Qed.

Lemma k_idle_live : irq_live k_idle.
Proof. exact (driver_ok_live k_idle k_idle_ok). Qed.

Lemma k_measure_live : irq_live k_measure.
Proof. exact k_idle_live. Qed.

(** Adding the sensor to an empty registry. *)
Example add_gives_k_idle :
  ∃ k', configure_store rpi aenv_ok "23 24 1000" 11 boot = Ret 11 k' ∧
        hc_sr04_devices k' = [1%positive] ∧
        heap k' !! 1%positive =
          Some (created rpi 23 24 1000 garbage) ∧
        irq_actions k' = [(184, 1%positive)] ∧
        class_devices k' = [Obj 1].
Proof. eexists. split; [vm_compute; reflexivity|]. by vm_compute. Qed.

(** A complete measurement: 1000 microseconds. *)
Example measure_1000 :
  ∃ k', sysfs_do_measurement rpi menv_echo (Obj 1) k_idle =
          Ret (5, Some ("1000" +:+ String "010"%char "")) k'.
Proof. eexists. vm_compute. reflexivity. Qed.

(** C division rounds towards zero: an echo 1400 ns long that straddles a
    second is reported as 2 microseconds. *)
Example elapsed_formula_rounding :
  elapsed_formula {| tv_sec := 200; tv_nsec := 999999000 |}
                  {| tv_sec := 201; tv_nsec := 400 |} = 2 ∧
  ∃ k', do_measurement rpi menv_straddle 1%positive k_measure =
          Ret (0, Some 2) k'.
Proof. split; [reflexivity|]. eexists. vm_compute. reflexivity. Qed.

(** No echo: the measurement times out. *)
Example measure_times_out :
  ∃ k', do_measurement rpi menv_quiet 1%positive k_measure =
          Ret (neg ETIMEDOUT, None) k'.
Proof. eexists. vm_compute. reflexivity. Qed.

(** A signal: the measurement is interrupted. *)
Example measure_interrupted :
  ∃ k', do_measurement rpi menv_signal 1%positive k_measure =
          Ret (neg ERESTARTSYS, None) k'.
Proof. eexists. vm_compute. reflexivity. Qed.

(** The first measurement of a new sensor, when only the falling edge is
    served, counts from the [time_triggered] that [kmalloc] handed out. *)
Example first_measurement_counts_from_garbage :
  ∃ k1 k2,
    configure_store rpi aenv_ok "23 24 1000" 11 boot = Ret 11 k1 ∧
    do_measurement rpi menv_fall_only 1%positive
      (with_devices_mutex true k1) =
      Ret (0, Some (elapsed_formula (time_triggered garbage)
                                    {| tv_sec := 200; tv_nsec := 1001000 |}))
          k2.
Proof.
  eexists _, _. split; [vm_compute; reflexivity|]. vm_compute. reflexivity.
Qed.

(** When [request_any_context_irq] answers [IRQC_IS_NESTED],
    [create_hc_sr04] takes its failure path with the handler registered:
    [configure_store] reports success, no sensor is listed, and an
    interrupt action is left with a pointer to freed memory. *)
Example nested_irq_add :
  ∃ k', configure_store rpi aenv_nested "23 24 1000" 11 boot = Ret 11 k' ∧
        hc_sr04_devices k' = [] ∧
        heap k' !! 1%positive = None ∧
        irq_actions k' = [(184, 1%positive)] ∧
        class_devices k' = [Raw 1] ∧
        ¬ irq_live k'.
Proof.
  eexists. split; [vm_compute; reflexivity|].
  repeat (split; [reflexivity|]).
  intros Hl. destruct (Hl 184 1%positive) as [d Hd]; [by left|].
  vm_compute in Hd. discriminate Hd.
Qed.

(** The state with one idle sensor is reached by one request to add it
    and one measurement. *)
Example k_idle_like_reachable :
  ∃ k1 k2 r,
    configure_store rpi aenv_ok "23 24 1000" 11 boot = Ret 11 k1 ∧
    sysfs_do_measurement rpi menv_echo (Obj 1) k1 = Ret r k2 ∧
    reachable rpi k2 ∧
    heap k2 !! 1%positive =
      Some {| gpio_trig := 23; gpio_echo := 24; irq := 184;
              time_triggered := {| tv_sec := 200; tv_nsec := 1000 |};
              time_echoed := {| tv_sec := 200; tv_nsec := 1001000 |};
              echo_received := 1; device_triggered := 1;
              measurement_mutex := false; timeout := 1000 |}.
Proof.
  pose (k1 := match configure_store rpi aenv_ok "23 24 1000" 11 boot with
              | Ret _ k => k | _ => boot end).
  pose (r2 := match sysfs_do_measurement rpi menv_echo (Obj 1) k1 with
              | Ret r _ => r | _ => (0, None) end).
  pose (k2 := match sysfs_do_measurement rpi menv_echo (Obj 1) k1 with
              | Ret _ k => k | _ => boot end).
  assert (H1 : configure_store rpi aenv_ok "23 24 1000" 11 boot = Ret 11 k1)
    by (vm_compute; reflexivity).
  assert (H2 : sysfs_do_measurement rpi menv_echo (Obj 1) k1 = Ret r2 k2)
    by (vm_compute; reflexivity).
  exists k1, k2, r2. split; [exact H1|]. split; [exact H2|].
  split; [|by vm_compute].
  apply (reach_measure rpi k1 menv_echo 1%positive r2 k2); [|exact H2].
  apply (reach_configure rpi boot aenv_ok "23 24 1000" 11 11 k1);
    [apply reach_boot|discriminate|exact H1].
Qed.

(** ** The claims on the Raspberry Pi *)

(** [H : t !! i = Some e] on a literal list [t]: keep the positions [i]
    where [e] is. *)
Ltac find_index i H :=
  simpl in H;
  first [ discriminate H
        | destruct i as [|i]; [try discriminate H | find_index i H] ].

(** C2 as the specification states it fails: the pin goes back to low
    after [device_triggered] is set, not before. *)
Lemma trigger_order_counterexample :
  ∃ r u k',
    do_measurement rpi menv_echo 1%positive k_measure = Ret (r, u) k' ∧
    ¬ claimed_trigger_order 1%positive d_idle
        (process_events (since k_measure k')).
Proof.
  eexists _, _, _. split; [vm_compute; reflexivity|].
  intros (i & j & Hi & Hj & Hlt). vm_compute in Hi, Hj.
  find_index i Hi. find_index j Hj. lia.
Qed.

Lemma trigger_pulse_order_witness :
  heap k_measure !! 1%positive = Some d_idle ∧
  measurement_mutex d_idle = false ∧
  devices_mutex k_measure = true ∧
  irq_live k_measure ∧
  ∃ r u k' w,
    do_measurement rpi menv_echo 1%positive k_measure = Ret (r, u) k' ∧
    process_events (since k_measure k') =
      [ EvMutexTrylock (MeasurementMutex 1) true;
        EvMutexUnlock DevicesMutex;
        EvMsleep 60;
        EvStore 1 (W_echo_received 0);
        EvStore 1 (W_device_triggered 0);
        EvGpioSetValue 23 1;
        EvUdelay 10;
        EvStore 1 (W_device_triggered 1);
        EvGpioSetValue 23 0;
        EvWait 1 1000 w;
        EvMutexUnlock (MeasurementMutex 1) ].
Proof.
  repeat (split; [reflexivity || exact k_measure_live|]).
  exact (trigger_pulse_order rpi menv_echo 1%positive k_measure d_idle
           eq_refl eq_refl eq_refl k_measure_live).
Defined.

(** C5 on a sensor that is being measured. *)
Lemma busy_and_registry_lock_witness :
  heap k_busy !! 1%positive = Some (set_mutex true d_idle) ∧
  devices_mutex k_busy = true ∧
  irq_live k_busy ∧
  ∃ r u k',
    do_measurement rpi menv_echo 1%positive k_busy = Ret (r, u) k' ∧
    devices_mutex k' = false ∧
    r = neg EBUSY ∧ u = None ∧ heap k' = heap k_busy ∧ frame_eq k_busy k' ∧
    since k_busy k' = [EvMutexTrylock (MeasurementMutex 1) false;
                       EvMutexUnlock DevicesMutex].
Proof.
  assert (Hl : irq_live k_busy).
  { intros n q Hin. apply list_elem_of_singleton in Hin.
    injection Hin as -> ->. by eexists. }
  repeat (split; [reflexivity || exact Hl|]).
  exact (busy_and_registry_lock rpi menv_echo 1%positive k_busy
           (set_mutex true d_idle) eq_refl eq_refl Hl).
Defined.

(** C6 on a measurement with an echo. *)
Lemma measurement_mutex_released_witness :
  heap k_measure !! 1%positive = Some d_idle ∧
  measurement_mutex d_idle = false ∧
  devices_mutex k_measure = true ∧
  irq_live k_measure ∧
  ∃ r u k' d',
    do_measurement rpi menv_echo 1%positive k_measure = Ret (r, u) k' ∧
    (r = 0 ∨ r = neg ETIMEDOUT ∨ r = neg ERESTARTSYS) ∧
    heap k' !! 1%positive = Some d' ∧
    measurement_mutex d' = false ∧
    last (process_events (since k_measure k')) =
      Some (EvMutexUnlock (MeasurementMutex 1)).
Proof.
  repeat (split; [reflexivity || exact k_measure_live|]).
  exact (measurement_mutex_released rpi menv_echo 1%positive k_measure d_idle
           eq_refl eq_refl eq_refl k_measure_live).
Defined.

(** C7 as the specification states it fails: the mutex is released before
    the handler is unregistered. *)
Lemma remove_order_counterexample :
  ∃ k',
    remove_sensor 1%positive k_idle = Ret 0 k' ∧
    ¬ claimed_remove_order 1%positive d_idle (since k_idle k').
Proof.
  eexists. split; [vm_compute; reflexivity|].
  intros (i_lock & i_irq & i_echo & i_trig & i_del & i_unlock & i_free
          & _ & Hirq & _ & _ & _ & Hunlock & _ & ? & ? & ? & ? & ? & ? & ?).
  vm_compute in Hirq, Hunlock.
  find_index i_irq Hirq. find_index i_unlock Hunlock. lia.
Qed.

Lemma remove_order_witness :
  heap k_idle !! 1%positive = Some d_idle ∧
  class_find_device (Obj 1) k_idle = Ret (Some 0%nat) k_idle ∧
  ∃ k',
    remove_sensor 1%positive k_idle = Ret 0 k' ∧
    since k_idle k' =
      [ EvMutexLock (MeasurementMutex 1);
        EvDeviceUnregister 0;
        EvPutDevice 0;
        EvMutexUnlock (MeasurementMutex 1);
        EvListDel 1;
        EvFreeIrq 184 1;
        EvGpioFree 24;
        EvGpioFree 23;
        EvKfree 1 ] ∧
    heap k' !! 1%positive = None ∧
    (1%positive ∉ hc_sr04_devices k') ∧
    ((184, 1%positive) ∉ irq_actions k') ∧
    (24 ∉ gpios k') ∧ (23 ∉ gpios k').
Proof.
  split; [reflexivity|]. split; [reflexivity|].
  exact (remove_order 1%positive k_idle d_idle 0%nat eq_refl eq_refl).
Defined.

(** C8 on the registered sensor. *)
Lemma duplicate_add_rejected_witness :
  registry_ok k_idle ∧
  devices_mutex k_idle = false ∧
  first_char "23 24 1000" ≠ "-"%char ∧
  sscanf_ddd rpi (skip_sign "23 24 1000") = Some (23, 24, 1000) ∧
  sensors_with_key (to_int 23) (to_int 24) k_idle ≠ [] ∧
  ∃ k',
    configure_store rpi aenv_ok "23 24 1000" 11 k_idle = Ret (neg EEXIST) k' ∧
    heap k' = heap k_idle ∧
    hc_sr04_devices k' = hc_sr04_devices k_idle ∧
    gpios k' = gpios k_idle ∧
    irq_actions k' = irq_actions k_idle ∧
    class_devices k' = class_devices k_idle ∧
    devices_mutex k' = false ∧
    since k_idle k' = [EvMutexLock DevicesMutex; EvMutexUnlock DevicesMutex] ∧
    length (sensors_with_key (to_int 23) (to_int 24) k') = 1%nat.
Proof.
  assert (H1 : first_char "23 24 1000" ≠ "-"%char) by discriminate.
  assert (H2 : sensors_with_key (to_int 23) (to_int 24) k_idle ≠ [])
    by (vm_compute; discriminate).
  split; [exact k_idle_registry_ok|]. split; [reflexivity|].
  split; [exact H1|]. split; [reflexivity|]. split; [exact H2|].
  exact (duplicate_add_rejected rpi aenv_ok "23 24 1000" 11 k_idle 23 24 1000
           k_idle_registry_ok eq_refl H1 eq_refl H2).
Defined.

(** C10 when only the falling edge is served: the elapsed time is counted
    from the timestamp of the previous measurement. *)
Lemma stale_time_triggered_witness :
  heap k_measure !! 1%positive = Some d_idle ∧
  measurement_mutex d_idle = false ∧
  devices_mutex k_measure = true ∧
  irq_live k_measure ∧
  (∀ e, env_event menv_fall_only e → ev_data e = 1%positive →
        ev_level e ≠ 1) ∧
  ∃ k' d',
    do_measurement rpi menv_fall_only 1%positive k_measure =
      Ret (0, Some 100001001) k' ∧
    heap k' !! 1%positive = Some d' ∧
    time_triggered d' = {| tv_sec := 100; tv_nsec := 0 |} ∧
    100001001 =
      elapsed_formula (time_triggered d_idle)
                      {| tv_sec := 200; tv_nsec := 1001000 |}.
Proof.
  assert (Hlow : ∀ e, env_event menv_fall_only e → ev_data e = 1%positive →
                      ev_level e ≠ 1).
  { intros e [[i Hin]|Hin] _.
    - by apply elem_of_nil in Hin.
    - apply elem_of_cons in Hin as [Hin|Hin]; [discriminate Hin|].
      apply list_elem_of_singleton in Hin. injection Hin as ->.
      discriminate. }
  repeat (split; [reflexivity || exact k_measure_live || exact Hlow|]).
  destruct (stale_time_triggered rpi menv_fall_only 1%positive k_measure
              d_idle eq_refl eq_refl eq_refl k_measure_live Hlow)
    as (r & u & k' & d' & Hrun & Hd' & Htt & _ & _ & _ & Hu).
  exists k', d'. rewrite Hrun.
  split. { vm_compute in Hrun. by injection Hrun as <- <- <-. }
  split; [exact Hd'|]. split; [exact Htt|]. reflexivity.
Defined.



(** * Further properties of the registry *)

Lemma elem_of_filter_ne {A} `{EqDecision A} (x y : A) (l : list A) :
  x ∈ List.filter (λ q, negb (bool_decide (q = y))) l ↔ x ∈ l ∧ x ≠ y.
Proof.
  rewrite !list_elem_of_In, List.filter_In. split.
  - intros [H1 H2]. split; [done|]. intros ->.
    by rewrite bool_decide_eq_true_2 in H2.
  - intros [H1 H2]. split; [done|]. by rewrite bool_decide_eq_false_2.
Qed.

Lemma filter_ne_id {A} `{EqDecision A} (y : A) (l : list A) :
  y ∉ l → List.filter (λ q, negb (bool_decide (q = y))) l = l.
Proof.
  induction l as [|x l IH]; [done|]. intros Hy. cbn.
  rewrite bool_decide_eq_false_2.
  2: { intros ->. apply Hy. left. }
  cbn. f_equal. apply IH. intros ?. apply Hy. by right.
Qed.

Lemma remove_sensor_nodev p k :
  class_find_device (Obj p) k = Ret None k →
  remove_sensor p k = Ret (neg ENODEV) k.
Proof.
  intros H. unfold remove_sensor. by rewrite (bind_Ret _ _ _ _ _ H).
Qed.

(** X1.  [find_sensor] reads the list without changing anything.  When
    every listed sensor is live, it returns a listed sensor configured
    for exactly the pins asked for, or NULL when no listed sensor has
    them. *)
Theorem find_sensor_lookup trig echo k :
  (∀ p, p ∈ hc_sr04_devices k → is_Some (heap k !! p)) →
  ∃ r,
    find_sensor trig echo k = Ret r k ∧
    match r with
    | Some p =>
        p ∈ hc_sr04_devices k ∧
        ∃ d, heap k !! p = Some d ∧ gpio_trig d = trig ∧ gpio_echo d = echo
    | None =>
        ∀ p d, p ∈ hc_sr04_devices k → heap k !! p = Some d →
               ¬ (gpio_trig d = trig ∧ gpio_echo d = echo)
    end.
Proof.
  intros Hlive. eexists. split.
  { unfold find_sensor. unfold mbind at 1. unfold M_bind at 1. unfold gets.
    by apply find_sensor_from_spec. }
  destruct (List.filter _ _) as [|p rest] eqn:Hf; cbn [head].
  - intros p d Hp Hd [Ht He].
    assert (Hin : In p (List.filter (has_key trig echo k) (hc_sr04_devices k))).
    { apply List.filter_In. split; [by apply list_elem_of_In|].
      unfold has_key. rewrite Hd, Ht, He. by rewrite !Z.eqb_refl. }
    by rewrite Hf in Hin.
  - assert (Hin : In p (List.filter (has_key trig echo k) (hc_sr04_devices k))).
    { rewrite Hf. by left. }
    apply List.filter_In in Hin as [Hin Hk].
    split; [by apply list_elem_of_In|].
    unfold has_key in Hk. destruct (heap k !! p) as [d|]; [|done].
    exists d. apply andb_prop in Hk as [Ht He].
    apply Z.eqb_eq in Ht, He. done.
Qed.

Lemma find_sensor_lookup_witness :
  ∃ r,
    find_sensor 23 24 k_idle = Ret r k_idle ∧
    match r with
    | Some p =>
        p ∈ hc_sr04_devices k_idle ∧
        ∃ d, heap k_idle !! p = Some d ∧ gpio_trig d = 23 ∧ gpio_echo d = 24
    | None =>
        ∀ p d, p ∈ hc_sr04_devices k_idle → heap k_idle !! p = Some d →
               ¬ (gpio_trig d = 23 ∧ gpio_echo d = 24)
    end.
Proof.
  apply (find_sensor_lookup 23 24 k_idle).
  intros p Hp. apply list_elem_of_singleton in Hp as ->. by eexists.
Defined.

(** X2.  A request to remove pins that no registered sensor has returns
    [-ENODEV]: the registry lock is taken and released, and nothing else
    happens. *)
Theorem remove_absent_enodev pf env buf len k trig echo :
  registry_ok k →
  devices_mutex k = false →
  first_char buf = "-"%char →
  sscanf_dd pf (skip_sign buf) = Some (trig, echo) →
  sensors_with_key (to_int trig) (to_int echo) k = [] →
  ∃ k',
    configure_store pf env buf len k = Ret (neg ENODEV) k' ∧
    untouched k k' ∧
    devices_mutex k' = false ∧
    since k k' = [EvMutexLock DevicesMutex; EvMutexUnlock DevicesMutex].
Proof.
  intros Hok Hdm Hrm Hscan Habsent. unfold configure_store.
  rewrite (bool_decide_eq_true_2 _ Hrm). cbn [negb]. rewrite Hscan.
  rewrite (bind_Ret _ _ _ _ _ (lock_devices_eq k Hdm)).
  set (k1 := with_trace _ _).
  assert (Hok1 : registry_ok k1) by (by apply (registry_ok_ext k)).
  rewrite (bind_Ret _ _ _ _ _ (find_sensor_spec _ _ k1 Hok1)).
  rewrite (sensors_with_key_ext _ _ k k1) by done.
  rewrite Habsent. cbn [head].
  rewrite (bind_Ret _ _ _ _ _ (unlock_devices_eq k1 eq_refl)).
  eexists. split; [reflexivity|]. split; [done|]. split; [done|].
  apply since_app. cbn. by rewrite <- app_assoc.
Qed.

Lemma remove_absent_enodev_witness :
  ∃ k',
    configure_store rpi aenv_ok "-23 24" 7 boot = Ret (neg ENODEV) k' ∧
    untouched boot k' ∧
    devices_mutex k' = false ∧
    since boot k' = [EvMutexLock DevicesMutex; EvMutexUnlock DevicesMutex].
Proof.
  apply (remove_absent_enodev rpi aenv_ok "-23 24" 7 boot 23 24);
    try reflexivity.
  apply boot_ok.
Defined.

(** X3.  From a state with a sound registry and the registry lock free,
    a request written to [configure] never faults.  Either it returns,
    with the registry lock released, and the value is [len] or a negative
    error code, an error leaving heap, list, pins, handlers and class
    devices as they were; or it is a removal that waits for the
    measurement mutex of a listed sensor, holding the registry lock and
    having changed nothing. *)
Theorem configure_store_outcomes pf env buf len k :
  registry_ok k →
  devices_mutex k = false →
  (∃ r k',
     configure_store pf env buf len k = Ret r k' ∧
     devices_mutex k' = false ∧
     (r = len ∨ (r < 0 ∧ untouched k k'))) ∨
  (∃ p d k',
     configure_store pf env buf len k = Blocked (MeasurementMutex p) k' ∧
     first_char buf = "-"%char ∧
     p ∈ hc_sr04_devices k ∧
     heap k !! p = Some d ∧ measurement_mutex d = true ∧
     devices_mutex k' = true ∧ untouched k k').
Proof.
  intros Hok Hdm. unfold configure_store.
  pose proof (lock_devices_eq k Hdm) as Hlock.
  set (k1 := with_trace _ _) in Hlock.
  assert (Hok1 : registry_ok k1) by (by apply (registry_ok_ext k)).
  destruct (bool_decide (first_char buf = "-"%char)) eqn:Hsign; cbn [negb].
  - (* removal *)
    apply bool_decide_eq_true_1 in Hsign.
    destruct (sscanf_dd pf (skip_sign buf)) as [[trig echo]|].
    2: { left. eexists _, _. split; [reflexivity|]. split; [done|].
         right. split; [apply neg_lt_0|done]. }
    rewrite (bind_Ret _ _ _ _ _ Hlock).
    rewrite (bind_Ret _ _ _ _ _ (find_sensor_spec _ _ k1 Hok1)).
    destruct (sensors_with_key (to_int trig) (to_int echo) k1)
      as [|p rest] eqn:Hs; cbn [head].
    { left. rewrite (bind_Ret _ _ _ _ _ (unlock_devices_eq k1 eq_refl)).
      eexists _, _. split; [reflexivity|]. split; [done|].
      right. split; [apply neg_lt_0|done]. }
    destruct (sensors_with_key_head _ _ _ _ _ Hok1 Hs) as [d Hd].
    assert (Hp : p ∈ hc_sr04_devices k).
    { assert (Hin : In p (sensors_with_key (to_int trig) (to_int echo) k1)).
      { rewrite Hs. by left. }
      apply List.filter_In in Hin as [Hin _]. by apply list_elem_of_In. }
    pose proof (class_find_device_eq (Obj p) k1) as Hfind.
    destruct (list_find _ (class_devices k1)) as [[idx x]|] eqn:Hlf;
      cbn [fmap option_fmap option_map fst] in Hfind.
    2: { left. rewrite (bind_Ret _ _ _ _ _ (remove_sensor_nodev p k1 Hfind)).
         rewrite (bind_Ret _ _ _ _ _ (unlock_devices_eq k1 eq_refl)).
         change (neg ENODEV <? 0) with true. cbn match.
         eexists _, _. split; [reflexivity|]. split; [done|].
         right. split; [apply neg_lt_0|done]. }
    destruct (measurement_mutex d) eqn:Hm.
    + right. exists p, d, k1. split.
      { apply bind_Ret_blocked. by eapply remove_sensor_blocked. }
      done.
    + left.
      rewrite (bind_Ret _ _ _ _ _ (remove_sensor_free p k1 d idx Hd Hm Hfind)).
      set (k2 := Build_kstate _ _ _ _ _ _ _).
      rewrite (bind_Ret _ _ _ _ _ (unlock_devices_eq k2 eq_refl)).
      change (0 <? 0) with false. cbn match.
      eexists _, _. split; [reflexivity|]. split; [done|]. by left.
  - (* addition *)
    destruct (sscanf_ddd pf (skip_sign buf)) as [[[trig echo] tmo]|].
    2: { left. eexists _, _. split; [reflexivity|]. split; [done|].
         right. split; [apply neg_lt_0|done]. }
    left.
    rewrite (bind_Ret _ _ _ _ _ Hlock).
    rewrite (bind_Ret _ _ _ _ _ (find_sensor_spec _ _ k1 Hok1)).
    destruct (sensors_with_key (to_int trig) (to_int echo) k1)
      as [|p rest] eqn:Hs; cbn [head].
    2: { rewrite (bind_Ret _ _ _ _ _ (unlock_devices_eq k1 eq_refl)).
         eexists _, _. split; [reflexivity|]. split; [done|].
         right. split; [apply neg_lt_0|done]. }
    destruct (add_sensor_spec pf env (to_int trig) (to_int echo)
                (to_ulong (abi pf) (to_int tmo)) k1)
      as (r & k2 & t & Hadd & Hdm2 & Ht & Hcases).
    rewrite (bind_Ret _ _ _ _ _ Hadd).
    rewrite (bind_Ret _ _ _ _ _ (unlock_devices_eq k2 Hdm2)).
    destruct Hcases as [(Hr & _ & Hh & Hl & Hg & Ha & Hc)|[-> _]].
    + apply Z.ltb_lt in Hr as Hr'. rewrite Hr'.
      eexists _, _. split; [reflexivity|]. split; [done|].
      right. split; [done|]. done.
    + change (0 <? 0) with false. cbn match.
      eexists _, _. split; [reflexivity|]. split; [done|]. by left.
Qed.

Lemma configure_store_outcomes_witness :
  (∃ r k',
     configure_store rpi aenv_ok "-23 24" 7 k_idle = Ret r k' ∧
     devices_mutex k' = false ∧
     (r = 7 ∨ (r < 0 ∧ untouched k_idle k'))) ∨
  (∃ p d k',
     configure_store rpi aenv_ok "-23 24" 7 k_idle
       = Blocked (MeasurementMutex p) k' ∧
     first_char "-23 24" = "-"%char ∧
     p ∈ hc_sr04_devices k_idle ∧
     heap k_idle !! p = Some d ∧ measurement_mutex d = true ∧
     devices_mutex k' = true ∧ untouched k_idle k').
Proof.
  apply (configure_store_outcomes rpi aenv_ok "-23 24" 7 k_idle);
    [apply k_idle_registry_ok | reflexivity].
Defined.

(** ** Requests that succeed *)

Lemma gpio_request_code_free fault_of (g : gset Z) pin :
  pin ∉ g → fault_of pin = None → gpio_request_code fault_of g pin = 0.
Proof.
  intros Hg Hf. unfold gpio_request_code.
  by rewrite (bool_decide_eq_false_2 _ Hg), Hf.
Qed.

(** The conditions under which nothing stands in the way of a new sensor
    on the pins [(trig, echo)]. *)
Lemma add_failure_excluded pf env trig echo (g : gset Z) garbage r :
  kmalloc_mem env = Some garbage →
  gpio_is_valid pf trig = true → gpio_is_valid pf echo = true →
  trig ≠ echo → trig ∉ g → echo ∉ g →
  gpio_fault env trig = None → gpio_fault env echo = None →
  0 <= gpio_to_irq pf echo →
  (∀ e, irq_outcome env ≠ IrqFail e) →
  add_failure pf env trig echo g r → False.
Proof.
  intros Hmem Hvt Hve Hne Hgt Hge Hft Hfe Hirq Hout Hfail.
  destruct Hfail as [Hnone|r _ Hgpio|_ _ Hneg|e _ _ _ Hreq].
  - by rewrite Hmem in Hnone.
  - destruct Hgpio as [[H|H]|_ _ Hlt|_ _ _ Hlt].
    + by rewrite Hvt in H.
    + by rewrite Hve in H.
    + rewrite gpio_request_code_free in Hlt by done. lia.
    + rewrite gpio_request_code_free in Hlt; [lia| |done].
      rewrite elem_of_union, elem_of_singleton. intros [?|?]; by auto.
  - lia.
  - by apply (Hout e).
Qed.

Lemma add_sensor_ok pf env trig echo tmo k garbage :
  kmalloc_mem env = Some garbage →
  gpio_is_valid pf trig = true → gpio_is_valid pf echo = true →
  trig ≠ echo → trig ∉ gpios k → echo ∉ gpios k →
  gpio_fault env trig = None → gpio_fault env echo = None →
  0 <= gpio_to_irq pf echo →
  irq_outcome env = IrqHard →
  ∃ k',
    add_sensor pf env trig echo tmo k = Ret 0 k' ∧
    devices_mutex k' = devices_mutex k ∧
    heap k' = <[fresh (dom (heap k)) := created pf trig echo tmo garbage]>
                (heap k) ∧
    hc_sr04_devices k' = hc_sr04_devices k ++ [fresh (dom (heap k))] ∧
    gpios k' = {[echo]} ∪ ({[trig]} ∪ gpios k) ∧
    irq_actions k' =
      irq_actions k ++ [(gpio_to_irq pf echo, fresh (dom (heap k)))] ∧
    class_devices k' =
      (if device_create_ok env
       then class_devices k ++ [Obj (fresh (dom (heap k)))]
       else class_devices k).
Proof.
  intros Hmem Hvt Hve Hne Hgt Hge Hft Hfe Hirq Hout.
  destruct (create_hc_sr04_spec pf env trig echo tmo k)
    as (ptr & k1 & t & Hcreate & Hdm & Hc & Ht & Hcases).
  unfold add_sensor. rewrite (bind_Ret _ _ _ _ _ Hcreate).
  destruct Hcases as [(g0 & Hmem' & -> & Hh & Hl & Hg & Ha & _)|
                      (err & _ & _ & _ & _ & _ & Herr)].
  2: { exfalso. destruct Herr as [(_ & _ & Hfail)|(_ & Hnested & _)].
       - apply (add_failure_excluded pf env trig echo (gpios k) garbage err
                  Hmem Hvt Hve Hne Hgt Hge Hft Hfe Hirq); [|done].
         intros e. by rewrite Hout.
       - by rewrite Hout in Hnested. }
  rewrite Hmem in Hmem'. injection Hmem' as <-.
  cbn [IS_ERR]. destruct k1 as [h1 l1 dm1 g1 a1 c1 t1].
  cbn [heap hc_sr04_devices devices_mutex gpios irq_actions class_devices]
    in *.
  destruct (device_create_ok env); munfold; eexists; (split; [reflexivity|]);
    cbn [heap hc_sr04_devices devices_mutex gpios irq_actions class_devices];
    by rewrite ?Hc.
Qed.

Lemma configure_add_ok pf env buf len k trig echo tmo garbage :
  registry_ok k →
  devices_mutex k = false →
  first_char buf ≠ "-"%char →
  sscanf_ddd pf (skip_sign buf) = Some (trig, echo, tmo) →
  sensors_with_key (to_int trig) (to_int echo) k = [] →
  kmalloc_mem env = Some garbage →
  gpio_is_valid pf (to_int trig) = true →
  gpio_is_valid pf (to_int echo) = true →
  to_int trig ≠ to_int echo →
  to_int trig ∉ gpios k → to_int echo ∉ gpios k →
  gpio_fault env (to_int trig) = None →
  gpio_fault env (to_int echo) = None →
  0 <= gpio_to_irq pf (to_int echo) →
  irq_outcome env = IrqHard →
  ∃ k',
    configure_store pf env buf len k = Ret len k' ∧
    devices_mutex k' = false ∧
    heap k' =
      <[fresh (dom (heap k)) :=
          created pf (to_int trig) (to_int echo)
            (to_ulong (abi pf) (to_int tmo)) garbage]> (heap k) ∧
    hc_sr04_devices k' = hc_sr04_devices k ++ [fresh (dom (heap k))] ∧
    gpios k' = {[to_int echo]} ∪ ({[to_int trig]} ∪ gpios k) ∧
    irq_actions k' =
      irq_actions k
        ++ [(gpio_to_irq pf (to_int echo), fresh (dom (heap k)))] ∧
    class_devices k' =
      (if device_create_ok env
       then class_devices k ++ [Obj (fresh (dom (heap k)))]
       else class_devices k).
Proof.
  intros Hok Hdm Hadd Hscan Habsent Hmem Hvt Hve Hne Hgt Hge Hft Hfe Hirq Hout.
  unfold configure_store.
  rewrite (bool_decide_eq_false_2 _ Hadd). cbn [negb]. rewrite Hscan.
  rewrite (bind_Ret _ _ _ _ _ (lock_devices_eq k Hdm)).
  set (k1 := with_trace _ _).
  assert (Hok1 : registry_ok k1) by (by apply (registry_ok_ext k)).
  rewrite (bind_Ret _ _ _ _ _ (find_sensor_spec _ _ k1 Hok1)).
  rewrite (sensors_with_key_ext _ _ k k1) by done.
  rewrite Habsent. cbn [head].
  destruct (add_sensor_ok pf env (to_int trig) (to_int echo)
              (to_ulong (abi pf) (to_int tmo)) k1 garbage)
    as (k2 & Hrun & Hdm2 & Hh & Hl & Hg & Ha & Hc); try done.
  rewrite (bind_Ret _ _ _ _ _ Hrun).
  rewrite (bind_Ret _ _ _ _ _ (unlock_devices_eq k2 Hdm2)).
  change (0 <? 0) with false. cbn match.
  eexists. split; [reflexivity|]. done.
Qed.

Lemma created_fields pf trig echo tmo garbage :
  let d := created pf trig echo tmo garbage in
  gpio_trig d = trig ∧ gpio_echo d = echo ∧
  irq d = gpio_to_irq pf echo ∧ timeout d = tmo ∧
  measurement_mutex d = false ∧
  time_triggered d = time_triggered garbage ∧
  time_echoed d = time_echoed garbage ∧
  echo_received d = echo_received garbage ∧
  device_triggered d = device_triggered garbage.
Proof. by repeat split. Qed.

Lemma sensors_with_key_added pf trig echo tmo garbage k k' :
  registry_ok k →
  sensors_with_key trig echo k = [] →
  heap k' = <[fresh (dom (heap k)) := created pf trig echo tmo garbage]>
              (heap k) →
  hc_sr04_devices k' = hc_sr04_devices k ++ [fresh (dom (heap k))] →
  sensors_with_key trig echo k' = [fresh (dom (heap k))].
Proof.
  intros (_ & Hlive & _) Habsent Hh Hl. unfold sensors_with_key in *.
  rewrite Hl, List.filter_app. cbn [List.filter].
  rewrite (has_key_created pf trig echo tmo garbage).
  2: { rewrite Hh. apply lookup_insert_eq. }
  rewrite !Z.eqb_refl. cbn [andb].
  rewrite (List.filter_ext_in _ (has_key trig echo k)); [by rewrite Habsent|].
  intros q Hq. apply has_key_other. rewrite Hh. apply lookup_insert_ne.
  intros <-. apply list_elem_of_In, Hlive in Hq as [d Hd].
  by rewrite fresh_not_in_heap in Hd.
Qed.

(** X4.  A well-formed request for pins that are valid, distinct, not
    requested by anybody and not yet registered, on a kernel that grants
    memory, both lines and the interrupt, returns [len] and registers one
    new sensor: [find_sensor] now finds it under these pins, the two
    lines are requested and its handler is registered on the echo line's
    interrupt.  The sensor has the pins, the interrupt number, the timeout
    converted to [unsigned long] and a free mutex; its timestamps and its
    two flags are whatever [kmalloc] handed out. *)
Theorem add_registers_sensor pf env buf len k trig echo tmo garbage :
  driver_ok k →
  devices_mutex k = false →
  first_char buf ≠ "-"%char →
  sscanf_ddd pf (skip_sign buf) = Some (trig, echo, tmo) →
  sensors_with_key (to_int trig) (to_int echo) k = [] →
  kmalloc_mem env = Some garbage →
  gpio_is_valid pf (to_int trig) = true →
  gpio_is_valid pf (to_int echo) = true →
  to_int trig ≠ to_int echo →
  to_int trig ∉ gpios k → to_int echo ∉ gpios k →
  gpio_fault env (to_int trig) = None →
  gpio_fault env (to_int echo) = None →
  0 <= gpio_to_irq pf (to_int echo) →
  irq_outcome env = IrqHard →
  ∃ k' p d,
    configure_store pf env buf len k = Ret len k' ∧
    devices_mutex k' = false ∧
    heap k !! p = None ∧ heap k' = <[p := d]> (heap k) ∧
    hc_sr04_devices k' = hc_sr04_devices k ++ [p] ∧
    find_sensor (to_int trig) (to_int echo) k' = Ret (Some p) k' ∧
    gpios k' = {[to_int echo]} ∪ ({[to_int trig]} ∪ gpios k) ∧
    irq_actions k' = irq_actions k ++ [(irq d, p)] ∧
    gpio_trig d = to_int trig ∧ gpio_echo d = to_int echo ∧
    irq d = gpio_to_irq pf (to_int echo) ∧
    timeout d = to_ulong (abi pf) (to_int tmo) ∧
    measurement_mutex d = false ∧
    time_triggered d = time_triggered garbage ∧
    time_echoed d = time_echoed garbage ∧
    echo_received d = echo_received garbage ∧
    device_triggered d = device_triggered garbage ∧
    driver_ok k'.
Proof.
  intros Hok Hdm Hadd Hscan Habsent Hmem Hvt Hve Hne Hgt Hge Hft Hfe Hirq Hout.
  destruct (configure_add_ok pf env buf len k trig echo tmo garbage)
    as (k' & Hrun & Hdm' & Hh & Hl & Hg & Ha & Hc); try done.
  { apply Hok. }
  assert (Hok' : driver_ok k') by (by eapply driver_ok_add).
  exists k', (fresh (dom (heap k))), (created pf (to_int trig) (to_int echo)
                (to_ulong (abi pf) (to_int tmo)) garbage).
  split; [done|]. split; [done|].
  split; [apply fresh_not_in_heap|]. split; [done|]. split; [done|].
  split.
  { rewrite (find_sensor_spec _ _ k') by apply Hok'.
    erewrite sensors_with_key_added; [done|apply Hok|done..]. }
  split; [done|]. split; [done|].
  split; [|done]. reflexivity.
Qed.

Lemma add_registers_sensor_witness :
  ∃ k' p d,
    configure_store rpi aenv_ok "23 24 1000" 11 boot = Ret 11 k' ∧
    devices_mutex k' = false ∧
    heap boot !! p = None ∧ heap k' = <[p := d]> (heap boot) ∧
    hc_sr04_devices k' = hc_sr04_devices boot ++ [p] ∧
    find_sensor (to_int 23) (to_int 24) k' = Ret (Some p) k' ∧
    gpios k' = {[to_int 24]} ∪ ({[to_int 23]} ∪ gpios boot) ∧
    irq_actions k' = irq_actions boot ++ [(irq d, p)] ∧
    gpio_trig d = to_int 23 ∧ gpio_echo d = to_int 24 ∧
    irq d = gpio_to_irq rpi (to_int 24) ∧
    timeout d = to_ulong (abi rpi) (to_int 1000) ∧
    measurement_mutex d = false ∧
    time_triggered d = time_triggered garbage ∧
    time_echoed d = time_echoed garbage ∧
    echo_received d = echo_received garbage ∧
    device_triggered d = device_triggered garbage ∧
    driver_ok k'.
Proof.
  apply (add_registers_sensor rpi aenv_ok "23 24 1000" 11 boot 23 24 1000
           garbage); try reflexivity; try done.
  apply boot_ok.
Defined.

(** ** Removing a registered sensor *)

Lemma class_find_device_first p (c : list pointer) :
  Obj p ∈ c →
  ∃ idx,
    list_find (λ drvdata, match_device drvdata (Obj p) = true) c
      = Some (idx, Obj p) ∧
    c !! idx = Some (Obj p) ∧
    ∀ j x, c !! j = Some x → (j < idx)%nat → x ≠ Obj p.
Proof.
  intros Hin.
  destruct (list_find_elem_of
              (λ drvdata, match_device drvdata (Obj p) = true) c (Obj p))
    as [[idx x] Hfind]; [done| |].
  { unfold match_device. by apply bool_decide_eq_true_2. }
  pose proof Hfind as Hfind'.
  apply list_find_Some in Hfind as (Hidx & Hx & Hfirst).
  unfold match_device in Hx. apply bool_decide_eq_true_1 in Hx. subst x.
  exists idx. split; [done|]. split; [done|].
  intros j x Hj Hlt Heq. apply (Hfirst j x Hj Hlt).
  unfold match_device. by apply bool_decide_eq_true_2.
Qed.

Lemma class_find_device_none p (c : list pointer) :
  Obj p ∉ c →
  list_find (λ drvdata, match_device drvdata (Obj p) = true) c = None.
Proof.
  intros Hnin. apply list_find_None. apply Forall_forall.
  intros x Hx Hm. unfold match_device in Hm.
  apply bool_decide_eq_true_1 in Hm. by subst x.
Qed.

Lemma configure_remove_ok pf env buf len k trig echo p rest d :
  registry_ok k →
  devices_mutex k = false →
  first_char buf = "-"%char →
  sscanf_dd pf (skip_sign buf) = Some (trig, echo) →
  sensors_with_key (to_int trig) (to_int echo) k = p :: rest →
  heap k !! p = Some d →
  measurement_mutex d = false →
  Obj p ∈ class_devices k →
  ∃ k' idx,
    configure_store pf env buf len k = Ret len k' ∧
    devices_mutex k' = false ∧
    heap k' = delete p (heap k) ∧
    hc_sr04_devices k' =
      List.filter (λ q, negb (bool_decide (q = p))) (hc_sr04_devices k) ∧
    gpios k' = gpios k ∖ {[gpio_echo d]} ∖ {[gpio_trig d]} ∧
    irq_actions k' =
      List.filter (λ a, negb (bool_decide (a = (irq d, p)))) (irq_actions k) ∧
    class_devices k' = delete idx (class_devices k) ∧
    class_devices k !! idx = Some (Obj p) ∧
    (∀ j x, class_devices k !! j = Some x → (j < idx)%nat → x ≠ Obj p).
Proof.
  intros Hok Hdm Hrm Hscan Hs Hd Hm Hdev. unfold configure_store.
  rewrite (bool_decide_eq_true_2 _ Hrm). cbn [negb]. rewrite Hscan.
  rewrite (bind_Ret _ _ _ _ _ (lock_devices_eq k Hdm)).
  set (k1 := with_trace _ _).
  assert (Hok1 : registry_ok k1) by (by apply (registry_ok_ext k)).
  rewrite (bind_Ret _ _ _ _ _ (find_sensor_spec _ _ k1 Hok1)).
  rewrite (sensors_with_key_ext _ _ k k1) by done.
  rewrite Hs. cbn [head].
  destruct (class_find_device_first p (class_devices k) Hdev)
    as (idx & Hfind & Hidx & Hfirst).
  assert (Hfind1 : class_find_device (Obj p) k1 = Ret (Some idx) k1).
  { rewrite class_find_device_eq.
    change (class_devices k1) with (class_devices k). by rewrite Hfind. }
  rewrite (bind_Ret _ _ _ _ _ (remove_sensor_free p k1 d idx Hd Hm Hfind1)).
  set (k2 := Build_kstate _ _ _ _ _ _ _).
  rewrite (bind_Ret _ _ _ _ _ (unlock_devices_eq k2 eq_refl)).
  change (0 <? 0) with false. cbn match.
  eexists _, idx. split; [reflexivity|]. done.
Qed.

(** X5.  Removing a registered sensor that is not measuring and has its
    class device returns [len]: afterwards no listed sensor has these
    pins, the sensor's memory is freed, its handler is unregistered, its
    two lines are released and its class device is gone, while every other
    sensor stays as it was; the state is sound again. *)
Theorem remove_unregisters_sensor pf env buf len k trig echo p rest d :
  driver_ok k →
  devices_mutex k = false →
  first_char buf = "-"%char →
  sscanf_dd pf (skip_sign buf) = Some (trig, echo) →
  sensors_with_key (to_int trig) (to_int echo) k = p :: rest →
  heap k !! p = Some d →
  measurement_mutex d = false →
  Obj p ∈ class_devices k →
  ∃ k',
    configure_store pf env buf len k = Ret len k' ∧
    devices_mutex k' = false ∧
    find_sensor (to_int trig) (to_int echo) k' = Ret None k' ∧
    heap k' !! p = None ∧
    (∀ q, q ≠ p → heap k' !! q = heap k !! q) ∧
    (∀ q, q ∈ hc_sr04_devices k' ↔ q ∈ hc_sr04_devices k ∧ q ≠ p) ∧
    (∀ a, a ∈ irq_actions k' ↔ a ∈ irq_actions k ∧ a ≠ (irq d, p)) ∧
    (∀ pin, pin ∈ gpios k' ↔
            pin ∈ gpios k ∧ pin ≠ gpio_echo d ∧ pin ≠ gpio_trig d) ∧
    (length (class_devices k') < length (class_devices k))%nat ∧
    driver_ok k'.
Proof.
  intros Hok Hdm Hrm Hscan Hs Hd Hm Hdev.
  destruct (configure_remove_ok pf env buf len k trig echo p rest d)
    as (k' & idx & Hrun & Hdm' & Hh & Hl & Hg & Ha & Hc & Hidx & _);
    try done.
  { apply Hok. }
  assert (Hok' : driver_ok k') by (by eapply driver_ok_remove).
  exists k'. split; [done|]. split; [done|].
  split.
  { rewrite (find_sensor_spec _ _ k') by apply Hok'.
    destruct Hok as ((_ & _ & Huniq) & _).
    specialize (Huniq (to_int trig) (to_int echo)). rewrite Hs in Huniq.
    destruct rest; [|cbn in Huniq; lia].
    replace (sensors_with_key (to_int trig) (to_int echo) k') with
      (@nil positive); [done|].
    symmetry. apply elem_of_nil_inv. intros q Hq.
    apply list_elem_of_In, List.filter_In in Hq as [Hq Hkey].
    rewrite Hl in Hq. apply list_elem_of_In, elem_of_filter_ne in Hq as [Hq Hne].
    assert (Hin : In q (sensors_with_key (to_int trig) (to_int echo) k)).
    { apply List.filter_In. split; [by apply list_elem_of_In|].
      rewrite <- Hkey. symmetry. apply has_key_other.
      rewrite Hh. by apply lookup_delete_ne. }
    rewrite Hs in Hin. destruct Hin as [?|[]]. by subst. }
  split. { rewrite Hh. apply lookup_delete_eq. }
  split. { intros q Hq. rewrite Hh. by apply lookup_delete_ne. }
  split. { intros q. rewrite Hl. apply elem_of_filter_ne. }
  split. { intros a. rewrite Ha. apply elem_of_filter_ne. }
  split.
  { intros pin. rewrite Hg, !elem_of_difference, !elem_of_singleton.
    tauto. }
  split; [|done].
  rewrite Hc, length_delete by (by eexists).
  apply lookup_lt_Some in Hidx. lia.
Qed.

Lemma remove_unregisters_sensor_witness :
  ∃ k',
    configure_store rpi aenv_ok "-23 24" 7 k_idle = Ret 7 k' ∧
    devices_mutex k' = false ∧
    find_sensor (to_int 23) (to_int 24) k' = Ret None k' ∧
    heap k' !! 1%positive = None ∧
    (∀ q, q ≠ 1%positive → heap k' !! q = heap k_idle !! q) ∧
    (∀ q, q ∈ hc_sr04_devices k' ↔
          q ∈ hc_sr04_devices k_idle ∧ q ≠ 1%positive) ∧
    (∀ a, a ∈ irq_actions k' ↔
          a ∈ irq_actions k_idle ∧ a ≠ (irq d_idle, 1%positive)) ∧
    (∀ pin, pin ∈ gpios k' ↔
            pin ∈ gpios k_idle ∧ pin ≠ gpio_echo d_idle ∧
            pin ≠ gpio_trig d_idle) ∧
    (length (class_devices k') < length (class_devices k_idle))%nat ∧
    driver_ok k'.
Proof.
  apply (remove_unregisters_sensor rpi aenv_ok "-23 24" 7 k_idle 23 24
           1%positive [] d_idle); try reflexivity.
  - apply k_idle_ok.
  - left.
Defined.

Lemma free_both_rev (g : gset Z) (trig echo : Z) :
  trig ∉ g → echo ∉ g →
  ({[echo]} ∪ ({[trig]} ∪ g)) ∖ {[echo]} ∖ {[trig]} = g.
Proof.
  intros Ht He. apply set_eq. intros x.
  rewrite !elem_of_difference, !elem_of_union, !elem_of_singleton.
  split.
  - intros [[[?|[?|?]] ?] ?]; done.
  - intros Hx. split; [split|].
    + by right; right.
    + by intros ->.
    + by intros ->.
Qed.

Lemma filter_ne_snoc {A} `{EqDecision A} (y : A) (l : list A) :
  y ∉ l → List.filter (λ q, negb (bool_decide (q = y))) (l ++ [y]) = l.
Proof.
  intros Hy. rewrite List.filter_app, (filter_ne_id y l Hy). cbn.
  rewrite bool_decide_eq_true_2 by done. cbn. apply app_nil_r.
Qed.

Lemma configure_remove_nodev pf env buf len k trig echo p rest :
  registry_ok k →
  devices_mutex k = false →
  first_char buf = "-"%char →
  sscanf_dd pf (skip_sign buf) = Some (trig, echo) →
  sensors_with_key (to_int trig) (to_int echo) k = p :: rest →
  Obj p ∉ class_devices k →
  ∃ k',
    configure_store pf env buf len k = Ret (neg ENODEV) k' ∧
    untouched k k' ∧ devices_mutex k' = false.
Proof.
  intros Hok Hdm Hrm Hscan Hs Hdev. unfold configure_store.
  rewrite (bool_decide_eq_true_2 _ Hrm). cbn [negb]. rewrite Hscan.
  rewrite (bind_Ret _ _ _ _ _ (lock_devices_eq k Hdm)).
  set (k1 := with_trace _ _).
  assert (Hok1 : registry_ok k1) by (by apply (registry_ok_ext k)).
  rewrite (bind_Ret _ _ _ _ _ (find_sensor_spec _ _ k1 Hok1)).
  rewrite (sensors_with_key_ext _ _ k k1) by done.
  rewrite Hs. cbn [head].
  assert (Hfind1 : class_find_device (Obj p) k1 = Ret None k1).
  { rewrite class_find_device_eq.
    change (class_devices k1) with (class_devices k).
    by rewrite (class_find_device_none p _ Hdev). }
  rewrite (bind_Ret _ _ _ _ _ (remove_sensor_nodev p k1 Hfind1)).
  rewrite (bind_Ret _ _ _ _ _ (unlock_devices_eq k1 eq_refl)).
  change (neg ENODEV <? 0) with true. cbn match.
  eexists. split; [reflexivity|]. done.
Qed.

(** X6.  Adding a sensor and then removing it gives back the state: when
    every class device belongs to a live sensor, after a successful add
    (class device created) followed by the removal of the same pins, both
    requests have returned their [len] and the heap, the list, the
    requested lines, the registered handlers and the class devices are
    what they were before the add. *)
Theorem add_then_remove_restores
    pf env env' buf len buf' len' k trig echo tmo garbage :
  driver_ok k →
  devices_mutex k = false →
  (∀ q, Obj q ∈ class_devices k → is_Some (heap k !! q)) →
  first_char buf ≠ "-"%char →
  sscanf_ddd pf (skip_sign buf) = Some (trig, echo, tmo) →
  sensors_with_key (to_int trig) (to_int echo) k = [] →
  kmalloc_mem env = Some garbage →
  gpio_is_valid pf (to_int trig) = true →
  gpio_is_valid pf (to_int echo) = true →
  to_int trig ≠ to_int echo →
  to_int trig ∉ gpios k → to_int echo ∉ gpios k →
  gpio_fault env (to_int trig) = None →
  gpio_fault env (to_int echo) = None →
  0 <= gpio_to_irq pf (to_int echo) →
  irq_outcome env = IrqHard →
  device_create_ok env = true →
  first_char buf' = "-"%char →
  sscanf_dd pf (skip_sign buf') = Some (trig, echo) →
  ∃ k1 k2,
    configure_store pf env buf len k = Ret len k1 ∧
    configure_store pf env' buf' len' k1 = Ret len' k2 ∧
    untouched k k2 ∧ devices_mutex k2 = false.
Proof.
  intros Hok Hdm Hcls Hadd Hscan Habsent Hmem Hvt Hve Hne Hgt Hge Hft Hfe
    Hirq Hout Hcreate Hrm Hscan'.
  destruct (configure_add_ok pf env buf len k trig echo tmo garbage)
    as (k1 & Hrun1 & Hdm1 & Hh1 & Hl1 & Hg1 & Ha1 & Hc1); try done.
  { apply Hok. }
  rewrite Hcreate in Hc1.
  set (p := fresh (dom (heap k))) in *.
  set (d := created _ _ _ _ _) in *.
  assert (Hfresh : heap k !! p = None) by apply fresh_not_in_heap.
  assert (Hok1 : driver_ok k1) by (by eapply driver_ok_add).
  destruct (configure_remove_ok pf env' buf' len' k1 trig echo p [] d)
    as (k2 & idx & Hrun2 & Hdm2 & Hh2 & Hl2 & Hg2 & Ha2 & Hc2 & Hidx & Hfirst);
    try done.
  { apply Hok1. }
  { eapply sensors_with_key_added; [apply Hok|done..]. }
  { rewrite Hh1. apply lookup_insert_eq. }
  { rewrite Hc1. apply elem_of_app. right. left. }
  exists k1, k2. split; [done|]. split; [done|]. split; [|done].
  assert (Hnl : p ∉ hc_sr04_devices k).
  { intros Hin. destruct Hok as ((_ & Hlive & _) & _).
    destruct (Hlive p Hin) as [? Hsome]. by rewrite Hfresh in Hsome. }
  assert (Hna : (irq d, p) ∉ irq_actions k).
  { intros Hin. destruct Hok as (_ & Hsound).
    destruct (Hsound _ _ Hin) as (? & Hsome & _). by rewrite Hfresh in Hsome. }
  assert (Hnc : Obj p ∉ class_devices k).
  { intros Hin. destruct (Hcls p Hin) as [? Hsome].
    by rewrite Hfresh in Hsome. }
  split. { rewrite Hh2, Hh1. by apply delete_insert_id. }
  split. { rewrite Hl2, Hl1. by apply filter_ne_snoc. }
  split. { rewrite Hg2, Hg1. by apply free_both_rev. }
  split. { rewrite Ha2, Ha1. by apply filter_ne_snoc. }
  rewrite Hc2, Hc1.
  assert (idx = length (class_devices k)) as ->.
  { rewrite Hc1 in Hidx.
    destruct (decide (idx < length (class_devices k))%nat) as [Hlt|Hge'].
    - rewrite lookup_app_l in Hidx by done.
      exfalso. apply Hnc. by eapply list_elem_of_lookup_2.
    - apply lookup_lt_Some in Hidx. rewrite length_app in Hidx.
      cbn in Hidx. lia. }
  rewrite delete_middle. apply app_nil_r.
Qed.

Lemma add_then_remove_restores_witness :
  ∃ k1 k2,
    configure_store rpi aenv_ok "23 24 1000" 11 boot = Ret 11 k1 ∧
    configure_store rpi aenv_nested "-23 24" 7 k1 = Ret 7 k2 ∧
    untouched boot k2 ∧ devices_mutex k2 = false.
Proof.
  apply (add_then_remove_restores rpi aenv_ok aenv_nested "23 24 1000" 11
           "-23 24" 7 boot 23 24 1000 garbage); try reflexivity; try done.
  - apply boot_ok.
  - intros q Hq. by apply elem_of_nil in Hq.
Defined.

(** X7.  [add_sensor] does not look at what
    [device_create_with_groups] returns.  When that call fails, the add
    still returns [len] and the sensor is registered, with its lines and
    its handler; as it has no class device, a request to remove it
    returns [-ENODEV] and leaves it registered, lines and handler
    included. *)
Theorem sensor_without_class_device
    pf env env' buf len buf' len' k trig echo tmo garbage :
  driver_ok k →
  devices_mutex k = false →
  (∀ q, Obj q ∈ class_devices k → is_Some (heap k !! q)) →
  first_char buf ≠ "-"%char →
  sscanf_ddd pf (skip_sign buf) = Some (trig, echo, tmo) →
  sensors_with_key (to_int trig) (to_int echo) k = [] →
  kmalloc_mem env = Some garbage →
  gpio_is_valid pf (to_int trig) = true →
  gpio_is_valid pf (to_int echo) = true →
  to_int trig ≠ to_int echo →
  to_int trig ∉ gpios k → to_int echo ∉ gpios k →
  gpio_fault env (to_int trig) = None →
  gpio_fault env (to_int echo) = None →
  0 <= gpio_to_irq pf (to_int echo) →
  irq_outcome env = IrqHard →
  device_create_ok env = false →
  first_char buf' = "-"%char →
  sscanf_dd pf (skip_sign buf') = Some (trig, echo) →
  ∃ k1 k2 p,
    configure_store pf env buf len k = Ret len k1 ∧
    configure_store pf env' buf' len' k1 = Ret (neg ENODEV) k2 ∧
    devices_mutex k2 = false ∧
    sensors_with_key (to_int trig) (to_int echo) k2 = [p] ∧
    is_Some (heap k2 !! p) ∧
    to_int trig ∈ gpios k2 ∧ to_int echo ∈ gpios k2 ∧
    (gpio_to_irq pf (to_int echo), p) ∈ irq_actions k2.
Proof.
  intros Hok Hdm Hcls Hadd Hscan Habsent Hmem Hvt Hve Hne Hgt Hge Hft Hfe
    Hirq Hout Hcreate Hrm Hscan'.
  destruct (configure_add_ok pf env buf len k trig echo tmo garbage)
    as (k1 & Hrun1 & Hdm1 & Hh1 & Hl1 & Hg1 & Ha1 & Hc1); try done.
  { apply Hok. }
  rewrite Hcreate in Hc1.
  set (p := fresh (dom (heap k))) in *.
  assert (Hfresh : heap k !! p = None) by apply fresh_not_in_heap.
  assert (Hok1 : driver_ok k1) by (by eapply driver_ok_add).
  assert (Hs1 : sensors_with_key (to_int trig) (to_int echo) k1 = [p]).
  { eapply sensors_with_key_added; [apply Hok|done..]. }
  destruct (configure_remove_nodev pf env' buf' len' k1 trig echo p [])
    as (k2 & Hrun2 & (Hh2 & Hl2 & Hg2 & Ha2 & Hc2) & Hdm2); try done.
  { apply Hok1. }
  { rewrite Hc1. intros Hin. destruct (Hcls p Hin) as [? Hsome].
    by rewrite Hfresh in Hsome. }
  exists k1, k2, p. split; [done|]. split; [done|]. split; [done|].
  split. { by rewrite (sensors_with_key_ext _ _ k1 k2). }
  split. { rewrite Hh2, Hh1, lookup_insert_eq. by eexists. }
  rewrite Hg2, Hg1, Ha2, Ha1.
  rewrite !elem_of_union, !elem_of_singleton, elem_of_app.
  split; [by right; left|]. split; [by left|]. right. left.
Qed.

Lemma sensor_without_class_device_witness :
  ∃ k1 k2 p,
    configure_store rpi aenv_no_device "23 24 1000" 11 boot = Ret 11 k1 ∧
    configure_store rpi aenv_ok "-23 24" 7 k1 = Ret (neg ENODEV) k2 ∧
    devices_mutex k2 = false ∧
    sensors_with_key (to_int 23) (to_int 24) k2 = [p] ∧
    is_Some (heap k2 !! p) ∧
    to_int 23 ∈ gpios k2 ∧ to_int 24 ∈ gpios k2 ∧
    (gpio_to_irq rpi (to_int 24), p) ∈ irq_actions k2.
Proof.
  apply (sensor_without_class_device rpi aenv_no_device aenv_ok
           "23 24 1000" 11 "-23 24" 7 boot 23 24 1000 garbage);
    try reflexivity; try done.
  - apply boot_ok.
  - intros q Hq. by apply elem_of_nil in Hq.
Defined.

(** ** One pin for both lines *)

Lemma gpio_failure_errno pf env trig echo g r :
  gpio_failure pf env trig echo g r → ∃ e, r = neg e.
Proof.
  assert (Hcode : ∀ g' pin, gpio_request_code (gpio_fault env) g' pin < 0 →
            ∃ e, gpio_request_code (gpio_fault env) g' pin = neg e).
  { intros g' pin. unfold gpio_request_code. case_bool_decide.
    - intros _. by eexists.
    - destruct (gpio_fault env pin); [intros _; by eexists|lia]. }
  intros [_|_ _ Hlt|_ _ _ Hlt]; [by eexists|by apply Hcode..].
Qed.

Lemma IS_ERR_neg e : IS_ERR (ERR_PTR (neg e)) = true.
Proof. by destruct e. Qed.

Lemma PTR_ERR_neg e : PTR_ERR (ERR_PTR (neg e)) = neg e.
Proof. by destruct e. Qed.

(** With one pin for both lines [create_hc_sr04] fails before it asks for
    the interrupt, and gives back what it took. *)
Lemma add_sensor_same_pin pf env pin tmo k :
  ∃ r k',
    add_sensor pf env pin pin tmo k = Ret r k' ∧
    r < 0 ∧
    ((kmalloc_mem env = None ∧ r = neg ENOMEM) ∨
     (is_Some (kmalloc_mem env) ∧ gpio_failure pf env pin pin (gpios k) r)) ∧
    devices_mutex k' = devices_mutex k ∧
    untouched k k'.
Proof.
  destruct k as [h l dm g a c t]. unfold add_sensor, create_hc_sr04.
  destruct (kmalloc_mem env) as [garbage|] eqn:Hmem.
  2: { munfold. eexists _, _. split; [reflexivity|].
       split; [done|]. split; [by left|]. done. }
  pose proof (fresh_not_in_heap h) as Hfresh.
  set (new := fresh (dom h)) in *.
  munfold. fold new. hstep. hstep. hstep.
  cbn [apply_write gpio_trig gpio_echo].
  match goal with
  | |- context [setup_hc_sr04_gpio pf env pin pin ?k1] =>
      destruct (setup_hc_sr04_gpio_spec pf env pin pin k1)
        as (r & g' & tg & Hg & Hcase); rewrite Hg; clear Hg
  end.
  cbn [gpios trace] in Hcase. munfold.
  destruct Hcase as [(_ & _ & _ & _ & Hne & _)|(Hneg & -> & Hfail)]; [done|].
  destruct (Z.eqb_spec r 0) as [?|_]; [lia|]. hstep.
  rewrite delete_insert_eq, (delete_id _ _ Hfresh).
  destruct (gpio_failure_errno _ _ _ _ _ _ Hfail) as [e ->].
  rewrite IS_ERR_neg, PTR_ERR_neg.
  eexists _, _. split; [reflexivity|]. split; [done|].
  split; [right; split; [by eexists|done]|]. done.
Qed.

(** X8.  A request to add a sensor whose trigger pin is also its echo pin
    never registers anything: it returns a negative code and leaves heap,
    list, lines, handlers and class devices as they were.  When the pin is
    valid and free and the kernel grants memory and the line, the code is
    [-EBUSY], from the second [gpio_request] of the same line, and the
    line is released again. *)
Theorem same_pin_rejected pf env buf len k trig echo tmo :
  registry_ok k →
  devices_mutex k = false →
  first_char buf ≠ "-"%char →
  sscanf_ddd pf (skip_sign buf) = Some (trig, echo, tmo) →
  to_int trig = to_int echo →
  ∃ r k',
    configure_store pf env buf len k = Ret r k' ∧
    r < 0 ∧ untouched k k' ∧ devices_mutex k' = false ∧
    (sensors_with_key (to_int trig) (to_int echo) k = [] →
     is_Some (kmalloc_mem env) →
     gpio_is_valid pf (to_int trig) = true →
     to_int trig ∉ gpios k →
     gpio_fault env (to_int trig) = None →
     r = neg EBUSY).
Proof.
  intros Hok Hdm Hadd Hscan Hsame. unfold configure_store.
  rewrite (bool_decide_eq_false_2 _ Hadd). cbn [negb]. rewrite Hscan.
  rewrite (bind_Ret _ _ _ _ _ (lock_devices_eq k Hdm)).
  set (k1 := with_trace _ _).
  assert (Hok1 : registry_ok k1) by (by apply (registry_ok_ext k)).
  rewrite (bind_Ret _ _ _ _ _ (find_sensor_spec _ _ k1 Hok1)).
  rewrite (sensors_with_key_ext _ _ k k1) by done.
  destruct (sensors_with_key (to_int trig) (to_int echo) k)
    as [|p rest] eqn:Hs; cbn [head].
  2: { rewrite (bind_Ret _ _ _ _ _ (unlock_devices_eq k1 eq_refl)).
       eexists _, _. split; [reflexivity|]. split; [apply neg_lt_0|].
       done. }
  rewrite <- Hsame.
  destruct (add_sensor_same_pin pf env (to_int trig)
              (to_ulong (abi pf) (to_int tmo)) k1)
    as (r & k2 & Hrun & Hneg & Hwhy & Hdm2 & Hsame2).
  rewrite (bind_Ret _ _ _ _ _ Hrun).
  rewrite (bind_Ret _ _ _ _ _ (unlock_devices_eq k2 Hdm2)).
  apply Z.ltb_lt in Hneg as Hneg'. rewrite Hneg'.
  eexists _, _. split; [reflexivity|]. split; [done|].
  split; [done|]. split; [done|].
  intros _ [g0 Hmem] Hvalid Hfree Hnofault.
  destruct Hwhy as [[Hnone _]|[_ Hfail]]; [by rewrite Hmem in Hnone|].
  change (gpios k1) with (gpios k) in Hfail.
  destruct Hfail as [[H|H]|_ _ Hlt|_ _ _ _].
  - by rewrite Hvalid in H.
  - by rewrite Hvalid in H.
  - rewrite gpio_request_code_free in Hlt by done. lia.
  - unfold gpio_request_code. rewrite bool_decide_eq_true_2; [done|].
    apply elem_of_union. left. by apply elem_of_singleton.
Qed.

Lemma same_pin_rejected_witness :
  ∃ r k',
    configure_store rpi_one_pin aenv_ok "23 23 1000" 11 boot = Ret r k' ∧
    r < 0 ∧ untouched boot k' ∧ devices_mutex k' = false ∧
    (sensors_with_key (to_int 23) (to_int 23) boot = [] →
     is_Some (kmalloc_mem aenv_ok) →
     gpio_is_valid rpi_one_pin (to_int 23) = true →
     to_int 23 ∉ gpios boot →
     gpio_fault aenv_ok (to_int 23) = None →
     r = neg EBUSY).
Proof.
  apply (same_pin_rejected rpi_one_pin aenv_ok "23 23 1000" 11 boot 23 23
           1000); try reflexivity; try done.
  apply boot_ok.
Defined.

(** ** Removal while a measurement runs *)

(** X9.  A request to remove a sensor whose measurement mutex is held (a
    measurement is running) goes to sleep on that mutex with the registry
    lock still taken and nothing changed.  Until it goes on, reading
    [measure] of any sensor sleeps on the registry lock, and so does any
    request written to [configure] that passes the parser. *)
Theorem remove_waits_holding_registry pf env buf len k trig echo p rest d :
  registry_ok k →
  devices_mutex k = false →
  first_char buf = "-"%char →
  sscanf_dd pf (skip_sign buf) = Some (trig, echo) →
  sensors_with_key (to_int trig) (to_int echo) k = p :: rest →
  heap k !! p = Some d →
  measurement_mutex d = true →
  Obj p ∈ class_devices k →
  ∃ k',
    configure_store pf env buf len k = Blocked (MeasurementMutex p) k' ∧
    devices_mutex k' = true ∧ untouched k k' ∧
    (∀ menv sensor,
       sysfs_do_measurement pf menv sensor k' = Blocked DevicesMutex k') ∧
    (∀ env' buf' len',
       configure_store pf env' buf' len' k' = Blocked DevicesMutex k' ∨
       configure_store pf env' buf' len' k' = Ret (neg EINVAL) k').
Proof.
  intros Hok Hdm Hrm Hscan Hs Hd Hm Hdev. unfold configure_store at 1.
  rewrite (bool_decide_eq_true_2 _ Hrm). cbn [negb]. rewrite Hscan.
  rewrite (bind_Ret _ _ _ _ _ (lock_devices_eq k Hdm)).
  set (k1 := with_trace _ _).
  assert (Hok1 : registry_ok k1) by (by apply (registry_ok_ext k)).
  rewrite (bind_Ret _ _ _ _ _ (find_sensor_spec _ _ k1 Hok1)).
  rewrite (sensors_with_key_ext _ _ k k1) by done.
  rewrite Hs. cbn [head].
  destruct (class_find_device_first p (class_devices k) Hdev)
    as (idx & Hfind & _).
  assert (Hfind1 : class_find_device (Obj p) k1 = Ret (Some idx) k1).
  { rewrite class_find_device_eq.
    change (class_devices k1) with (class_devices k). by rewrite Hfind. }
  exists k1. split.
  { apply bind_Ret_blocked. by eapply remove_sensor_blocked. }
  split; [done|]. split; [done|].
  pose proof (lock_devices_held k1 eq_refl) as Hheld.
  split.
  - intros menv sensor. unfold sysfs_do_measurement.
    by apply bind_Ret_blocked.
  - intros env' buf' len'. unfold configure_store.
    destruct (negb _).
    + destruct (sscanf_ddd pf (skip_sign buf')) as [[[? ?] ?]|];
        [left|by right]. by apply bind_Ret_blocked.
    + destruct (sscanf_dd pf (skip_sign buf')) as [[? ?]|];
        [left|by right]. by apply bind_Ret_blocked.
Qed.

Lemma k_measuring_registry_ok : registry_ok k_measuring.
Proof.
  split; [apply NoDup_singleton|]. split.
  - intros q Hq. apply list_elem_of_singleton in Hq as ->. by eexists.
  - intros trig echo. unfold sensors_with_key. simpl.
    destruct (has_key trig echo k_measuring 1%positive); simpl; lia.
Qed.

Lemma remove_waits_holding_registry_witness :
  ∃ k',
    configure_store rpi aenv_ok "-23 24" 7 k_measuring
      = Blocked (MeasurementMutex 1) k' ∧
    devices_mutex k' = true ∧
    untouched k_measuring k' ∧
    (∀ menv sensor,
       sysfs_do_measurement rpi menv sensor k' = Blocked DevicesMutex k') ∧
    (∀ env' buf' len',
       configure_store rpi env' buf' len' k' = Blocked DevicesMutex k' ∨
       configure_store rpi env' buf' len' k' = Ret (neg EINVAL) k').
Proof.
  apply (remove_waits_holding_registry rpi aenv_ok "-23 24" 7
           k_measuring 23 24 1%positive [] (set_mutex true d_idle));
    try reflexivity.
  - apply k_measuring_registry_ok.
  - left.
Defined.

(** * Further properties of a measurement *)

(** X10.  Reading [measure] of a live sensor, with the registry lock free
    and every registered handler bound to a live sensor, always returns
    and leaves the registry lock free, the list, the lines, the handlers,
    the class devices and every sensor's configuration unchanged, and the
    sensor's mutex as it was.  If the mutex was held the read fails with
    [-EBUSY] and writes no text.  Otherwise it fails with [-ETIMEDOUT] or
    [-ERESTARTSYS] without text, or the echo flag is set and it returns
    the length of the text written: the elapsed value printed as a signed
    decimal and a newline, which for timestamps the clock can produce is
    the signed difference in microseconds, negative when the echo
    timestamp is the earlier one. *)
Theorem measure_read_outcomes pf env p k d :
  heap k !! p = Some d →
  devices_mutex k = false →
  irq_live k →
  ∃ status text k' d',
    sysfs_do_measurement pf env (Obj p) k = Ret (status, text) k' ∧
    devices_mutex k' = false ∧ frame_eq k k' ∧
    heap k' !! p = Some d' ∧ same_config d d' ∧
    measurement_mutex d' = measurement_mutex d ∧
    ((measurement_mutex d = true ∧
      status = neg EBUSY ∧ text = None ∧ heap k' = heap k) ∨
     (measurement_mutex d = false ∧
      ((status = neg ETIMEDOUT ∧ text = None) ∨
       (status = neg ERESTARTSYS ∧ text = None) ∨
       (echo_received d' ≠ 0 ∧
        text = Some (sprintf_lld (usecs_between (abi pf) d')) ∧
        status =
          Z.of_nat (String.length
                      (sprintf_lld (usecs_between (abi pf) d'))) ∧
        (valid_ts (time_triggered d') → valid_ts (time_echoed d') →
         sprintf_lld (usecs_between (abi pf) d') =
           pretty (elapsed_formula (time_triggered d') (time_echoed d'))
           +:+ String "010"%char ""))))).
Proof.
  intros Hd Hdm Hlive. unfold sysfs_do_measurement.
  rewrite (bind_Ret _ _ _ _ _ (lock_devices_eq k Hdm)).
  set (k1 := with_trace _ _).
  assert (Hd1 : heap k1 !! p = Some d) by done.
  assert (Hlive1 : irq_live k1) by exact Hlive.
  assert (Hframe1 : frame_eq k k1) by apply (frame_eq_refl k).
  destruct (measurement_mutex d) eqn:Hm.
  - rewrite (bind_Ret _ _ _ _ _ (do_measurement_busy pf env p k1 d Hd1 Hm
                                   eq_refl)).
    change (neg EBUSY <? 0) with true. cbn match.
    eexists _, _, _, d. split; [reflexivity|]. split; [done|].
    split; [done|]. split; [done|]. split; [apply same_config_refl|].
    split; [done|]. left. done.
  - destruct (do_measurement_spec pf env p k1 d (λ _, True) Hd1 Hm eq_refl
                Hlive1 I (λ _ _ _, I) (λ _ _ _ _, I) (λ _ _ _ _ _, I))
      as (r & u & k2 & d2 & w & Hrun & Hframe & Hdm2 & _ & Hd2 & Hcfg & Hm2
          & _ & _ & Hout).
    rewrite (bind_Ret _ _ _ _ _ Hrun).
    assert (Hframe2 : frame_eq k k2)
      by exact (frame_eq_trans k k1 k2 Hframe1 Hframe).
    destruct Hout as [(_ & -> & ->)|[(_ & -> & ->)|(_ & -> & -> & Hecho)]].
    + change (neg ETIMEDOUT <? 0) with true. cbn match.
      eexists _, _, _, d2. split; [reflexivity|].
      repeat (split; [done|]). right. split; [done|]. by left.
    + change (neg ERESTARTSYS <? 0) with true. cbn match.
      eexists _, _, _, d2. split; [reflexivity|].
      repeat (split; [done|]). right. split; [done|]. right. by left.
    + change (0 <? 0) with false. cbn match. cbn [default].
      eexists _, _, _, d2. split; [reflexivity|].
      repeat (split; [done|]). right. split; [done|]. right. right.
      repeat (split; [done|]).
      intros Ht He. unfold sprintf_lld.
      by rewrite (usecs_between_signed _ _ Ht He).
Qed.

Lemma measure_read_outcomes_witness :
  ∃ status text k' d',
    sysfs_do_measurement rpi menv_echo (Obj 1) k_idle
      = Ret (status, text) k' ∧
    devices_mutex k' = false ∧ frame_eq k_idle k' ∧
    heap k' !! 1%positive = Some d' ∧ same_config d_idle d' ∧
    measurement_mutex d' = measurement_mutex d_idle ∧
    ((measurement_mutex d_idle = true ∧
      status = neg EBUSY ∧ text = None ∧ heap k' = heap k_idle) ∨
     (measurement_mutex d_idle = false ∧
      ((status = neg ETIMEDOUT ∧ text = None) ∨
       (status = neg ERESTARTSYS ∧ text = None) ∨
       (echo_received d' ≠ 0 ∧
        text = Some (sprintf_lld (usecs_between (abi rpi) d')) ∧
        status =
          Z.of_nat (String.length
                      (sprintf_lld (usecs_between (abi rpi) d'))) ∧
        (valid_ts (time_triggered d') → valid_ts (time_echoed d') →
         sprintf_lld (usecs_between (abi rpi) d') =
           pretty (elapsed_formula (time_triggered d') (time_echoed d'))
           +:+ String "010"%char ""))))).
Proof.
  apply (measure_read_outcomes rpi menv_echo 1%positive k_idle d_idle);
    [reflexivity | reflexivity | apply k_idle_live].
Defined.

(** ** A measurement, end to end *)

Lemma wait_loop_done p evs remaining k d :
  heap k !! p = Some d → echo_received d ≠ 0 →
  wait_loop p evs remaining k = Ret (Z.max 1 remaining) k.
Proof.
  intros Hd He. rewrite wait_loop_eq.
  rewrite (bind_Ret _ _ _ _ _ (deref_eq p k d Hd)).
  by destruct (Z.eqb_spec (echo_received d) 0).
Qed.

Lemma wait_loop_ticks p n evs remaining k d :
  heap k !! p = Some d → echo_received d = 0 →
  Z.of_nat n < remaining →
  wait_loop p (replicate n WTick ++ evs) remaining k =
  wait_loop p evs (remaining - Z.of_nat n) k.
Proof.
  intros Hd He. revert remaining.
  induction n as [|n IH]; intros remaining Hlt.
  { cbn [replicate app]. by rewrite Z.sub_0_r. }
  cbn [replicate app].
  rewrite (wait_loop_eq p (WTick :: replicate n WTick ++ evs) remaining).
  rewrite (bind_Ret _ _ _ _ _ (deref_eq p k d Hd)). rewrite He.
  cbn [Z.eqb negb].
  destruct (Z.leb_spec remaining 0) as [?|_]; [lia|].
  rewrite IH by lia. f_equal. lia.
Qed.

Lemma wait_loop_irq p e evs remaining k d :
  heap k !! p = Some d → echo_received d = 0 →
  0 < remaining →
  ev_data e = p →
  (ev_irq e, p) ∈ irq_actions k →
  wait_loop p (WIrq e :: evs) remaining k =
  wait_loop p evs remaining
    (with_trace (trace k ++ [EvIrq (ev_irq e) p (irq_calls e d)])
       (with_heap (<[p := irq_dev e d]> (heap k)) k)).
Proof.
  intros Hd He Hlt Hdata Hreg.
  rewrite (wait_loop_eq p (WIrq e :: evs) remaining).
  rewrite (bind_Ret _ _ _ _ _ (deref_eq p k d Hd)). rewrite He.
  cbn [Z.eqb negb].
  destruct (Z.leb_spec remaining 0) as [?|_]; [lia|].
  rewrite (bind_Ret _ _ _ _ _ (deliver_registered e k d
             ltac:(unfold registered; rewrite Hdata;
                   by apply bool_decide_eq_true_2)
             ltac:(by rewrite Hdata))).
  by rewrite Hdata.
Qed.

Lemma irq_rise e d :
  device_triggered d ≠ 0 → echo_received d = 0 → ev_level e = 1 →
  irq_dev e d = apply_write (W_time_triggered (ev_now e)) d ∧
  irq_calls e d = [EvStore (ev_data e) (W_time_triggered (ev_now e))].
Proof.
  intros Ht He Hl. unfold irq_dev, irq_calls, echo_received_irq.
  rewrite He, Hl. by destruct (Z.eqb_spec (device_triggered d) 0).
Qed.

Lemma irq_fall e d :
  device_triggered d ≠ 0 → echo_received d = 0 → ev_level e ≠ 1 →
  irq_dev e d =
    apply_write (W_echo_received 1)
      (apply_write (W_time_echoed (ev_now e)) d) ∧
  irq_calls e d =
    [ EvStore (ev_data e) (W_time_echoed (ev_now e));
      EvStore (ev_data e) (W_echo_received 1);
      EvWakeUp (ev_data e) ].
Proof.
  intros Ht He Hl. unfold irq_dev, irq_calls, echo_received_irq.
  rewrite He. destruct (Z.eqb_spec (device_triggered d) 0); [done|].
  by destruct (Z.eqb_spec (ev_level e) 1).
Qed.

(** When no interrupt is served before the wait and the wait ends with
    the echo in, leaving the sensor with contents [d'], the measurement
    returns the microseconds between the timestamps of [d']. *)
Lemma do_measurement_quiet pf env p k d w kw d' :
  (∀ i, irqs_at env i = []) →
  heap k !! p = Some d →
  measurement_mutex d = false →
  devices_mutex k = true →
  wait_loop p (wait_evs env)
    (Z.min (timeout d) (MAX_SCHEDULE_TIMEOUT (abi pf))) (armed_state p d k)
    = Ret w kw →
  heap kw !! p = Some d' →
  measurement_mutex d' = true →
  0 < w →
  do_measurement pf env p k =
    Ret (0, Some (usecs_between (abi pf) d'))
      (with_trace
         (trace kw ++ [ EvWait p (timeout d) w;
                        EvMutexUnlock (MeasurementMutex p) ])
         (with_heap (<[p := set_mutex false d']> (heap kw)) kw)).
Proof.
  intros Hq Hd Hm Hdm Hwait Hd' Hm' Hw. destruct k as [h l dm g a c t].
  cbn [heap devices_mutex] in Hd, Hdm. subst dm.
  unfold do_measurement. rewrite !Hq. cbn [deliver_all].
  munfold. rewrite Hd, Hm. munfold. rewrite Hd. munfold.
  hstep. hstep. hstep.
  unfold wait_event_interruptible_timeout. munfold.
  cbn [apply_write set_mutex timeout gpio_trig].
  unfold armed_state, armed in Hwait. revert Hwait. munfold.
  cbn [apply_write set_mutex timeout gpio_trig].
  rewrite <- !app_assoc. cbn [app]. intros ->.
  destruct kw as [hw lw dmw gw aw cw tw]. cbn [heap] in Hd'.
  destruct (Z.eqb_spec w 0) as [?|_]; [lia|].
  destruct (Z.ltb_spec w 0) as [?|_]; [lia|].
  munfold. rewrite Hd'. munfold. rewrite Hd', Hm'. munfold. rewrite Hd'.
  rewrite <- !app_assoc. reflexivity.
Qed.

(** X11.  A whole measurement: the sensor is idle and its handler is
    registered, no interrupt is served before the wait, and during the
    wait the echo line rises at [t1] and falls at [t2] before the
    sensor's timeout has passed.  Reading [measure] then yields the
    microseconds from [t1] to [t2] in decimal and a newline, and returns
    the length of this text; the sensor keeps [t1] and [t2] as its
    timestamps and both locks are free. *)
Theorem echo_is_measured pf env p k d t1 t2 n1 n2 rest :
  heap k !! p = Some d →
  measurement_mutex d = false →
  devices_mutex k = false →
  (irq d, p) ∈ irq_actions k →
  (∀ i, irqs_at env i = []) →
  wait_evs env =
    replicate n1 WTick ++ WIrq (echo_edge p d t1 1)
      :: replicate n2 WTick ++ WIrq (echo_edge p d t2 0) :: rest →
  Z.of_nat (n1 + n2) < Z.min (timeout d) (MAX_SCHEDULE_TIMEOUT (abi pf)) →
  valid_ts t1 → valid_ts t2 →
  let text := pretty (elapsed_formula t1 t2) +:+ String "010"%char "" in
  ∃ k' d',
    sysfs_do_measurement pf env (Obj p) k
      = Ret (Z.of_nat (String.length text), Some text) k' ∧
    heap k' !! p = Some d' ∧
    time_triggered d' = t1 ∧ time_echoed d' = t2 ∧
    measurement_mutex d' = false ∧ devices_mutex k' = false.
Proof.
  intros Hd Hm Hdm Hreg Hq Hevs Hlt Ht1 Ht2 text.
  unfold sysfs_do_measurement.
  rewrite (bind_Ret _ _ _ _ _ (lock_devices_eq k Hdm)).
  set (k1 := with_trace _ _).
  set (R := Z.min (timeout d) (MAX_SCHEDULE_TIMEOUT (abi pf))) in *.
  set (ka := armed_state p d k1).
  set (da := armed d).
  set (db := apply_write (W_time_triggered t1) da).
  set (dc := apply_write (W_echo_received 1)
               (apply_write (W_time_echoed t2) db)).
  assert (Hwait : ∃ kw,
    wait_loop p (wait_evs env) R ka
      = Ret (Z.max 1 (R - Z.of_nat n1 - Z.of_nat n2)) kw ∧
    heap kw !! p = Some dc ∧ devices_mutex kw = false).
  { rewrite Hevs.
    assert (Hda : heap ka !! p = Some da) by apply lookup_insert_eq.
    rewrite (wait_loop_ticks p n1 _ R ka da Hda eq_refl) by lia.
    rewrite (wait_loop_irq p (echo_edge p d t1 1) _ _ ka da Hda eq_refl)
      by (done || lia).
    destruct (irq_rise (echo_edge p d t1 1) da) as [-> ->]; [done..|].
    set (kb := with_trace _ _).
    assert (Hdb : heap kb !! p = Some db) by apply lookup_insert_eq.
    rewrite (wait_loop_ticks p n2 _ _ kb db Hdb eq_refl) by lia.
    rewrite (wait_loop_irq p (echo_edge p d t2 0) _ _ kb db Hdb eq_refl)
      by (done || lia).
    destruct (irq_fall (echo_edge p d t2 0) db) as [-> ->]; [done..|].
    set (kc := with_trace _ _).
    assert (Hdc : heap kc !! p = Some dc) by apply lookup_insert_eq.
    exists kc. split; [|done].
    by apply (wait_loop_done p _ _ kc dc). }
  destruct Hwait as (kw & Hwait & Hdc & Hdmw).
  rewrite (bind_Ret _ _ _ _ _
             (do_measurement_quiet pf env p k1 d _ kw dc Hq Hd Hm eq_refl
                Hwait Hdc eq_refl ltac:(lia))).
  change (0 <? 0) with false. cbn match. cbn [default from_option].
  unfold id.
  assert (Htext : sprintf_lld (usecs_between (abi pf) dc) = text).
  { unfold sprintf_lld. by rewrite (usecs_between_signed _ dc Ht1 Ht2). }
  rewrite Htext.
  eexists _, (set_mutex false dc). split; [reflexivity|].
  split; [apply lookup_insert_eq|]. done.
Qed.

Lemma echo_is_measured_witness :
  let text := pretty (elapsed_formula {| tv_sec := 200; tv_nsec := 1000 |}
                        {| tv_sec := 200; tv_nsec := 1001000 |})
              +:+ String "010"%char "" in
  ∃ k' d',
    sysfs_do_measurement rpi menv_echo (Obj 1) k_idle
      = Ret (Z.of_nat (String.length text), Some text) k' ∧
    heap k' !! 1%positive = Some d' ∧
    time_triggered d' = {| tv_sec := 200; tv_nsec := 1000 |} ∧
    time_echoed d' = {| tv_sec := 200; tv_nsec := 1001000 |} ∧
    measurement_mutex d' = false ∧ devices_mutex k' = false.
Proof.
  apply (echo_is_measured rpi menv_echo 1%positive k_idle d_idle
           {| tv_sec := 200; tv_nsec := 1000 |}
           {| tv_sec := 200; tv_nsec := 1001000 |} 0 1 []);
    try reflexivity.
  - left.
  - unfold valid_ts, KTIME_SEC_MAX, NSEC_PER_SEC. cbn. lia.
  - unfold valid_ts, KTIME_SEC_MAX, NSEC_PER_SEC. cbn. lia.
Defined.

Lemma usecs_between_set_mutex abi0 b d :
  usecs_between abi0 (set_mutex b d) = usecs_between abi0 d.
Proof.
  unfold usecs_between. cbn [set_mutex time_echoed time_triggered].
  reflexivity.
Qed.

(** X12.  [do_measurement] clears [echo_received] before it clears
    [device_triggered].  On a sensor whose [device_triggered] is still
    set, as any earlier measurement leaves it, a falling edge of the echo
    line served between these two stores is taken for the echo of the new
    measurement: the wait ends at once, whatever happens later, and the
    read succeeds with the microseconds from the old [time_triggered] to
    that edge, although the edge came before the trigger pulse. *)
Theorem early_edge_taken_for_echo pf env p k d now :
  heap k !! p = Some d →
  measurement_mutex d = false →
  devices_mutex k = false →
  device_triggered d ≠ 0 →
  (irq d, p) ∈ irq_actions k →
  irqs_at env 1 = [echo_edge p d now 0] →
  (∀ i, i ≠ 1%nat → irqs_at env i = []) →
  ∃ k' d' w,
    sysfs_do_measurement pf env (Obj p) k
      = Ret (Z.of_nat (String.length
                         (sprintf_lld (usecs_between (abi pf) d'))),
             Some (sprintf_lld (usecs_between (abi pf) d'))) k' ∧
    heap k' !! p = Some d' ∧
    time_echoed d' = now ∧ time_triggered d' = time_triggered d ∧
    0 < w ∧
    since k k' =
      [ EvMutexLock DevicesMutex;
        EvMutexTrylock (MeasurementMutex p) true;
        EvMutexUnlock DevicesMutex;
        EvMsleep 60;
        EvStore p (W_echo_received 0);
        EvIrq (irq d) p
          [ EvStore p (W_time_echoed now); EvStore p (W_echo_received 1);
            EvWakeUp p ];
        EvStore p (W_device_triggered 0);
        EvGpioSetValue (gpio_trig d) 1;
        EvUdelay 10;
        EvStore p (W_device_triggered 1);
        EvGpioSetValue (gpio_trig d) 0;
        EvWait p (timeout d) w;
        EvMutexUnlock (MeasurementMutex p) ].
Proof.
  intros Hd Hm Hdm Htrig Hreg Hone Hq.
  unfold sysfs_do_measurement.
  rewrite (bind_Ret _ _ _ _ _ (lock_devices_eq k Hdm)).
  destruct k as [h l dm g a c t].
  cbn [heap devices_mutex irq_actions] in Hd, Hdm, Hreg. subst dm.
  unfold do_measurement. rewrite Hone.
  rewrite !Hq by lia. cbn [deliver_all].
  munfold. rewrite Hd, Hm. munfold. rewrite Hd. munfold.
  hstep.
  match goal with
  | |- context [deliver ?e ?kx] =>
      rewrite (deliver_registered e kx
                 (apply_write (W_echo_received 0) (set_mutex true d)))
  end.
  2: { unfold registered. by apply bool_decide_eq_true_2. }
  2: { apply lookup_insert_eq. }
  destruct (irq_fall (echo_edge p d now 0)
              (apply_write (W_echo_received 0) (set_mutex true d)))
    as [-> ->]; [done..|].
  cbn [ev_irq ev_data ev_now echo_edge].
  munfold. hstep. hstep. hstep.
  set (d5 := apply_write (W_device_triggered 1)
               (apply_write (W_device_triggered 0)
                  (apply_write (W_echo_received 1)
                     (apply_write (W_time_echoed now)
                        (apply_write (W_echo_received 0)
                           (set_mutex true d)))))).
  change (gpio_trig (apply_write (W_device_triggered 0)
            (apply_write (W_echo_received 1)
               (apply_write (W_time_echoed now)
                  (apply_write (W_echo_received 0) (set_mutex true d))))))
    with (gpio_trig d).
  change (gpio_trig d5) with (gpio_trig d).
  unfold wait_event_interruptible_timeout. munfold.
  change (timeout d5) with (timeout d).
  match goal with
  | |- context [wait_loop p ?evs ?R ?kx] =>
      rewrite (wait_loop_done p evs R kx d5)
  end.
  2: { apply lookup_insert_eq. }
  2: { done. }
  set (w := Z.max 1 _).
  assert (Hw : 0 < w) by lia.
  destruct (Z.eqb_spec w 0) as [?|_]; [lia|].
  destruct (Z.ltb_spec w 0) as [?|_]; [lia|].
  munfold. hstep. hstep. change (measurement_mutex d5) with true.
  hstep. hstep.
  cbn [default from_option Z.ltb Z.compare]. unfold id.
  exists
    {| heap := <[p := set_mutex false d5]> h;
       hc_sr04_devices := l; devices_mutex := false; gpios := g;
       irq_actions := a; class_devices := c;
       trace := t ++
         [ EvMutexLock DevicesMutex;
           EvMutexTrylock (MeasurementMutex p) true;
           EvMutexUnlock DevicesMutex;
           EvMsleep 60;
           EvStore p (W_echo_received 0);
           EvIrq (irq d) p
             [ EvStore p (W_time_echoed now); EvStore p (W_echo_received 1);
               EvWakeUp p ];
           EvStore p (W_device_triggered 0);
           EvGpioSetValue (gpio_trig d) 1;
           EvUdelay 10;
           EvStore p (W_device_triggered 1);
           EvGpioSetValue (gpio_trig d) 0;
           EvWait p (timeout d) w;
           EvMutexUnlock (MeasurementMutex p) ] |},
    (set_mutex false d5), w.
  rewrite (usecs_between_set_mutex (abi pf) false d5).
  split.
  { rewrite <- !app_assoc. reflexivity. }
  split; [apply lookup_insert_eq|].
  split; [done|]. split; [done|]. split; [done|].
  by apply since_app.
Qed.

Lemma early_edge_taken_for_echo_witness :
  ∃ k' d' w,
    sysfs_do_measurement rpi
        {| irqs_at := λ i, match i with
                           | 1%nat => [echo_edge 1 d_idle
                                         {| tv_sec := 150; tv_nsec := 0 |} 0]
                           | _ => []
                           end;
           wait_evs := [] |} (Obj 1) k_idle
      = Ret (Z.of_nat (String.length
                         (sprintf_lld (usecs_between (abi rpi) d'))),
             Some (sprintf_lld (usecs_between (abi rpi) d'))) k' ∧
    heap k' !! 1%positive = Some d' ∧
    time_echoed d' = {| tv_sec := 150; tv_nsec := 0 |} ∧
    time_triggered d' = time_triggered d_idle ∧
    0 < w ∧
    since k_idle k' =
      [ EvMutexLock DevicesMutex;
        EvMutexTrylock (MeasurementMutex 1) true;
        EvMutexUnlock DevicesMutex;
        EvMsleep 60;
        EvStore 1 (W_echo_received 0);
        EvIrq (irq d_idle) 1
          [ EvStore 1 (W_time_echoed {| tv_sec := 150; tv_nsec := 0 |});
            EvStore 1 (W_echo_received 1);
            EvWakeUp 1 ];
        EvStore 1 (W_device_triggered 0);
        EvGpioSetValue (gpio_trig d_idle) 1;
        EvUdelay 10;
        EvStore 1 (W_device_triggered 1);
        EvGpioSetValue (gpio_trig d_idle) 0;
        EvWait 1 (timeout d_idle) w;
        EvMutexUnlock (MeasurementMutex 1) ].
Proof.
  apply (early_edge_taken_for_echo rpi _ 1%positive k_idle d_idle
           {| tv_sec := 150; tv_nsec := 0 |}); try reflexivity.
  - done.
  - left.
  - intros [|[|i]] Hi; done.
Defined.

(** * Unloading the module *)

Lemma elem_of_delete_other {A} (c : list A) (idx : nat) (x y : A) :
  c !! idx = Some y → x ≠ y → x ∈ c → x ∈ delete idx c.
Proof.
  intros Hidx Hne Hx. apply list_elem_of_lookup_1 in Hx as [j Hj].
  destruct (decide (j < idx)%nat) as [Hlt|Hge].
  - apply (list_elem_of_lookup_2 _ j). by rewrite list_lookup_delete_lt.
  - assert (j ≠ idx) by (intros ->; congruence).
    apply (list_elem_of_lookup_2 _ (j - 1)).
    rewrite list_lookup_delete_ge by lia.
    by replace (S (j - 1)) with j by lia.
Qed.

Lemma remove_each_spec l :
  ∀ k,
    NoDup l →
    (∀ p, p ∈ l → is_Some (heap k !! p)) →
    (∀ p d, removable l k p → heap k !! p = Some d →
            measurement_mutex d = false) →
    ∃ k',
      remove_each l k = Ret () k' ∧
      devices_mutex k' = devices_mutex k ∧
      (∀ q, q ∈ hc_sr04_devices k' ↔
            q ∈ hc_sr04_devices k ∧ ¬ removable l k q) ∧
      (∀ q, removable l k q → heap k' !! q = None) ∧
      (∀ q, ¬ removable l k q → heap k' !! q = heap k !! q) ∧
      (∀ a, a ∈ irq_actions k' → a ∈ irq_actions k) ∧
      (∀ q d, removable l k q → heap k !! q = Some d →
              (irq d, q) ∉ irq_actions k') ∧
      (∀ n q, (n, q) ∈ irq_actions k → ¬ removable l k q →
              (n, q) ∈ irq_actions k') ∧
      (∀ pin, pin ∈ gpios k' → pin ∈ gpios k) ∧
      (∀ q d, removable l k q → heap k !! q = Some d →
              (gpio_echo d ∉ gpios k') ∧ (gpio_trig d ∉ gpios k')) ∧
      (∀ q, Obj q ∈ class_devices k' → Obj q ∈ class_devices k) ∧
      (∀ q, q ∉ l → Obj q ∈ class_devices k → Obj q ∈ class_devices k').
Proof.
  induction l as [|p l IH]; intros k Hnd Hlive Hidle.
  { exists k. split; [done|]. split; [done|].
    assert (Hno : ∀ q, ¬ removable [] k q).
    { intros q [Hq _]. by apply elem_of_nil in Hq. }
    split. { intros q. specialize (Hno q). tauto. }
    split. { intros q Hq. by destruct (Hno q). }
    split; [done|]. split; [done|].
    split. { intros q d Hq. by destruct (Hno q). }
    split; [done|]. split; [done|].
    split. { intros q d Hq. by destruct (Hno q). }
    done. }
  apply NoDup_cons in Hnd as [Hp Hnd]. cbn [remove_each].
  destruct (decide (Obj p ∈ class_devices k)) as [Hdev|Hdev].
  - (* the class has a device for [p]: it is removed *)
    destruct (Hlive p) as [d Hd]; [by left|].
    assert (Hm : measurement_mutex d = false).
    { apply (Hidle p d); [|done]. split; [by left|done]. }
    destruct (class_find_device_first p (class_devices k) Hdev)
      as (idx & Hfind & Hidx & _).
    assert (Hfind' : class_find_device (Obj p) k = Ret (Some idx) k).
    { rewrite class_find_device_eq. by rewrite Hfind. }
    rewrite (bind_Ret _ _ _ _ _ (remove_sensor_free p k d idx Hd Hm Hfind')).
    set (k1 := Build_kstate _ _ _ _ _ _ _).
    assert (Hcd1 : ∀ q, q ≠ p →
              (Obj q ∈ class_devices k1 ↔ Obj q ∈ class_devices k)).
    { intros q Hq. split.
      - apply list_elem_of_delete_inv.
      - apply (elem_of_delete_other _ _ _ _ Hidx). congruence. }
    assert (Hrem1 : ∀ q, removable l k1 q ↔ removable l k q).
    { intros q. unfold removable. split; intros [Hq Hc]; (split; [done|]);
        apply (Hcd1 q); done || (intros ->; done). }
    assert (Hrem : ∀ q, removable (p :: l) k q ↔ q = p ∨ removable l k q).
    { intros q. unfold removable. rewrite elem_of_cons. split.
      - intros [[->|Hq] Hc]; [by left|by right].
      - intros [->|[Hq Hc]]; [split; [by left|done]|split; [by right|done]]. }
    assert (Hheap1 : ∀ q, q ≠ p → heap k1 !! q = heap k !! q).
    { intros q Hq. by apply lookup_delete_ne. }
    destruct (IH k1 Hnd) as
      (k' & Hrun & Hdm & Hlist & Hnone & Hsame & Hasub & Hagone & Hakept
       & Hgsub & Hggone & Hcsub & Hckept).
    { intros q Hq. rewrite Hheap1 by (intros ->; done).
      apply Hlive. by right. }
    { intros q dq Hq Hdq. apply Hrem1 in Hq.
      rewrite Hheap1 in Hdq by (intros ->; by destruct Hq).
      apply (Hidle q dq); [|done]. apply Hrem. by right. }
    exists k'. split; [done|]. split; [done|].
    split.
    { intros q. rewrite Hlist, Hrem1, Hrem. cbn [hc_sr04_devices k1].
      rewrite elem_of_filter_ne. tauto. }
    split.
    { intros q Hq. apply Hrem in Hq as [->|Hq].
      - rewrite Hsame; [apply lookup_delete_eq|].
        intros [Hin _]. done.
      - apply Hnone. by apply Hrem1. }
    split.
    { intros q Hq. rewrite Hrem in Hq.
      rewrite Hsame by (rewrite Hrem1; tauto).
      apply Hheap1. intros ->. apply Hq. by left. }
    split.
    { intros a' Ha'%Hasub. cbn [irq_actions k1] in Ha'.
      by apply elem_of_filter_ne in Ha' as [? _]. }
    split.
    { intros q dq Hq Hdq. apply Hrem in Hq as [->|Hq].
      - rewrite Hd in Hdq. injection Hdq as <-.
        intros Ha'%Hasub. cbn [irq_actions k1] in Ha'.
        by apply elem_of_filter_ne in Ha' as [_ ?].
      - apply Hagone; [by apply Hrem1|].
        rewrite Hheap1; [done|]. intros ->. by destruct Hq. }
    split.
    { intros n q Ha' Hq. rewrite Hrem in Hq.
      apply Hakept; [|rewrite Hrem1; tauto].
      cbn [irq_actions k1]. apply elem_of_filter_ne. split; [done|].
      intros [= _ ->]. apply Hq. by left. }
    split.
    { intros pin Hpin%Hgsub. cbn [gpios k1] in Hpin.
      by apply elem_of_difference in Hpin as
        [[? _]%elem_of_difference _]. }
    split.
    { intros q dq Hq Hdq. apply Hrem in Hq as [->|Hq].
      - rewrite Hd in Hdq. injection Hdq as <-.
        split; intros Hpin%Hgsub; cbn [gpios k1] in Hpin;
          rewrite !elem_of_difference, !elem_of_singleton in Hpin; tauto.
      - apply (Hggone q dq); [by apply Hrem1|].
        rewrite Hheap1; [done|]. intros ->. by destruct Hq. }
    split.
    { intros q Hq%Hcsub. by apply list_elem_of_delete_inv in Hq. }
    intros q Hq Hc. apply not_elem_of_cons in Hq as [Hne Hq].
    apply Hckept; [done|]. by apply Hcd1.
  - (* no class device for [p]: [remove_sensor] gives up *)
    assert (Hfind' : class_find_device (Obj p) k = Ret None k).
    { rewrite class_find_device_eq.
      by rewrite (class_find_device_none p _ Hdev). }
    rewrite (bind_Ret _ _ _ _ _ (remove_sensor_nodev p k Hfind')).
    assert (Hrem : ∀ q, removable (p :: l) k q ↔ removable l k q).
    { intros q. unfold removable. rewrite elem_of_cons. split.
      - intros [[->|Hq] Hc]; done.
      - intros [Hq Hc]. split; [by right|done]. }
    destruct (IH k Hnd) as
      (k' & Hrun & Hdm & Hlist & Hnone & Hsame & Hasub & Hagone & Hakept
       & Hgsub & Hggone & Hcsub & Hckept).
    { intros q Hq. apply Hlive. by right. }
    { intros q dq Hq Hdq. apply (Hidle q dq); [|done]. by apply Hrem. }
    exists k'. split; [done|]. split; [done|].
    split. { intros q. rewrite Hlist, Hrem. tauto. }
    split. { intros q Hq. apply Hrem in Hq. by apply Hnone. }
    split. { intros q Hq. apply Hsame. by rewrite <- Hrem. }
    split; [done|].
    split. { intros q dq Hq. apply Hrem in Hq. by apply Hagone. }
    split. { intros n q Ha' Hq. apply Hakept; [done|]. by rewrite <- Hrem. }
    split; [done|].
    split. { intros q dq Hq. apply Hrem in Hq. by apply (Hggone q dq). }
    split; [done|].
    intros q Hq Hc. apply not_elem_of_cons in Hq as [_ Hq].
    by apply Hckept.
Qed.

Lemma exit_hc_sr04_spec k :
  registry_ok k →
  devices_mutex k = false →
  (∀ p d, removable (hc_sr04_devices k) k p → heap k !! p = Some d →
          measurement_mutex d = false) →
  ∃ k',
    exit_hc_sr04 k = Ret () k' ∧
    devices_mutex k' = false ∧
    (∀ q, q ∈ hc_sr04_devices k' ↔
          q ∈ hc_sr04_devices k ∧ Obj q ∉ class_devices k) ∧
    (∀ q, removable (hc_sr04_devices k) k q → heap k' !! q = None) ∧
    (∀ q, ¬ removable (hc_sr04_devices k) k q →
          heap k' !! q = heap k !! q) ∧
    (∀ q d, removable (hc_sr04_devices k) k q → heap k !! q = Some d →
            (irq d, q) ∉ irq_actions k') ∧
    (∀ n q, (n, q) ∈ irq_actions k →
            ¬ removable (hc_sr04_devices k) k q →
            (n, q) ∈ irq_actions k') ∧
    (∀ q d, removable (hc_sr04_devices k) k q → heap k !! q = Some d →
            (gpio_echo d ∉ gpios k') ∧ (gpio_trig d ∉ gpios k')) ∧
    (∀ a, a ∈ irq_actions k' → a ∈ irq_actions k) ∧
    (∀ pin, pin ∈ gpios k' → pin ∈ gpios k).
Proof.
  intros (Hnd & Hlive & _) Hdm Hidle. unfold exit_hc_sr04.
  rewrite (bind_Ret _ _ _ _ _ (lock_devices_eq k Hdm)).
  set (k1 := with_trace _ _).
  unfold mbind at 1. unfold M_bind at 1. unfold gets.
  change (hc_sr04_devices k1) with (hc_sr04_devices k).
  destruct (remove_each_spec (hc_sr04_devices k) k1 Hnd Hlive Hidle) as
    (k2 & Hrun & Hdm2 & Hlist & Hnone & Hsame & Hasub & Hagone & Hakept
     & Hgsub & Hggone & _ & _).
  rewrite (bind_Ret _ _ _ _ _ Hrun).
  rewrite (bind_Ret _ _ _ _ _ (unlock_devices_eq k2 Hdm2)).
  eexists. split; [reflexivity|]. split; [done|].
  split.
  { intros q. cbn [hc_sr04_devices with_trace with_devices_mutex].
    rewrite Hlist. unfold removable.
    change (hc_sr04_devices k1) with (hc_sr04_devices k).
    change (class_devices k1) with (class_devices k). tauto. }
  done.
Qed.

(** X13.  Unloading the module, entered with the registry lock free and
    no measurement running on a sensor that has a class device, returns
    with the lock free.  Every listed sensor that has a class device is
    then off the list and freed, its handler unregistered and its two
    lines released; when all listed sensors have one, the list is
    empty. *)
Theorem exit_releases_sensors k :
  registry_ok k →
  devices_mutex k = false →
  (∀ p d, p ∈ hc_sr04_devices k → Obj p ∈ class_devices k →
          heap k !! p = Some d → measurement_mutex d = false) →
  ∃ k',
    exit_hc_sr04 k = Ret () k' ∧
    devices_mutex k' = false ∧
    (∀ p d, p ∈ hc_sr04_devices k → Obj p ∈ class_devices k →
            heap k !! p = Some d →
            (p ∉ hc_sr04_devices k') ∧ heap k' !! p = None ∧
            ((irq d, p) ∉ irq_actions k') ∧
            (gpio_echo d ∉ gpios k') ∧ (gpio_trig d ∉ gpios k')) ∧
    ((∀ p, p ∈ hc_sr04_devices k → Obj p ∈ class_devices k) →
     hc_sr04_devices k' = []).
Proof.
  intros Hok Hdm Hidle.
  destruct (exit_hc_sr04_spec k Hok Hdm) as
    (k' & Hrun & Hdm' & Hlist & Hnone & _ & Hagone & _ & Hggone & _).
  { intros p d [Hp Hc]. by apply Hidle. }
  exists k'. split; [done|]. split; [done|]. split.
  - intros p d Hp Hc Hd.
    assert (Hrem : removable (hc_sr04_devices k) k p) by done.
    split. { rewrite Hlist. tauto. }
    split; [by apply Hnone|]. split; [by apply (Hagone p d)|].
    by apply (Hggone p d).
  - intros Hall. apply elem_of_nil_inv. intros q Hq.
    apply Hlist in Hq as [Hq Hc]. by apply Hc, Hall.
Qed.

Lemma exit_releases_sensors_witness :
  ∃ k',
    exit_hc_sr04 k_idle = Ret () k' ∧
    devices_mutex k' = false ∧
    (∀ p d, p ∈ hc_sr04_devices k_idle → Obj p ∈ class_devices k_idle →
            heap k_idle !! p = Some d →
            (p ∉ hc_sr04_devices k') ∧ heap k' !! p = None ∧
            ((irq d, p) ∉ irq_actions k') ∧
            (gpio_echo d ∉ gpios k') ∧ (gpio_trig d ∉ gpios k')) ∧
    ((∀ p, p ∈ hc_sr04_devices k_idle → Obj p ∈ class_devices k_idle) →
     hc_sr04_devices k' = []).
Proof.
  apply (exit_releases_sensors k_idle);
    [apply k_idle_registry_ok | reflexivity |].
  intros p d Hp _ Hd. apply list_elem_of_singleton in Hp. subst p.
  vm_compute in Hd. injection Hd as <-. reflexivity.
Defined.

(** X14.  [exit_hc_sr04] drops what [remove_sensor] returns.  A listed
    sensor for which the class has no device is therefore left behind
    when the module is unloaded: it is still on the list and allocated,
    with the contents it had, and a handler registered for it stays
    registered. *)
Theorem exit_leaves_sensor_without_device k p d :
  registry_ok k →
  devices_mutex k = false →
  (∀ q dq, q ∈ hc_sr04_devices k → Obj q ∈ class_devices k →
           heap k !! q = Some dq → measurement_mutex dq = false) →
  p ∈ hc_sr04_devices k →
  heap k !! p = Some d →
  Obj p ∉ class_devices k →
  ∃ k',
    exit_hc_sr04 k = Ret () k' ∧
    p ∈ hc_sr04_devices k' ∧
    heap k' !! p = Some d ∧
    (∀ n, (n, p) ∈ irq_actions k → (n, p) ∈ irq_actions k').
Proof.
  intros Hok Hdm Hidle Hp Hd Hc.
  destruct (exit_hc_sr04_spec k Hok Hdm) as
    (k' & Hrun & _ & Hlist & _ & Hsame & _ & Hakept & _).
  { intros q dq [Hq Hcq]. by apply Hidle. }
  assert (Hrem : ¬ removable (hc_sr04_devices k) k p) by (by intros [_ ?]).
  exists k'. split; [done|]. split. { by apply Hlist. }
  split. { by rewrite Hsame. }
  intros n Hn. by apply Hakept.
Qed.

Lemma exit_leaves_sensor_without_device_witness :
  ∃ k',
    exit_hc_sr04 k_no_device = Ret () k' ∧
    1%positive ∈ hc_sr04_devices k' ∧
    heap k' !! 1%positive = Some d_idle ∧
    (∀ n, (n, 1%positive) ∈ irq_actions k_no_device →
          (n, 1%positive) ∈ irq_actions k').
Proof.
  apply (exit_leaves_sensor_without_device k_no_device 1%positive d_idle).
  - apply (registry_ok_ext k_idle); [reflexivity..|].
    apply k_idle_registry_ok.
  - reflexivity.
  - intros q dq _ Hq. by apply elem_of_nil in Hq.
  - left.
  - reflexivity.
  - intros Hq. by apply elem_of_nil in Hq.
Defined.

(** * The states the driver reaches *)

(** ** A measurement and the other sensors *)

Section Keeps.

Context (p : positive).

Lemma other_mutexes_kept_refl k : other_mutexes_kept p k k.
Proof. by intros q _. Qed.

Lemma other_mutexes_kept_trans k1 k2 k3 :
  other_mutexes_kept p k1 k2 → other_mutexes_kept p k2 k3 →
  other_mutexes_kept p k1 k3.
Proof. intros H12 H23 q Hq. by rewrite (H23 q Hq), (H12 q Hq). Qed.

Lemma keeps_ret {A} (a : A) : keeps (other_mutexes_kept p) (mret a).
Proof. intros k a' k' [= _ <-]. apply other_mutexes_kept_refl. Qed.

Lemma keeps_bind {A B} (m : M A) (f : A → M B) :
  keeps (other_mutexes_kept p) m →
  (∀ a, keeps (other_mutexes_kept p) (f a)) →
  keeps (other_mutexes_kept p) (m ≫= f).
Proof.
  intros Hm Hf k b k' Hrun. unfold mbind, M_bind in Hrun.
  destruct (m k) as [a k1| |] eqn:Hmk; [|done..].
  exact (other_mutexes_kept_trans _ _ _ (Hm k a k1 Hmk) (Hf a k1 b k' Hrun)).
Qed.

Lemma keeps_emit e : keeps (other_mutexes_kept p) (emit e).
Proof. intros k a k' [= _ <-]. by intros q _. Qed.

Lemma keeps_deref q : keeps (other_mutexes_kept p) (deref q).
Proof.
  intros k a k' Hrun. unfold deref in Hrun.
  destruct (heap k !! q); [|done]. injection Hrun as _ <-.
  apply other_mutexes_kept_refl.
Qed.

Lemma keeps_store q w : keeps (other_mutexes_kept p) (store q w).
Proof.
  unfold store.
  change (d ← deref q; poke q (apply_write w d);; emit (EvStore q w))
    with (d ← deref q; (poke q (apply_write w d);; emit (EvStore q w))).
  intros k a k' Hrun. unfold mbind, M_bind, deref in Hrun.
  destruct (heap k !! q) as [d|] eqn:Hd; [|done].
  injection Hrun as _ <-. intros q' Hq'. cbn [heap with_heap with_trace].
  destruct (decide (q' = q)) as [->|Hne].
  - rewrite lookup_insert_eq, Hd. cbn. f_equal. by destruct w.
  - by rewrite lookup_insert_ne.
Qed.

Lemma keeps_deliver e : keeps (other_mutexes_kept p) (deliver e).
Proof.
  intros k a k' Hrun. unfold deliver in Hrun.
  unfold mbind at 1 in Hrun. unfold M_bind at 1, gets in Hrun.
  destruct (registered _ _ k).
  2: { injection Hrun as _ <-. apply other_mutexes_kept_refl. }
  unfold mbind, M_bind, deref in Hrun.
  destruct (heap k !! ev_data e) as [d|] eqn:Hd; [|done].
  injection Hrun as _ <-. intros q' Hq'. cbn [heap with_heap with_trace].
  destruct (decide (q' = ev_data e)) as [->|Hne].
  - rewrite lookup_insert_eq, Hd. cbn. f_equal.
    apply (irq_dev_keeps e d).
  - by rewrite lookup_insert_ne.
Qed.

Lemma keeps_deliver_all es : keeps (other_mutexes_kept p) (deliver_all es).
Proof.
  induction es as [|e es IH]; cbn [deliver_all].
  - apply keeps_ret.
  - apply keeps_bind; [apply keeps_deliver|done].
Qed.

Lemma keeps_wait_loop evs :
  ∀ remaining, keeps (other_mutexes_kept p) (wait_loop p evs remaining).
Proof.
  induction evs as [|ev evs IH]; intros remaining; rewrite wait_loop_eq;
    (apply keeps_bind; [apply keeps_deref|]); intros d;
    destruct (negb _); try apply keeps_ret;
    destruct (remaining <=? 0); try apply keeps_ret.
  destruct ev as [e| |].
  - apply keeps_bind; [apply keeps_deliver|]. intros _. apply IH.
  - apply IH.
  - apply keeps_ret.
Qed.

Lemma keeps_mutex_set_own b :
  keeps (other_mutexes_kept p) (mutex_set (MeasurementMutex p) b).
Proof.
  intros k a k' Hrun. unfold mutex_set, mbind, M_bind, deref in Hrun.
  destruct (heap k !! p) as [d|] eqn:Hd; [|done].
  injection Hrun as _ <-. intros q' Hq'. cbn [heap with_heap].
  by rewrite lookup_insert_ne.
Qed.

Lemma keeps_mutex_held m : keeps (other_mutexes_kept p) (mutex_held m).
Proof.
  destruct m as [|q]; unfold mutex_held.
  - intros k a k' [= _ <-]. apply other_mutexes_kept_refl.
  - apply keeps_bind; [apply keeps_deref|]. intros d. apply keeps_ret.
Qed.

Lemma keeps_unlock_devices :
  keeps (other_mutexes_kept p) (mutex_unlock DevicesMutex).
Proof.
  unfold mutex_unlock. apply keeps_bind; [apply keeps_mutex_held|].
  intros [|]; [|done].
  apply keeps_bind; [|intros _; apply keeps_emit].
  intros k a k' [= _ <-]. by intros q _.
Qed.

Lemma keeps_lock_devices :
  keeps (other_mutexes_kept p) (mutex_lock DevicesMutex).
Proof.
  unfold mutex_lock. apply keeps_bind; [apply keeps_mutex_held|].
  intros [|]; [done|].
  apply keeps_bind; [|intros _; apply keeps_emit].
  intros k a k' [= _ <-]. by intros q _.
Qed.

Lemma keeps_unlock_own :
  keeps (other_mutexes_kept p) (mutex_unlock (MeasurementMutex p)).
Proof.
  unfold mutex_unlock. apply keeps_bind; [apply keeps_mutex_held|].
  intros [|]; [|done].
  apply keeps_bind; [apply keeps_mutex_set_own|intros _; apply keeps_emit].
Qed.

Lemma keeps_trylock_own :
  keeps (other_mutexes_kept p) (mutex_trylock (MeasurementMutex p)).
Proof.
  unfold mutex_trylock. apply keeps_bind; [apply keeps_mutex_held|].
  intros [|].
  - apply keeps_bind; [apply keeps_emit|intros _; apply keeps_ret].
  - apply keeps_bind; [apply keeps_mutex_set_own|]. intros _.
    apply keeps_bind; [apply keeps_emit|intros _; apply keeps_ret].
Qed.

Lemma keeps_do_measurement pf env :
  keeps (other_mutexes_kept p) (do_measurement pf env p).
Proof.
  unfold do_measurement, gpio_set_value, wait_event_interruptible_timeout.
  repeat first
    [ apply keeps_ret
    | apply keeps_emit
    | apply keeps_deref
    | apply keeps_store
    | apply keeps_deliver_all
    | apply keeps_wait_loop
    | apply keeps_unlock_devices
    | apply keeps_unlock_own
    | apply keeps_trylock_own
    | apply keeps_bind
    | intros []
    | intros ?
    | match goal with |- keeps _ (if ?b then _ else _) => destruct b end ].
Qed.

Lemma keeps_sysfs_do_measurement pf env :
  keeps (other_mutexes_kept p) (sysfs_do_measurement pf env (Obj p)).
Proof.
  unfold sysfs_do_measurement.
  apply keeps_bind; [apply keeps_lock_devices|]. intros _.
  apply keeps_bind; [apply keeps_do_measurement|]. intros [status u].
  destruct (status <? 0); apply keeps_ret.
Qed.

End Keeps.

Lemma sysfs_do_measurement_dangling pf env p k :
  heap k !! p = None →
  devices_mutex k = false →
  sysfs_do_measurement pf env (Obj p) k = Fault.
Proof.
  intros Hnone Hdm. destruct k as [h l dm g a c t].
  cbn [heap devices_mutex] in Hnone, Hdm. subst dm.
  unfold sysfs_do_measurement, do_measurement. munfold.
  by rewrite Hnone.
Qed.

(** What reading [measure] leaves behind, whatever it returns. *)
Lemma sysfs_do_measurement_effect pf env p k r k' :
  irq_live k →
  devices_mutex k = false →
  sysfs_do_measurement pf env (Obj p) k = Ret r k' →
  frame_eq k k' ∧ devices_mutex k' = false ∧
  ∀ q, measurement_mutex <$> heap k' !! q
       = measurement_mutex <$> heap k !! q.
Proof.
  intros Hlive Hdm Hrun.
  pose proof (keeps_sysfs_do_measurement p pf env k r k' Hrun) as Hothers.
  destruct (heap k !! p) as [d|] eqn:Hd.
  2: { by rewrite (sysfs_do_measurement_dangling pf env p k Hd Hdm) in Hrun. }
  unfold sysfs_do_measurement in Hrun.
  rewrite (bind_Ret _ _ _ _ _ (lock_devices_eq k Hdm)) in Hrun.
  set (k1 := with_trace _ _) in Hrun.
  assert (Hd1 : heap k1 !! p = Some d) by done.
  assert (Hlive1 : irq_live k1) by exact Hlive.
  assert (Hown : ∀ d2,
            heap k' !! p = Some d2 →
            measurement_mutex d2 = measurement_mutex d →
            ∀ q, measurement_mutex <$> heap k' !! q
                 = measurement_mutex <$> heap k !! q).
  { intros d2 Hd2 Hm2 q. destruct (decide (q = p)) as [->|Hq].
    - rewrite Hd2, Hd. cbn. by f_equal.
    - by apply Hothers. }
  destruct (measurement_mutex d) eqn:Hm.
  - rewrite (bind_Ret _ _ _ _ _ (do_measurement_busy pf env p k1 d Hd1 Hm
                                   eq_refl)) in Hrun.
    change (neg EBUSY <? 0) with true in Hrun. cbn match in Hrun.
    injection Hrun as _ <-.
    split; [apply (frame_eq_refl k)|]. split; [done|].
    by apply (Hown d).
  - destruct (do_measurement_spec pf env p k1 d (λ _, True) Hd1 Hm eq_refl
                Hlive1 I (λ _ _ _, I) (λ _ _ _ _, I) (λ _ _ _ _ _, I))
      as (r0 & u & k2 & d2 & w & Hrun2 & Hframe & Hdm2 & _ & Hd2 & _ & Hm2
          & _).
    rewrite (bind_Ret _ _ _ _ _ Hrun2) in Hrun.
    assert (k' = k2) as ->.
    { destruct (r0 <? 0); by injection Hrun as _ <-. }
    split; [exact (frame_eq_trans k k1 k2 (frame_eq_refl k) Hframe)|].
    split; [done|]. by apply (Hown d2).
Qed.

(** ** What a request to [configure] changes *)

(** When [create_hc_sr04] hands out a sensor, its two lines are distinct
    and nobody had requested them. *)
Lemma create_success_pins pf env trig echo tmo k new k' :
  create_hc_sr04 pf env trig echo tmo k = Ret (Obj new) k' →
  (trig ∉ gpios k) ∧ (echo ∉ gpios k) ∧ trig ≠ echo.
Proof.
  destruct k as [h l dm g a c t]. unfold create_hc_sr04.
  destruct (kmalloc_mem env) as [garbage|] eqn:Hmem.
  2: { munfold. intros [= ]. }
  munfold. hstep. hstep. hstep.
  cbn [apply_write gpio_trig gpio_echo].
  match goal with
  | |- context [setup_hc_sr04_gpio pf env trig echo ?k1] =>
      destruct (setup_hc_sr04_gpio_spec pf env trig echo k1)
        as (r & g' & tg & Hg & Hcase); rewrite Hg; clear Hg
  end.
  cbn [gpios trace] in Hcase. munfold.
  destruct Hcase as [(-> & -> & Hnt & Hne & Hte & Hvt & Hve & _)
                    |(Hneg & -> & Hfail)].
  2: { destruct (Z.eqb_spec r 0) as [?|_]; [lia|]. hstep. intros [= ]. }
  done.
Qed.

Lemma add_sensor_effect pf env trig echo tmo k r k' :
  irq_outcome env ≠ IrqNested →
  add_sensor pf env trig echo tmo k = Ret r k' →
  devices_mutex k' = devices_mutex k ∧
  ((∃ garbage,
      heap k' = <[fresh (dom (heap k)) := created pf trig echo tmo garbage]>
                  (heap k) ∧
      hc_sr04_devices k' = hc_sr04_devices k ++ [fresh (dom (heap k))] ∧
      gpios k' = {[echo]} ∪ ({[trig]} ∪ gpios k) ∧
      irq_actions k' =
        irq_actions k ++ [(gpio_to_irq pf echo, fresh (dom (heap k)))] ∧
      (class_devices k' = class_devices k ∨
       class_devices k' = class_devices k ++ [Obj (fresh (dom (heap k)))]) ∧
      (trig ∉ gpios k) ∧ (echo ∉ gpios k) ∧ trig ≠ echo) ∨
   declined k k').
Proof.
  intros Hnn. unfold add_sensor.
  destruct (create_hc_sr04_spec pf env trig echo tmo k)
    as (ptr & k1 & t & Hcreate & Hdm & Hc & Ht & Hcases).
  rewrite (bind_Ret _ _ _ _ _ Hcreate).
  assert (Hdev : ∀ drvdata,
            (device_create_with_groups (device_create_ok env) drvdata;;
             mret 0) k1 = Ret r k' →
            devices_mutex k' = devices_mutex k1 ∧ heap k' = heap k1 ∧
            hc_sr04_devices k' = hc_sr04_devices k1 ∧
            gpios k' = gpios k1 ∧ irq_actions k' = irq_actions k1 ∧
            (class_devices k' = class_devices k1 ∨
             class_devices k' = class_devices k1 ++ [drvdata])).
  { intros drvdata. destruct k1 as [h1 l1 dm1 g1 a1 c1 t1].
    destruct (device_create_ok env); munfold; intros [= _ <-]; cbn;
      repeat (split; [done|]); by auto. }
  destruct Hcases as [(garbage & Hmem & -> & Hh & Hl & Hg & Ha & _)|
                      (err & -> & _ & Hh & Hl & Hg & Herr)].
  - cbn [IS_ERR]. intros Hrun.
    destruct (Hdev _ Hrun) as (Hdm' & Hh' & Hl' & Hg' & Ha' & Hc').
    split; [congruence|]. left. exists garbage.
    rewrite Hh', Hl', Hg', Ha', <- Hc.
    repeat (split; [done|]).
    exact (create_success_pins pf env trig echo tmo k _ k1 Hcreate).
  - assert (Ha : irq_actions k1 = irq_actions k).
    { destruct Herr as [(_ & Ha & _)|(_ & Hnested & _)]; done. }
    unfold ERR_PTR. destruct (IS_ERR (Raw err)).
    + intros [= _ <-]. split; [done|]. right.
      repeat (split; [done|]). by left.
    + intros Hrun.
      destruct (Hdev _ Hrun) as (Hdm' & Hh' & Hl' & Hg' & Ha' & Hc').
      split; [congruence|]. right. unfold declined.
      rewrite <- Hc. split; [congruence|]. split; [congruence|].
      split; [congruence|]. split; [congruence|].
      destruct Hc' as [?|?]; [by left|right; by eexists].
Qed.

(** Every request that returns has added one sensor, removed one sensor,
    or left the sensors alone; the registry lock is free again. *)
Lemma configure_store_effect pf env buf len k r k' :
  registry_ok k →
  devices_mutex k = false →
  irq_outcome env ≠ IrqNested →
  configure_store pf env buf len k = Ret r k' →
  devices_mutex k' = false ∧
  (added pf k k' ∨ removed k k' ∨ declined k k').
Proof.
  intros Hok Hdm Hnn. unfold configure_store.
  pose proof (lock_devices_eq k Hdm) as Hlock.
  set (k1 := with_trace _ _) in Hlock.
  assert (Hok1 : registry_ok k1) by (by apply (registry_ok_ext k)).
  assert (Hsame : declined k k) by (repeat (split; [done|]); by left).
  assert (Hsame1 : ∀ t, declined k (with_trace t (with_devices_mutex false k1))).
  { intros t. repeat (split; [done|]). by left. }
  destruct (bool_decide (first_char buf = "-"%char)); cbn [negb].
  - (* removal *)
    destruct (sscanf_dd pf (skip_sign buf)) as [[trig echo]|].
    2: { intros [= _ <-]. split; [done|]. by right; right. }
    rewrite (bind_Ret _ _ _ _ _ Hlock).
    rewrite (bind_Ret _ _ _ _ _ (find_sensor_spec _ _ k1 Hok1)).
    destruct (sensors_with_key (to_int trig) (to_int echo) k1)
      as [|p rest] eqn:Hs; cbn [head].
    { rewrite (bind_Ret _ _ _ _ _ (unlock_devices_eq k1 eq_refl)).
      intros [= _ <-]. split; [done|]. right; right. apply Hsame1. }
    destruct (sensors_with_key_head _ _ _ _ _ Hok1 Hs) as [d Hd].
    assert (Hp : p ∈ hc_sr04_devices k).
    { assert (Hin : In p (sensors_with_key (to_int trig) (to_int echo) k1)).
      { rewrite Hs. by left. }
      apply List.filter_In in Hin as [Hin _]. by apply list_elem_of_In. }
    pose proof (class_find_device_eq (Obj p) k1) as Hfind.
    destruct (list_find _ (class_devices k1)) as [[idx x]|] eqn:Hlf;
      cbn [fmap option_fmap option_map fst] in Hfind.
    2: { rewrite (bind_Ret _ _ _ _ _ (remove_sensor_nodev p k1 Hfind)).
         rewrite (bind_Ret _ _ _ _ _ (unlock_devices_eq k1 eq_refl)).
         change (neg ENODEV <? 0) with true. cbn match.
         intros [= _ <-]. split; [done|]. right; right. apply Hsame1. }
    apply list_find_Some in Hlf as (Hidx & Hx & Hfirst).
    unfold match_device in Hx. apply bool_decide_eq_true_1 in Hx. subst x.
    destruct (measurement_mutex d) eqn:Hm.
    { rewrite (bind_Ret_blocked _ _ _ _ _
                 (remove_sensor_blocked p k1 d idx Hd Hm Hfind)).
      intros [= ]. }
    rewrite (bind_Ret _ _ _ _ _ (remove_sensor_free p k1 d idx Hd Hm Hfind)).
    set (k2 := Build_kstate _ _ _ _ _ _ _).
    rewrite (bind_Ret _ _ _ _ _ (unlock_devices_eq k2 eq_refl)).
    change (0 <? 0) with false. cbn match.
    intros [= _ <-]. split; [done|]. right; left.
    exists p, d, idx. repeat (split; [done|]).
    intros j Hj Hjp. apply (Hfirst j (Obj p) Hjp Hj).
    unfold match_device. by apply bool_decide_eq_true_2.
  - (* addition *)
    destruct (sscanf_ddd pf (skip_sign buf)) as [[[trig echo] tmo]|].
    2: { intros [= _ <-]. split; [done|]. by right; right. }
    rewrite (bind_Ret _ _ _ _ _ Hlock).
    rewrite (bind_Ret _ _ _ _ _ (find_sensor_spec _ _ k1 Hok1)).
    destruct (sensors_with_key (to_int trig) (to_int echo) k1)
      as [|p rest] eqn:Hs; cbn [head].
    2: { rewrite (bind_Ret _ _ _ _ _ (unlock_devices_eq k1 eq_refl)).
         intros [= _ <-]. split; [done|]. right; right. apply Hsame1. }
    destruct (add_sensor pf env (to_int trig) (to_int echo)
                (to_ulong (abi pf) (to_int tmo)) k1)
      as [r2 k2| |] eqn:Hadd; unfold mbind at 1; unfold M_bind at 1;
      rewrite Hadd; [|done..].
    destruct (add_sensor_effect _ _ _ _ _ _ _ _ Hnn Hadd)
      as (Hdm2 & Heff).
    rewrite (bind_Ret _ _ _ _ _ (unlock_devices_eq k2 Hdm2)).
    intros Hrun.
    assert (k' = with_trace (trace k2 ++ [EvMutexUnlock DevicesMutex])
                   (with_devices_mutex false k2)) as ->.
    { destruct (r2 <? 0); by injection Hrun as _ <-. }
    split; [done|].
    destruct Heff as [(garbage & Hh & Hl & Hg & Ha & Hc & Hpins)|Hdecl].
    + left. exists (to_int trig), (to_int echo),
        (to_ulong (abi pf) (to_int tmo)), garbage.
      repeat (split; [done|]). exact Hpins.
    + right; right. exact Hdecl.
Qed.

(** ** The invariant between two requests *)

Lemma settled_boot : settled boot.
Proof.
  split; [apply boot_ok|]. split; [done|].
  split. { intros p d Hd. by vm_compute in Hd. }
  split. { intros p q dp dq Hd. by vm_compute in Hd. }
  split. { intros pin Hpin. by apply elem_of_empty in Hpin. }
  split.
  - intros p Hp. by apply elem_of_nil in Hp.
  - intros p i j Hi. by destruct i.
Qed.

Lemma heap_config_eq_lookup_r h h' p d' :
  heap_config_eq h h' → h' !! p = Some d' →
  ∃ d, h !! p = Some d ∧ same_config d d'.
Proof.
  intros H Hd. specialize (H p). rewrite Hd in H. inversion H; subst. eauto.
Qed.

Lemma settled_measure k k' :
  frame_eq k k' →
  devices_mutex k' = false →
  (∀ q, measurement_mutex <$> heap k' !! q
        = measurement_mutex <$> heap k !! q) →
  settled k → settled k'.
Proof.
  intros Hframe Hdm Hmutex (Hok & _ & Hsens & Hapart & Hown & Hcd & Hcu).
  pose proof Hframe as (Hl & Hg & Ha & Hc & Hh).
  split; [by apply (driver_ok_frame k)|]. split; [done|].
  assert (Hback : ∀ p d', heap k' !! p = Some d' →
            ∃ d, heap k !! p = Some d ∧ same_config d d' ∧
                 measurement_mutex d' = measurement_mutex d).
  { intros p d' Hd'.
    destruct (heap_config_eq_lookup_r _ _ _ _ Hh Hd') as (d & Hd & Hcfg).
    exists d. split; [done|]. split; [done|].
    specialize (Hmutex p). rewrite Hd', Hd in Hmutex. by injection Hmutex. }
  split.
  { intros p d' Hd'. destruct (Hback p d' Hd')
      as (d & Hd & (Ht & He & Hi & _) & Hm).
    destruct (Hsens p d Hd) as (? & ? & ? & ? & ? & ?).
    unfold sensor_settled. rewrite Hl, Hg, Ha, Ht, He, Hi, Hm. done. }
  split.
  { intros p q dp' dq' Hp Hq Hne.
    destruct (Hback p dp' Hp) as (dp & Hdp & (Ht & He & _) & _).
    destruct (Hback q dq' Hq) as (dq & Hdq & (Ht' & He' & _) & _).
    unfold lines_apart. rewrite Ht, He, Ht', He'.
    by apply (Hapart p q). }
  split.
  { intros pin Hpin. rewrite Hg in Hpin.
    destruct (Hown pin Hpin) as (p & d & Hd & Hpin').
    destruct (heap_config_eq_lookup _ _ _ _ Hh Hd)
      as (d' & Hd' & Ht & He & _).
    exists p, d'. split; [done|]. by rewrite Ht, He. }
  split.
  - intros p. rewrite Hc, Hl. apply Hcd.
  - intros p i j. rewrite Hc. apply Hcu.
Qed.

Lemma class_devices_ok_snoc_raw k k' z :
  hc_sr04_devices k' = hc_sr04_devices k →
  class_devices k' = class_devices k ++ [Raw z] →
  class_devices_ok k → class_devices_ok k'.
Proof.
  intros Hl Hc [Hcd Hcu]. split.
  - intros p. rewrite Hc, Hl, elem_of_app, list_elem_of_singleton.
    intros [?|?]; [by apply Hcd|done].
  - intros p i j. rewrite Hc. intros Hi Hj.
    apply lookup_app_Some in Hi as [Hi|[_ Hi]];
      apply lookup_app_Some in Hj as [Hj|[_ Hj]].
    + by apply (Hcu p).
    + by apply list_lookup_singleton_Some in Hj as [_ ?].
    + by apply list_lookup_singleton_Some in Hi as [_ ?].
    + by apply list_lookup_singleton_Some in Hi as [_ ?].
Qed.

Lemma settled_declined k k' :
  devices_mutex k' = false → declined k k' → settled k → settled k'.
Proof.
  intros Hdm (Hh & Hl & Hg & Ha & Hc) (Hok & _ & Hsens & Hapart & Hown & Hcd).
  split; [by apply (driver_ok_ext k)|]. split; [done|].
  split. { intros p d. unfold sensor_settled. rewrite Hh, Hl, Hg, Ha.
           apply Hsens. }
  split. { intros p q dp dq. rewrite Hh. apply Hapart. }
  split. { intros pin. rewrite Hg. setoid_rewrite Hh. apply Hown. }
  destruct Hc as [Hc|[z Hc]].
  - destruct Hcd as [Hcd Hcu]. split.
    + intros p. rewrite Hc, Hl. apply Hcd.
    + intros p i j. rewrite Hc. apply Hcu.
  - by apply (class_devices_ok_snoc_raw k k' z).
Qed.

Lemma settled_added pf k k' :
  devices_mutex k' = false → added pf k k' → settled k → settled k'.
Proof.
  intros Hdm (trig & echo & tmo & garbage & Hh & Hl & Hg & Ha & Hc & Habsent
              & Hnt & Hne & Hte)
    (Hok & _ & Hsens & Hapart & Hown & Hcd & Hcu).
  set (new := fresh (dom (heap k))) in *.
  set (dnew := created pf trig echo tmo garbage) in *.
  assert (Hfresh : heap k !! new = None) by apply fresh_not_in_heap.
  assert (Hold : ∀ p d, heap k !! p = Some d → p ≠ new).
  { intros p d Hd ->. by rewrite Hfresh in Hd. }
  assert (Hlook : ∀ p d, heap k' !! p = Some d →
            (p = new ∧ d = dnew) ∨ (p ≠ new ∧ heap k !! p = Some d)).
  { intros p d. rewrite Hh. destruct (decide (p = new)) as [->|Hp].
    - rewrite lookup_insert_eq. intros [= <-]. by left.
    - rewrite lookup_insert_ne by done. by right. }
  split; [by eapply driver_ok_add|]. split; [done|].
  split.
  { intros p d Hd. unfold sensor_settled. rewrite Hl, Hg, Ha.
    rewrite !elem_of_app, !elem_of_union, !elem_of_singleton,
      !list_elem_of_singleton.
    destruct (Hlook p d Hd) as [[-> ->]|[Hp Hd0]].
    - split; [by right|]. split; [done|]. split; [by right|].
      split; [by right; left|]. split; [by left|done].
    - destruct (Hsens p d Hd0) as (? & ? & ? & ? & ? & ?).
      split; [by left|]. split; [done|]. split; [by left|].
      split; [by right; right|]. split; [by right; right|done]. }
  split.
  { intros p q dp dq Hp Hq Hpq.
    destruct (Hlook p dp Hp) as [[-> ->]|[Hp' Hdp]];
      destruct (Hlook q dq Hq) as [[-> ->]|[Hq' Hdq]].
    - done.
    - destruct (Hsens q dq Hdq) as (_ & _ & _ & Htq & Heq & _).
      unfold lines_apart. cbn [dnew created gpio_trig gpio_echo apply_write
                                 set_mutex].
      repeat split; intros ->; done.
    - destruct (Hsens p dp Hdp) as (_ & _ & _ & Htp & Hep & _).
      unfold lines_apart. cbn [dnew created gpio_trig gpio_echo apply_write
                                 set_mutex].
      repeat split; intros <-; done.
    - by apply (Hapart p q). }
  split.
  { intros pin. rewrite Hg, !elem_of_union, !elem_of_singleton.
    intros [->|[->|Hpin]].
    - exists new, dnew. split; [rewrite Hh; apply lookup_insert_eq|].
      by right.
    - exists new, dnew. split; [rewrite Hh; apply lookup_insert_eq|].
      by left.
    - destruct (Hown pin Hpin) as (p & d & Hd & Hpin').
      exists p, d. split; [|done].
      rewrite Hh, lookup_insert_ne; [done|]. intros <-.
      by rewrite Hfresh in Hd. }
  assert (Hnc : Obj new ∉ class_devices k).
  { intros Hin. apply Hcd in Hin. destruct Hok as ((_ & Hlive & _) & _).
    destruct (Hlive new Hin) as [? Hsome]. by rewrite Hfresh in Hsome. }
  destruct Hc as [Hc|Hc].
  - split.
    + intros p Hp. rewrite Hc in Hp. rewrite Hl, elem_of_app. left.
      by apply Hcd.
    + intros p i j. rewrite Hc. apply Hcu.
  - split.
    + intros p. rewrite Hc, Hl, !elem_of_app, !list_elem_of_singleton.
      intros [Hp|[= ->]]; [left; by apply Hcd|by right].
    + intros p i j. rewrite Hc. intros Hi Hj.
      apply lookup_app_Some in Hi as [Hi|[Hilen Hi]];
        apply lookup_app_Some in Hj as [Hj|[Hjlen Hj]].
      * by apply (Hcu p).
      * apply list_lookup_singleton_Some in Hj as [_ [= <-]].
        exfalso. apply Hnc. by eapply list_elem_of_lookup_2.
      * apply list_lookup_singleton_Some in Hi as [_ [= <-]].
        exfalso. apply Hnc. by eapply list_elem_of_lookup_2.
      * apply list_lookup_singleton_Some in Hi as [Hi _].
        apply list_lookup_singleton_Some in Hj as [Hj _]. lia.
Qed.

Lemma settled_removed k k' :
  devices_mutex k' = false → removed k k' → settled k → settled k'.
Proof.
  intros Hdm (p & d & idx & Hd & Hp & Hm & Hh & Hl & Hg & Ha & Hc & Hidx
              & Hfirst)
    (Hok & _ & Hsens & Hapart & Hown & Hcd & Hcu).
  assert (Hlook : ∀ q dq, heap k' !! q = Some dq →
            q ≠ p ∧ heap k !! q = Some dq).
  { intros q dq. rewrite Hh. destruct (decide (q = p)) as [->|Hq].
    - by rewrite lookup_delete_eq.
    - by rewrite lookup_delete_ne. }
  split; [by eapply driver_ok_remove|]. split; [done|].
  split.
  { intros q dq Hq. destruct (Hlook q dq Hq) as [Hne Hdq].
    destruct (Hsens q dq Hdq) as (? & ? & ? & ? & ? & ?).
    destruct (Hapart q p dq d Hdq Hd Hne) as (? & ? & ? & ?).
    unfold sensor_settled. rewrite Hl, Hg, Ha.
    rewrite !elem_of_filter_ne, !elem_of_difference, !elem_of_singleton.
    repeat split; try done. intros [= _ ->]. done. }
  split.
  { intros q1 q2 d1 d2 H1 H2 Hne.
    destruct (Hlook q1 d1 H1) as [_ H1']. destruct (Hlook q2 d2 H2) as [_ H2'].
    by apply (Hapart q1 q2). }
  split.
  { intros pin. rewrite Hg, !elem_of_difference, !elem_of_singleton.
    intros [[Hpin Hne] Hnt].
    destruct (Hown pin Hpin) as (o & d_o & Ho & Hpin').
    exists o, d_o. split; [|done]. rewrite Hh, lookup_delete_ne; [done|].
    intros <-. rewrite Hd in Ho. injection Ho as <-.
    destruct Hpin'; done. }
  assert (Hshift : ∀ j x, class_devices k' !! j = Some x →
            ∃ j', class_devices k !! j' = Some x ∧ j' ≠ idx ∧
                  (j' = j ∨ j' = S j) ∧ ((j < idx)%nat ↔ j' = j)).
  { intros j x. rewrite Hc, list_lookup_delete.
    destruct (decide (j < idx)%nat); intros Hj;
      eexists; (split; [exact Hj|]); split; try lia; split; try lia;
      by auto. }
  split.
  - intros q Hq. apply list_elem_of_lookup_1 in Hq as [j Hj].
    destruct (Hshift j _ Hj) as (j' & Hj' & Hne & _).
    rewrite Hl, elem_of_filter_ne. split.
    + apply Hcd. by eapply list_elem_of_lookup_2.
    + intros ->. apply Hne. by apply (Hcu p).
  - intros q i j Hi Hj.
    destruct (Hshift i _ Hi) as (i' & Hi' & _ & Hi1 & Hi2).
    destruct (Hshift j _ Hj) as (j' & Hj' & _ & Hj1 & Hj2).
    pose proof (Hcu q i' j' Hi' Hj'). lia.
Qed.

(** X15.  Whatever requests were written to [configure] and whichever
    sensors were read, each run to its end, the driver is left at rest:
    no lock is held; the allocated sensors are exactly the listed ones,
    none measuring, each with its handler registered and its two lines
    requested; no line is requested that no sensor owns and no two
    sensors share one; and every class device that points to a sensor
    points to a listed one, no two to the same. *)
Theorem reachable_settled pf k : reachable pf k → settled k.
Proof.
  induction 1 as [|k env buf len r k' _ IH Hnn Hrun|k env p r k' _ IH Hrun].
  - apply settled_boot.
  - destruct (configure_store_effect pf env buf len k r k') as (Hdm & Heff);
      [apply IH | apply IH | done..|].
    destruct Heff as [Hadd|[Hrem|Hdecl]].
    + by apply (settled_added pf k).
    + by apply (settled_removed k).
    + by apply (settled_declined k).
  - destruct (sysfs_do_measurement_effect pf env p k r k')
      as (Hframe & Hdm & Hmutex); [|apply IH|done|].
    { apply driver_ok_live, IH. }
    by apply (settled_measure k).
Qed.

(** X16.  In a state at rest every request goes through: a request
    written to [configure] returns, whatever its text and whatever the
    kernel answers, and reading [measure] of a listed sensor returns with
    a status other than [-EBUSY]; neither faults or sleeps on a lock, and
    both leave the registry lock free. *)
Theorem settled_requests_return pf k :
  settled k →
  (∀ env buf len,
     ∃ r k', configure_store pf env buf len k = Ret r k' ∧
             devices_mutex k' = false) ∧
  (∀ env p,
     p ∈ hc_sr04_devices k →
     ∃ status text k',
       sysfs_do_measurement pf env (Obj p) k = Ret (status, text) k' ∧
       status ≠ neg EBUSY ∧ devices_mutex k' = false).
Proof.
  intros ((Hok & Hsound) & Hdm & Hsens & _). split.
  - intros env buf len. unfold configure_store.
    pose proof (lock_devices_eq k Hdm) as Hlock.
    set (k1 := with_trace _ _) in Hlock.
    assert (Hok1 : registry_ok k1) by (by apply (registry_ok_ext k)).
    destruct (bool_decide (first_char buf = "-"%char)); cbn [negb].
    + destruct (sscanf_dd pf (skip_sign buf)) as [[trig echo]|].
      2: { by eexists _, _. }
      rewrite (bind_Ret _ _ _ _ _ Hlock).
      rewrite (bind_Ret _ _ _ _ _ (find_sensor_spec _ _ k1 Hok1)).
      destruct (sensors_with_key (to_int trig) (to_int echo) k1)
        as [|p rest] eqn:Hs; cbn [head].
      { rewrite (bind_Ret _ _ _ _ _ (unlock_devices_eq k1 eq_refl)).
        by eexists _, _. }
      destruct (sensors_with_key_head _ _ _ _ _ Hok1 Hs) as [d Hd].
      destruct (Hsens p d Hd) as (_ & Hm & _).
      pose proof (class_find_device_eq (Obj p) k1) as Hfind.
      destruct (list_find _ (class_devices k1)) as [[idx x]|];
        cbn [fmap option_fmap option_map fst] in Hfind.
      * rewrite (bind_Ret _ _ _ _ _
                   (remove_sensor_free p k1 d idx Hd Hm Hfind)).
        set (k2 := Build_kstate _ _ _ _ _ _ _).
        rewrite (bind_Ret _ _ _ _ _ (unlock_devices_eq k2 eq_refl)).
        by eexists _, _.
      * rewrite (bind_Ret _ _ _ _ _ (remove_sensor_nodev p k1 Hfind)).
        rewrite (bind_Ret _ _ _ _ _ (unlock_devices_eq k1 eq_refl)).
        by eexists _, _.
    + destruct (sscanf_ddd pf (skip_sign buf)) as [[[trig echo] tmo]|].
      2: { by eexists _, _. }
      rewrite (bind_Ret _ _ _ _ _ Hlock).
      rewrite (bind_Ret _ _ _ _ _ (find_sensor_spec _ _ k1 Hok1)).
      destruct (sensors_with_key (to_int trig) (to_int echo) k1)
        as [|p rest]; cbn [head].
      2: { rewrite (bind_Ret _ _ _ _ _ (unlock_devices_eq k1 eq_refl)).
           by eexists _, _. }
      destruct (add_sensor_spec pf env (to_int trig) (to_int echo)
                  (to_ulong (abi pf) (to_int tmo)) k1)
        as (r & k2 & t & Hadd & Hdm2 & _).
      rewrite (bind_Ret _ _ _ _ _ Hadd).
      rewrite (bind_Ret _ _ _ _ _ (unlock_devices_eq k2 Hdm2)).
      destruct (r <? 0); by eexists _, _.
  - intros env p Hp. destruct Hok as (_ & Hlive & _).
    destruct (Hlive p Hp) as [d Hd].
    destruct (Hsens p d Hd) as (_ & Hm & _).
    unfold sysfs_do_measurement.
    rewrite (bind_Ret _ _ _ _ _ (lock_devices_eq k Hdm)).
    set (k1 := with_trace _ _).
    assert (Hlive1 : irq_live k1).
    { intros n q Hin. destruct (Hsound n q Hin) as (dq & Hdq & _).
      by exists dq. }
    destruct (do_measurement_spec pf env p k1 d (λ _, True) Hd Hm eq_refl
                Hlive1 I (λ _ _ _, I) (λ _ _ _ _, I) (λ _ _ _ _ _, I))
      as (r & u & k2 & d2 & w & Hrun & _ & Hdm2 & _ & _ & _ & _ & _ & _
          & Hout).
    rewrite (bind_Ret _ _ _ _ _ Hrun).
    destruct Hout as [(_ & -> & ->)|[(_ & -> & ->)|(_ & -> & -> & _)]].
    + change (neg ETIMEDOUT <? 0) with true. cbn match.
      by eexists _, _, _.
    + change (neg ERESTARTSYS <? 0) with true. cbn match.
      by eexists _, _, _.
    + change (0 <? 0) with false. cbn match.
      eexists _, _, _. split; [reflexivity|]. split; [|done].
      change (neg EBUSY) with (-16). lia.
Qed.

Lemma reachable_settled_witness : reachable rpi k_added ∧ settled k_added.
Proof.
  assert (Hreach : reachable rpi k_added).
  { apply (reach_configure rpi boot aenv_ok "23 24 1000" 11 11 k_added);
      [apply reach_boot | done | vm_compute; reflexivity]. }
  split; [exact Hreach|]. exact (reachable_settled rpi k_added Hreach).
Defined.
Lemma k_added_settled : settled k_added.
Proof.
  apply (settled_added rpi boot); [done| |apply settled_boot].
  exists 23, 24, 1000, garbage.
  repeat (split; [by vm_compute|]).
  split; [by right; vm_compute|]. split; [by vm_compute|].
  split; [apply not_elem_of_empty|]. split; [apply not_elem_of_empty|done].
Qed.

Lemma settled_requests_return_witness :
  (∀ env buf len,
     ∃ r k', configure_store rpi env buf len k_added = Ret r k' ∧
             devices_mutex k' = false) ∧
  (∀ env p,
     p ∈ hc_sr04_devices k_added →
     ∃ status text k',
       sysfs_do_measurement rpi env (Obj p) k_added
         = Ret (status, text) k' ∧
       status ≠ neg EBUSY ∧ devices_mutex k' = false).
Proof. exact (settled_requests_return rpi k_added k_added_settled). Defined.

(** * The accuracy of the elapsed time *)

(** X17.  For two timestamps the clock can produce, the echo not earlier
    than the trigger, the microseconds [do_measurement] computes are less
    than one microsecond away from the elapsed nanoseconds.  They are
    rounded down when the nanosecond field of the echo timestamp is not
    the smaller one, and rounded up otherwise, as the division truncates
    the negative difference of the nanosecond fields towards zero. *)
Theorem usecs_within_a_microsecond abi0 d :
  valid_ts (time_triggered d) →
  valid_ts (time_echoed d) →
  ts_le (time_triggered d) (time_echoed d) →
  let ns :=
    (tv_sec (time_echoed d) - tv_sec (time_triggered d)) * NSEC_PER_SEC
    + (tv_nsec (time_echoed d) - tv_nsec (time_triggered d)) in
  0 <= ns ∧
  - 1000 < 1000 * usecs_between abi0 d - ns < 1000 ∧
  (tv_nsec (time_triggered d) <= tv_nsec (time_echoed d) →
   1000 * usecs_between abi0 d <= ns) ∧
  (tv_nsec (time_echoed d) < tv_nsec (time_triggered d) →
   ns <= 1000 * usecs_between abi0 d).
Proof.
  intros Ht He Hle ns. subst ns.
  rewrite (usecs_between_exact abi0 d Ht He Hle).
  unfold valid_ts, ts_le, elapsed_formula, KTIME_SEC_MAX, NSEC_PER_SEC in *.
  destruct Ht as [? ?], He as [? ?].
  Z.to_euclidean_division_equations. lia.
Qed.

Lemma usecs_within_a_microsecond_witness :
  let d := apply_write (W_time_echoed {| tv_sec := 201; tv_nsec := 400 |})
             (apply_write
                (W_time_triggered {| tv_sec := 200; tv_nsec := 999999000 |})
                d_idle) in
  let ns :=
    (tv_sec (time_echoed d) - tv_sec (time_triggered d)) * NSEC_PER_SEC
    + (tv_nsec (time_echoed d) - tv_nsec (time_triggered d)) in
  0 <= ns ∧
  - 1000 < 1000 * usecs_between ILP32 d - ns < 1000 ∧
  (tv_nsec (time_triggered d) <= tv_nsec (time_echoed d) →
   1000 * usecs_between ILP32 d <= ns) ∧
  (tv_nsec (time_echoed d) < tv_nsec (time_triggered d) →
   ns <= 1000 * usecs_between ILP32 d).
Proof.
  apply (usecs_within_a_microsecond ILP32
           (apply_write (W_time_echoed {| tv_sec := 201; tv_nsec := 400 |})
              (apply_write
                 (W_time_triggered
                    {| tv_sec := 200; tv_nsec := 999999000 |})
                 d_idle))).
  - unfold valid_ts, KTIME_SEC_MAX, NSEC_PER_SEC. cbn. lia.
  - unfold valid_ts, KTIME_SEC_MAX, NSEC_PER_SEC. cbn. lia.
  - left. cbn. lia.
Defined.

(** X18.  Unloading the module from a state at rest in which every
    listed sensor has its class device gives everything back: no sensor
    stays allocated or listed, no line stays requested and no handler
    stays registered. *)
Theorem exit_cleans_up k :
  settled k →
  (∀ p, p ∈ hc_sr04_devices k → Obj p ∈ class_devices k) →
  ∃ k',
    exit_hc_sr04 k = Ret () k' ∧
    devices_mutex k' = false ∧
    heap k' = ∅ ∧ hc_sr04_devices k' = [] ∧
    gpios k' = ∅ ∧ irq_actions k' = [].
Proof.
  intros ((Hok & Hsound) & Hdm & Hsens & _ & Hown & _) Hall.
  assert (Hrem : ∀ p d, heap k !! p = Some d →
            removable (hc_sr04_devices k) k p).
  { intros p d Hd. destruct (Hsens p d Hd) as (Hp & _).
    split; [done|by apply Hall]. }
  destruct (exit_hc_sr04_spec k Hok Hdm) as
    (k' & Hrun & Hdm' & Hlist & Hnone & Hsame & Hagone & _ & Hggone
     & Hasub & Hgsub).
  { intros p d _ Hd. by destruct (Hsens p d Hd) as (_ & ? & _). }
  exists k'. split; [done|]. split; [done|].
  split.
  { apply map_eq. intros q. rewrite lookup_empty.
    destruct (heap k !! q) as [d|] eqn:Hd.
    - apply Hnone. by apply (Hrem q d).
    - rewrite Hsame; [done|]. intros [Hq _].
      destruct Hok as (_ & Hlive & _). destruct (Hlive q Hq) as [? Hsome].
      by rewrite Hd in Hsome. }
  split.
  { apply elem_of_nil_inv. intros q Hq.
    apply Hlist in Hq as [Hq Hc]. by apply Hc, Hall. }
  split.
  { apply set_eq. intros pin. split; [|by intros ?%elem_of_empty].
    intros Hpin. exfalso.
    destruct (Hown pin (Hgsub pin Hpin)) as (p & d & Hd & Hwhich).
    destruct (Hggone p d (Hrem p d Hd) Hd) as [He Ht].
    destruct Hwhich as [->| ->]; done. }
  apply elem_of_nil_inv. intros [n q] Ha.
  destruct (Hsound n q (Hasub _ Ha)) as (d & Hd & <-).
  by apply (Hagone q d (Hrem q d Hd) Hd).
Qed.

Lemma exit_cleans_up_witness :
  ∃ k',
    exit_hc_sr04 k_added = Ret () k' ∧
    devices_mutex k' = false ∧
    heap k' = ∅ ∧ hc_sr04_devices k' = [] ∧
    gpios k' = ∅ ∧ irq_actions k' = [].
Proof.
  apply (exit_cleans_up k_added k_added_settled).
  intros p Hp. apply list_elem_of_singleton in Hp as ->. left.
Defined.

(** * An interrupt line that is served in a thread *)

(** X19.  [create_hc_sr04] takes every non-zero answer of
    [setup_hc_sr04_irq] for a failure.  When [request_any_context_irq]
    has registered the handler and answers [IRQC_IS_NESTED], a request
    that has nothing else in its way returns [len], but the new sensor
    has been freed and is not listed and its lines are released, while
    its handler stays registered: the next interrupt on the echo line
    makes the handler read freed memory. *)
Theorem nested_irq_leaves_handler pf env buf len k trig echo tmo garbage :
  registry_ok k →
  devices_mutex k = false →
  first_char buf ≠ "-"%char →
  sscanf_ddd pf (skip_sign buf) = Some (trig, echo, tmo) →
  sensors_with_key (to_int trig) (to_int echo) k = [] →
  kmalloc_mem env = Some garbage →
  gpio_is_valid pf (to_int trig) = true →
  gpio_is_valid pf (to_int echo) = true →
  to_int trig ≠ to_int echo →
  to_int trig ∉ gpios k → to_int echo ∉ gpios k →
  gpio_fault env (to_int trig) = None →
  gpio_fault env (to_int echo) = None →
  0 <= gpio_to_irq pf (to_int echo) →
  irq_outcome env = IrqNested →
  ∃ k' p,
    configure_store pf env buf len k = Ret len k' ∧
    devices_mutex k' = false ∧
    heap k' = heap k ∧ heap k' !! p = None ∧
    hc_sr04_devices k' = hc_sr04_devices k ∧
    gpios k' = gpios k ∧
    irq_actions k' = irq_actions k ++ [(gpio_to_irq pf (to_int echo), p)] ∧
    ∀ now level,
      deliver {| ev_irq := gpio_to_irq pf (to_int echo); ev_data := p;
                 ev_now := now; ev_level := level |} k' = Fault.
Proof.
  intros Hok Hdm Hadd Hscan Habsent Hmem Hvt Hve Hne Hgt Hge Hft Hfe Hirq Hout.
  unfold configure_store.
  rewrite (bool_decide_eq_false_2 _ Hadd). cbn [negb]. rewrite Hscan.
  rewrite (bind_Ret _ _ _ _ _ (lock_devices_eq k Hdm)).
  set (k1 := with_trace _ _).
  assert (Hok1 : registry_ok k1) by (by apply (registry_ok_ext k)).
  rewrite (bind_Ret _ _ _ _ _ (find_sensor_spec _ _ k1 Hok1)).
  rewrite (sensors_with_key_ext _ _ k k1) by done.
  rewrite Habsent. cbn [head].
  assert (Hrun : ∃ k3,
    add_sensor pf env (to_int trig) (to_int echo)
      (to_ulong (abi pf) (to_int tmo)) k1 = Ret 0 k3 ∧
    devices_mutex k3 = true ∧ heap k3 = heap k ∧
    hc_sr04_devices k3 = hc_sr04_devices k ∧ gpios k3 = gpios k ∧
    irq_actions k3 =
      irq_actions k ++ [(gpio_to_irq pf (to_int echo), fresh (dom (heap k)))]).
  { unfold add_sensor.
    destruct (create_hc_sr04_spec pf env (to_int trig) (to_int echo)
                (to_ulong (abi pf) (to_int tmo)) k1)
      as (ptr & k2 & t & Hcreate & Hdm2 & Hc & Ht & Hcases).
    rewrite (bind_Ret _ _ _ _ _ Hcreate).
    destruct Hcases as [(? & _ & _ & _ & _ & _ & _ & Hhard & _)|
                        (err & -> & _ & Hh & Hl & Hg & Herr)].
    { by rewrite Hout in Hhard. }
    destruct Herr as [(_ & _ & Hfail)|(-> & _ & Ha & _)].
    { exfalso.
      apply (add_failure_excluded pf env (to_int trig) (to_int echo)
               (gpios k) garbage err Hmem Hvt Hve Hne Hgt Hge Hft Hfe Hirq);
        [|done].
      intros e. by rewrite Hout. }
    change (IS_ERR (ERR_PTR 1)) with false. cbn match.
    destruct k2 as [h2 l2 dm2 g2 a2 c2 t2].
    cbn [heap hc_sr04_devices devices_mutex gpios irq_actions class_devices]
      in *.
    destruct (device_create_ok env); munfold; eexists;
      (split; [reflexivity|]); done. }
  destruct Hrun as (k3 & Hrun & Hdm3 & Hh3 & Hl3 & Hg3 & Ha3).
  rewrite (bind_Ret _ _ _ _ _ Hrun).
  rewrite (bind_Ret _ _ _ _ _ (unlock_devices_eq k3 Hdm3)).
  change (0 <? 0) with false. cbn match.
  assert (Hnone : heap k !! fresh (dom (heap k)) = None)
    by apply fresh_not_in_heap.
  eexists _, (fresh (dom (heap k))). split; [reflexivity|].
  cbn [heap hc_sr04_devices devices_mutex gpios irq_actions with_trace
       with_devices_mutex].
  split; [done|]. split; [done|]. split; [by rewrite Hh3|].
  split; [done|]. split; [done|]. split; [done|].
  intros now level. unfold deliver. cbv [mbind M_bind gets].
  unfold registered.
  cbn [ev_irq ev_data irq_actions heap with_trace with_devices_mutex].
  rewrite bool_decide_eq_true_2
    by (rewrite Ha3; apply elem_of_app; right; left).
  unfold deref. cbn [heap with_trace with_devices_mutex].
  by rewrite Hh3, Hnone.
Qed.

Lemma nested_irq_leaves_handler_witness :
  ∃ k' p,
    configure_store rpi aenv_nested "23 24 1000" 11 boot = Ret 11 k' ∧
    devices_mutex k' = false ∧
    heap k' = heap boot ∧ heap k' !! p = None ∧
    hc_sr04_devices k' = hc_sr04_devices boot ∧
    gpios k' = gpios boot ∧
    irq_actions k' = irq_actions boot ++ [(gpio_to_irq rpi (to_int 24), p)] ∧
    ∀ now level,
      deliver {| ev_irq := gpio_to_irq rpi (to_int 24); ev_data := p;
                 ev_now := now; ev_level := level |} k' = Fault.
Proof.
  apply (nested_irq_leaves_handler rpi aenv_nested "23 24 1000" 11 boot
           23 24 1000 garbage); try reflexivity; try done.
  apply boot_ok.
Defined.

(** ** How the wait ends *)

(** The jiffies run out, or the events do, before any echo. *)
Lemma wait_loop_ticks_out p n rest remaining k d :
  heap k !! p = Some d → echo_received d = 0 →
  rest = [] ∨ remaining <= Z.of_nat n →
  wait_loop p (replicate n WTick ++ rest) remaining k = Ret 0 k.
Proof.
  intros Hd He. revert remaining.
  induction n as [|n IH]; intros remaining Hout; cbn [replicate app];
    rewrite wait_loop_eq;
    rewrite (bind_Ret _ _ _ _ _ (deref_eq p k d Hd)); rewrite He;
    cbn [Z.eqb negb];
    (destruct (Z.leb_spec remaining 0) as [?|Hpos]; [done|]).
  - destruct Hout as [->|?]; [done|lia].
  - apply IH. destruct Hout as [->|?]; [by left|right; lia].
Qed.

(** A signal arrives before any echo and before the jiffies run out. *)
Lemma wait_loop_signal p n rest remaining k d :
  heap k !! p = Some d → echo_received d = 0 →
  Z.of_nat n < remaining →
  wait_loop p (replicate n WTick ++ WSignal :: rest) remaining k =
    Ret (neg ERESTARTSYS) k.
Proof.
  intros Hd He Hlt.
  rewrite (wait_loop_ticks p n _ remaining k d Hd He Hlt).
  rewrite wait_loop_eq.
  rewrite (bind_Ret _ _ _ _ _ (deref_eq p k d Hd)). rewrite He.
  cbn [Z.eqb negb].
  by destruct (Z.leb_spec (remaining - Z.of_nat n) 0) as [?|_]; [lia|].
Qed.

(** The echo line of a triggered sensor rises at [t1] and falls at [t2]
    before the jiffies run out. *)
Lemma wait_loop_echo p d da t1 t2 n1 n2 rest remaining k :
  heap k !! p = Some da →
  echo_received da = 0 → device_triggered da ≠ 0 →
  (irq d, p) ∈ irq_actions k →
  Z.of_nat (n1 + n2) < remaining →
  ∃ kw,
    wait_loop p
      (replicate n1 WTick ++ WIrq (echo_edge p d t1 1)
         :: replicate n2 WTick ++ WIrq (echo_edge p d t2 0) :: rest)
      remaining k
      = Ret (Z.max 1 (remaining - Z.of_nat n1 - Z.of_nat n2)) kw ∧
    heap kw !! p =
      Some (apply_write (W_echo_received 1)
              (apply_write (W_time_echoed t2)
                 (apply_write (W_time_triggered t1) da))).
Proof.
  intros Hda He Htr Hreg Hlt.
  rewrite (wait_loop_ticks p n1 _ remaining k da Hda He) by lia.
  rewrite (wait_loop_irq p (echo_edge p d t1 1) _ _ k da Hda He)
    by (done || lia).
  destruct (irq_rise (echo_edge p d t1 1) da) as [-> ->]; [done..|].
  set (kb := with_trace _ _).
  set (db := apply_write (W_time_triggered t1) da).
  assert (Hdb : heap kb !! p = Some db) by apply lookup_insert_eq.
  rewrite (wait_loop_ticks p n2 _ _ kb db Hdb He) by lia.
  rewrite (wait_loop_irq p (echo_edge p d t2 0) _ _ kb db Hdb He)
    by (done || lia).
  destruct (irq_fall (echo_edge p d t2 0) db) as [-> ->]; [done..|].
  set (kc := with_trace _ _).
  set (dc := apply_write (W_echo_received 1) _).
  assert (Hdc : heap kc !! p = Some dc) by apply lookup_insert_eq.
  exists kc. split; [|done].
  by apply (wait_loop_done p _ _ kc dc).
Qed.

(** When no interrupt is served outside the wait, and the wait returns
    [w] leaving the sensor with contents [d'], the measurement returns
    what the code makes of [w]. *)
Lemma do_measurement_quiet_any pf env p k d w kw d' :
  (∀ i, irqs_at env i = []) →
  heap k !! p = Some d →
  measurement_mutex d = false →
  devices_mutex k = true →
  wait_loop p (wait_evs env) (wait_budget pf d) (armed_state p d k)
    = Ret w kw →
  heap kw !! p = Some d' →
  measurement_mutex d' = true →
  do_measurement pf env p k =
    Ret (if w =? 0 then (neg ETIMEDOUT, None)
         else if w <? 0 then (to_int w, None)
         else (0, Some (usecs_between (abi pf) d')))
      (with_trace
         (trace kw ++ [ EvWait p (timeout d) w;
                        EvMutexUnlock (MeasurementMutex p) ])
         (with_heap (<[p := set_mutex false d']> (heap kw)) kw)).
Proof.
  intros Hq Hd Hm Hdm Hwait Hd' Hm'. destruct k as [h l dm g a c t].
  cbn [heap devices_mutex] in Hd, Hdm. subst dm.
  unfold do_measurement. rewrite !Hq. cbn [deliver_all].
  munfold. rewrite Hd, Hm. munfold. rewrite Hd. munfold.
  hstep. hstep. hstep.
  unfold wait_event_interruptible_timeout. munfold.
  cbn [apply_write set_mutex timeout gpio_trig].
  unfold wait_budget, armed_state, armed in Hwait. revert Hwait. munfold.
  cbn [apply_write set_mutex timeout gpio_trig].
  rewrite <- !app_assoc. cbn [app]. intros ->.
  destruct kw as [hw lw dmw gw aw cw tw]. cbn [heap] in Hd'.
  destruct (w =? 0); [|destruct (w <? 0)];
    munfold; rewrite Hd'; munfold; rewrite ?Hd', Hm'; munfold;
    rewrite ?Hd'; rewrite <- !app_assoc; reflexivity.
Qed.

(** The sensor when the wait starts, no interrupt having been served. *)
Lemma armed_state_lookup p d k :
  heap (armed_state p d k) !! p = Some (armed d).
Proof. apply lookup_insert_eq. Qed.

(** ** The claims about the outcome of a measurement *)

(** C4.  Once the mutex is acquired the measurement returns, and the
    wait's result [w] decides among exactly three outcomes: 0 (the wait
    expired with no echo) gives [-ETIMEDOUT]; [-ERESTARTSYS] (a signal
    interrupted the wait) is returned as it is, and differs from
    [-ETIMEDOUT]; a positive result gives 0 with the elapsed
    microseconds stored.  What happens during the wait decides [w]: when
    no interrupt is served outside the wait, jiffies that run out or
    events that run out before any edge give the timeout; a signal
    before any edge and before the jiffies run out gives the
    interruption; a rising and a falling edge of the echo line before
    the jiffies run out give the success, with the microseconds between
    the two edges stored. *)
Theorem measure_outcomes pf env p k d :
  heap k !! p = Some d →
  measurement_mutex d = false →
  devices_mutex k = true →
  irq_live k →
  ∃ r u k' w,
    do_measurement pf env p k = Ret (r, u) k' ∧
    In (EvWait p (timeout d) w) (process_events (since k k')) ∧
    ((w = 0 ∧ r = neg ETIMEDOUT ∧ u = None) ∨
     (w = neg ERESTARTSYS ∧ r = neg ERESTARTSYS ∧ u = None ∧
      r ≠ neg ETIMEDOUT) ∨
     (0 < w ∧ r = 0 ∧ ∃ usecs, u = Some usecs)) ∧
    ((∀ i, irqs_at env i = []) →
     (∀ n rest,
        wait_evs env = replicate n WTick ++ rest →
        rest = [] ∨ wait_budget pf d <= Z.of_nat n →
        w = 0 ∧ r = neg ETIMEDOUT ∧ u = None) ∧
     (∀ n rest,
        wait_evs env = replicate n WTick ++ WSignal :: rest →
        Z.of_nat n < wait_budget pf d →
        w = neg ERESTARTSYS ∧ r = neg ERESTARTSYS ∧ u = None) ∧
     (∀ n1 n2 t1 t2 rest,
        (irq d, p) ∈ irq_actions k →
        wait_evs env =
          replicate n1 WTick ++ WIrq (echo_edge p d t1 1)
            :: replicate n2 WTick ++ WIrq (echo_edge p d t2 0) :: rest →
        Z.of_nat (n1 + n2) < wait_budget pf d →
        0 < w ∧ r = 0 ∧
        ∃ d', heap k' !! p = Some d' ∧
              time_triggered d' = t1 ∧ time_echoed d' = t2 ∧
              u = Some (usecs_between (abi pf) d'))).
Proof.
  intros Hd Hfree Hheld Hlive.
  destruct (do_measurement_spec pf env p k d (λ _, True))
    as (r & u & k' & d' & w & Hrun & _ & _ & Hpe & Hd' & _ & _ & _ & Hw & Ho);
    auto.
  exists r, u, k', w. split; [done|].
  split. { rewrite Hpe. unfold measurement_calls, waiting_calls. simpl. tauto. }
  assert (Hcases :
    (w = 0 ∧ r = neg ETIMEDOUT ∧ u = None) ∨
    (w = neg ERESTARTSYS ∧ r = neg ERESTARTSYS ∧ u = None ∧
     r ≠ neg ETIMEDOUT) ∨
    (0 < w ∧ r = 0 ∧ ∃ usecs, u = Some usecs)).
  { destruct Ho as [(->&->&->)|[(->&->&->)|(?&->&->&?)]].
    - by left.
    - right; left. by repeat split.
    - right; right. repeat split; eauto. }
  split; [exact Hcases|].
  intros Hq.
  pose proof (armed_state_lookup p d k) as Ha.
  split; [|split].
  - intros n rest Hevs Hout.
    pose proof (do_measurement_quiet_any pf env p k d 0 _ (armed d)
                  Hq Hd Hfree Hheld
                  ltac:(rewrite Hevs;
                        exact (wait_loop_ticks_out p n rest _ _ (armed d)
                                 Ha eq_refl Hout))
                  Ha eq_refl) as Hrun'.
    rewrite Hrun in Hrun'. cbn [Z.eqb] in Hrun'.
    injection Hrun' as -> -> _.
    destruct Hcases as [(->&_)|[(_&Hr&_)|(_&Hr&_)]]; done.
  - intros n rest Hevs Hlt.
    pose proof (do_measurement_quiet_any pf env p k d (neg ERESTARTSYS) _
                  (armed d) Hq Hd Hfree Hheld
                  ltac:(rewrite Hevs;
                        exact (wait_loop_signal p n rest _ _ (armed d)
                                 Ha eq_refl Hlt))
                  Ha eq_refl) as Hrun'.
    rewrite Hrun in Hrun'.
    change (neg ERESTARTSYS =? 0) with false in Hrun'.
    change (neg ERESTARTSYS <? 0) with true in Hrun'.
    change (to_int (neg ERESTARTSYS)) with (neg ERESTARTSYS) in Hrun'.
    cbv iota in Hrun'. injection Hrun' as -> -> _.
    destruct Hcases as [(_&Hr&_)|[(->&_)|(_&Hr&_)]]; done.
  - intros n1 n2 t1 t2 rest Hreg Hevs Hlt.
    destruct (wait_loop_echo p d (armed d) t1 t2 n1 n2 rest
                (wait_budget pf d) (armed_state p d k) Ha eq_refl
                ltac:(done) Hreg Hlt) as (kw & Hwait & Hdc).
    rewrite <- Hevs in Hwait.
    pose proof (do_measurement_quiet_any pf env p k d _ kw _
                  Hq Hd Hfree Hheld Hwait Hdc eq_refl) as Hrun'.
    rewrite Hrun in Hrun'.
    destruct (Z.eqb_spec (Z.max 1 (wait_budget pf d - Z.of_nat n1
                                   - Z.of_nat n2)) 0) as [?|_]; [lia|].
    destruct (Z.ltb_spec (Z.max 1 (wait_budget pf d - Z.of_nat n1
                                   - Z.of_nat n2)) 0) as [?|_]; [lia|].
    injection Hrun' as -> -> ->.
    split. { destruct Hcases as [(_&Hr&_)|[(_&Hr&_)|(?&_)]]; done. }
    split; [done|].
    eexists. split; [apply lookup_insert_eq|]. done.
Qed.

(** Only the falling edge of the echo line is served, before the jiffies
    run out. *)
Lemma wait_loop_fall p d da t2 n rest remaining k :
  heap k !! p = Some da →
  echo_received da = 0 → device_triggered da ≠ 0 →
  (irq d, p) ∈ irq_actions k →
  Z.of_nat n < remaining →
  ∃ kw,
    wait_loop p (replicate n WTick ++ WIrq (echo_edge p d t2 0) :: rest)
      remaining k
      = Ret (Z.max 1 (remaining - Z.of_nat n)) kw ∧
    heap kw !! p =
      Some (apply_write (W_echo_received 1)
              (apply_write (W_time_echoed t2) da)).
Proof.
  intros Hda He Htr Hreg Hlt.
  rewrite (wait_loop_ticks p n _ remaining k da Hda He) by lia.
  rewrite (wait_loop_irq p (echo_edge p d t2 0) _ _ k da Hda He)
    by (done || lia).
  destruct (irq_fall (echo_edge p d t2 0) da) as [-> ->]; [done..|].
  set (kc := with_trace _ _).
  set (dc := apply_write (W_echo_received 1) _).
  assert (Hdc : heap kc !! p = Some dc) by apply lookup_insert_eq.
  exists kc. split; [|done].
  by apply (wait_loop_done p _ _ kc dc).
Qed.

(** With timestamps the clock can produce, the value stored is the
    formula's, taken modulo 2^64 by the store into an
    [unsigned long long]. *)
Lemma usecs_between_wrapped abi0 d :
  valid_ts (time_triggered d) → valid_ts (time_echoed d) →
  usecs_between abi0 d =
  to_u64 (elapsed_formula (time_triggered d) (time_echoed d)).
Proof.
  intros Ht He.
  destruct (formula_range _ _ Ht He) as (Hn & Hs & Hm & Hf).
  unfold usecs_between, elapsed_formula in *.
  rewrite (to_long_small abi0 _ Hn), (to_s64_small _ Hs), (to_s64_small _ Hm).
  by rewrite (to_s64_small _ Hf).
Qed.

Lemma to_u64_negative z : - 2 ^ 64 <= z < 0 → to_u64 z = z + 2 ^ 64.
Proof.
  intros H. unfold to_u64, wrap_unsigned.
  rewrite <- (Z_mod_plus_full z 1 (2 ^ 64)). rewrite Z.mul_1_l.
  apply Z.mod_small. lia.
Qed.

(** C3 (as amended).  When the wait is woken with the echo in, the
    measurement returns 0 and stores the elapsed time computed from the
    sensor's two timestamps in 64-bit arithmetic.  For timestamps the
    clock can produce, the value stored is (seconds difference) x
    1000000 + (nanoseconds difference) / 1000, the division rounding
    towards zero, whenever this number is not negative, as it is when
    the echo is not earlier than the trigger; when the number is
    negative the value stored is the number plus 2^64, which reads as
    the number itself when taken as signed.  The wait is woken so, when
    no interrupt is served outside it, by a rising and a falling edge of
    the echo line, whose times are then the two timestamps, and by a
    falling edge alone, [time_triggered] then being the one the sensor
    had. *)
Theorem elapsed_microseconds pf env p k d :
  heap k !! p = Some d →
  measurement_mutex d = false →
  devices_mutex k = true →
  irq_live k →
  ∃ r u k' d' w,
    do_measurement pf env p k = Ret (r, u) k' ∧
    heap k' !! p = Some d' ∧
    In (EvWait p (timeout d) w) (process_events (since k k')) ∧
    (0 < w →
     echo_received d' ≠ 0 ∧ r = 0 ∧
     u = Some (usecs_between (abi pf) d') ∧
     (valid_ts (time_triggered d') → valid_ts (time_echoed d') →
      to_s64 (usecs_between (abi pf) d') =
        elapsed_formula (time_triggered d') (time_echoed d') ∧
      (0 <= elapsed_formula (time_triggered d') (time_echoed d') →
       u = Some (elapsed_formula (time_triggered d') (time_echoed d'))) ∧
      (elapsed_formula (time_triggered d') (time_echoed d') < 0 →
       u = Some (elapsed_formula (time_triggered d') (time_echoed d')
                 + 2 ^ 64)) ∧
      (ts_le (time_triggered d') (time_echoed d') →
       0 <= elapsed_formula (time_triggered d') (time_echoed d') ∧
       u = Some (elapsed_formula (time_triggered d') (time_echoed d'))))) ∧
    ((∀ i, irqs_at env i = []) →
     (irq d, p) ∈ irq_actions k →
     (∀ n1 n2 t1 t2 rest,
        wait_evs env =
          replicate n1 WTick ++ WIrq (echo_edge p d t1 1)
            :: replicate n2 WTick ++ WIrq (echo_edge p d t2 0) :: rest →
        Z.of_nat (n1 + n2) < wait_budget pf d →
        0 < w ∧ time_triggered d' = t1 ∧ time_echoed d' = t2) ∧
     (∀ n t2 rest,
        wait_evs env =
          replicate n WTick ++ WIrq (echo_edge p d t2 0) :: rest →
        Z.of_nat n < wait_budget pf d →
        0 < w ∧ time_triggered d' = time_triggered d ∧
        time_echoed d' = t2)).
Proof.
  intros Hd Hfree Hheld Hlive.
  destruct (do_measurement_spec pf env p k d (λ _, True))
    as (r & u & k' & d' & w & Hrun & _ & _ & Hpe & Hd' & _ & _ & _ & Hw & Ho);
    auto.
  exists r, u, k', d', w. split; [done|]. split; [done|].
  split. { rewrite Hpe. unfold measurement_calls, waiting_calls. simpl. tauto. }
  split.
  - intros Hpos.
    destruct Ho as [(->&_)|[(->&_)|(_&->&->&Hnz)]];
      [lia|unfold neg in Hpos; simpl in Hpos; lia|].
    repeat (split; [done|]). intros Hvt Hve.
    destruct (formula_range _ _ Hvt Hve) as (_ & _ & _ & Hf).
    split; [by apply usecs_between_signed|].
    rewrite (usecs_between_wrapped _ d' Hvt Hve).
    split; [|split].
    + intros Hnn. rewrite to_u64_small; [done|]. revert Hf. pow_lit. lia.
    + intros Hlt. rewrite to_u64_negative; [done|]. revert Hf. pow_lit. lia.
    + intros Hle. pose proof (formula_nonneg _ _ Hvt Hve Hle) as Hnn.
      split; [done|].
      rewrite to_u64_small; [done|]. revert Hf. pow_lit. lia.
  - intros Hq Hreg.
    pose proof (armed_state_lookup p d k) as Ha.
    assert (Hpos : ∀ w' kw dc,
      wait_loop p (wait_evs env) (wait_budget pf d) (armed_state p d k)
        = Ret w' kw →
      heap kw !! p = Some dc → measurement_mutex dc = true → 0 < w' →
      0 < w ∧ d' = set_mutex false dc).
    { intros w' kw dc Hwait Hdc Hm Hw'.
      pose proof (do_measurement_quiet_any pf env p k d w' kw dc
                    Hq Hd Hfree Hheld Hwait Hdc Hm) as Hrun'.
      rewrite Hrun in Hrun'.
      destruct (Z.eqb_spec w' 0) as [?|_]; [lia|].
      destruct (Z.ltb_spec w' 0) as [?|_]; [lia|].
      injection Hrun' as Hr Hu Hk. subst k'.
      cbn [heap with_heap with_trace] in Hd'.
      rewrite lookup_insert_eq in Hd'. injection Hd' as <-.
      split; [|done].
      destruct Ho as [(_&Hr'&_)|[(_&Hr'&_)|(?&_)]];
        [by rewrite Hr in Hr'..|done]. }
    split.
    + intros n1 n2 t1 t2 rest Hevs Hlt.
      destruct (wait_loop_echo p d (armed d) t1 t2 n1 n2 rest
                  (wait_budget pf d) (armed_state p d k) Ha eq_refl
                  ltac:(done) Hreg Hlt) as (kw & Hwait & Hdc).
      rewrite <- Hevs in Hwait.
      destruct (Hpos _ _ _ Hwait Hdc eq_refl ltac:(lia)) as [Hw' ->].
      done.
    + intros n t2 rest Hevs Hlt.
      destruct (wait_loop_fall p d (armed d) t2 n rest
                  (wait_budget pf d) (armed_state p d k) Ha eq_refl
                  ltac:(done) Hreg Hlt) as (kw & Hwait & Hdc).
      rewrite <- Hevs in Hwait.
      destruct (Hpos _ _ _ Hwait Hdc eq_refl ltac:(lia)) as [Hw' ->].
      done.
Qed.

(** The sensors of the concrete states below are live. *)
Lemma one_sensor_live k d :
  irq_actions k = [(184, 1%positive)] →
  heap k !! 1%positive = Some d → irq_live k.
Proof.
  intros Ha Hd n q Hin. rewrite Ha in Hin.
  apply list_elem_of_singleton in Hin as [= _ ->]. by exists d.
Qed.

Lemma k_late_live : irq_live k_late.
Proof. exact (one_sensor_live k_late d_late eq_refl eq_refl). Qed.

(** C4 on the three ways a wait ends: no echo, a signal, and an echo
    1000 microseconds long. *)
Lemma measure_outcomes_witness :
  heap k_measure !! 1%positive = Some d_idle ∧
  measurement_mutex d_idle = false ∧
  devices_mutex k_measure = true ∧
  irq_live k_measure ∧
  (∃ k', do_measurement rpi menv_quiet 1%positive k_measure
           = Ret (neg ETIMEDOUT, None) k') ∧
  (∃ k', do_measurement rpi menv_signal 1%positive k_measure
           = Ret (neg ERESTARTSYS, None) k') ∧
  (∃ k', do_measurement rpi menv_echo 1%positive k_measure
           = Ret (0, Some 1000) k').
Proof.
  repeat (split; [reflexivity || exact k_measure_live|]).
  split; [|split].
  - destruct (measure_outcomes rpi menv_quiet 1%positive k_measure d_idle
                eq_refl eq_refl eq_refl k_measure_live)
      as (r & u & k' & w & Hrun & _ & _ & Hsc).
    destruct (Hsc (λ _, eq_refl)) as (Hout & _ & _).
    destruct (Hout 0%nat [] eq_refl (or_introl eq_refl)) as (_ & -> & ->).
    by exists k'.
  - destruct (measure_outcomes rpi menv_signal 1%positive k_measure d_idle
                eq_refl eq_refl eq_refl k_measure_live)
      as (r & u & k' & w & Hrun & _ & _ & Hsc).
    destruct (Hsc (λ _, eq_refl)) as (_ & Hsig & _).
    destruct (Hsig 1%nat [] eq_refl eq_refl) as (_ & -> & ->).
    by exists k'.
  - destruct (measure_outcomes rpi menv_echo 1%positive k_measure d_idle
                eq_refl eq_refl eq_refl k_measure_live)
      as (r & u & k' & w & Hrun & _ & _ & Hsc).
    destruct (Hsc (λ _, eq_refl)) as (_ & _ & Hecho).
    destruct (Hecho 0%nat 1%nat {| tv_sec := 200; tv_nsec := 1000 |}
                {| tv_sec := 200; tv_nsec := 1001000 |} []
                ltac:(left) eq_refl eq_refl)
      as (_ & -> & d' & _ & Ht1 & Ht2 & ->).
    exists k'. rewrite Hrun. unfold usecs_between. rewrite Ht1, Ht2.
    reflexivity.
Defined.

(** C3 on an echo 1000 microseconds long, and on a falling edge stamped
    before the sensor's [time_triggered]. *)
Lemma elapsed_microseconds_witness :
  heap k_measure !! 1%positive = Some d_idle ∧
  measurement_mutex d_idle = false ∧
  devices_mutex k_measure = true ∧
  irq_live k_measure ∧
  (∃ k',
    do_measurement rpi menv_echo 1%positive k_measure =
      Ret (0, Some (elapsed_formula {| tv_sec := 200; tv_nsec := 1000 |}
                                    {| tv_sec := 200; tv_nsec := 1001000 |}))
          k') ∧
  (∃ k',
    do_measurement rpi menv_fall_only 1%positive k_late =
      Ret (0, Some (elapsed_formula {| tv_sec := 300; tv_nsec := 0 |}
                                    {| tv_sec := 200; tv_nsec := 1001000 |}
                    + 2 ^ 64))
          k').
Proof.
  repeat (split; [reflexivity || exact k_measure_live|]).
  split.
  - destruct (elapsed_microseconds rpi menv_echo 1%positive k_measure d_idle
                eq_refl eq_refl eq_refl k_measure_live)
      as (r & u & k' & d' & w & Hrun & Hd' & _ & Himp & Hsc).
    destruct (Hsc (λ _, eq_refl) ltac:(left)) as (Hecho & _).
    destruct (Hecho 0%nat 1%nat {| tv_sec := 200; tv_nsec := 1000 |}
                {| tv_sec := 200; tv_nsec := 1001000 |} [] eq_refl eq_refl)
      as (Hw & Ht1 & Ht2).
    destruct (Himp Hw) as (_ & -> & _ & Hvalid).
    rewrite Ht1, Ht2 in Hvalid.
    destruct Hvalid as (_ & _ & _ & Hexact).
    + unfold valid_ts, KTIME_SEC_MAX, NSEC_PER_SEC. simpl. lia.
    + unfold valid_ts, KTIME_SEC_MAX, NSEC_PER_SEC. simpl. lia.
    + destruct Hexact as [_ ->]; [right; simpl; lia|]. by exists k'.
  - destruct (elapsed_microseconds rpi menv_fall_only 1%positive k_late d_late
                eq_refl eq_refl eq_refl k_late_live)
      as (r & u & k' & d' & w & Hrun & Hd' & _ & Himp & Hsc).
    destruct (Hsc (λ _, eq_refl) ltac:(left)) as (_ & Hfall).
    destruct (Hfall 1%nat {| tv_sec := 200; tv_nsec := 1001000 |} []
                eq_refl eq_refl)
      as (Hw & Ht1 & Ht2).
    destruct (Himp Hw) as (_ & -> & _ & Hvalid).
    rewrite Ht1, Ht2 in Hvalid.
    destruct Hvalid as (_ & _ & Hneg & _).
    + unfold valid_ts, KTIME_SEC_MAX, NSEC_PER_SEC. simpl. lia.
    + unfold valid_ts, KTIME_SEC_MAX, NSEC_PER_SEC. simpl. lia.
    + rewrite (Hneg eq_refl) in Hrun. by exists k'.
Defined.

(** C3 as stated fails when the falling edge is stamped before the
    sensor's [time_triggered]: the formula gives -99998999, the value
    stored is 2^64 - 99998999. *)
Lemma elapsed_value_counterexample :
  ∃ r u k' d',
    do_measurement rpi menv_fall_only 1%positive k_late = Ret (r, u) k' ∧
    heap k' !! 1%positive = Some d' ∧
    echo_received d' ≠ 0 ∧ r = 0 ∧
    u = Some 18446744073609552617 ∧
    elapsed_formula (time_triggered d') (time_echoed d') = -99998999 ∧
    ¬ claimed_elapsed_value u d'.
Proof.
  eexists _, _, _, _. split; [vm_compute; reflexivity|].
  split; [vm_compute; reflexivity|].
  split; [by vm_compute|]. split; [reflexivity|].
  split; [reflexivity|]. split; [reflexivity|].
  unfold claimed_elapsed_value. vm_compute. discriminate.
Qed.

(** ** Wake-ups over a measurement *)

Lemma emit_eq e k : emit e k = Ret () (with_trace (trace k ++ [e]) k).
Proof. reflexivity. Qed.

Section Paid.

Context (p : positive).

Lemma wakeups_app t1 t2 :
  wakeups p (t1 ++ t2) = (wakeups p t1 + wakeups p t2)%nat.
Proof.
  unfold wakeups, handler_calls.
  by rewrite flat_map_app, List.filter_app, length_app.
Qed.

Lemma echo_sets_app t1 t2 :
  echo_sets p (t1 ++ t2) = (echo_sets p t1 + echo_sets p t2)%nat.
Proof.
  unfold echo_sets, handler_calls.
  by rewrite flat_map_app, List.filter_app, length_app.
Qed.

Lemma echo_flag_le_1 k : (echo_flag p k ≤ 1)%nat.
Proof.
  unfold echo_flag. destruct (heap k !! p) as [d|]; [|lia].
  destruct (echo_received d =? 0); lia.
Qed.

Lemma wakeups_paid_refl k : wakeups_paid p k k.
Proof.
  exists []. rewrite app_nil_r. split; [done|]. split; [done|]. cbn. lia.
Qed.

Lemma wakeups_paid_trans k1 k2 k3 :
  wakeups_paid p k1 k2 → wakeups_paid p k2 k3 → wakeups_paid p k1 k3.
Proof.
  intros (t1 & Ht1 & He1 & H1) (t2 & Ht2 & He2 & H2). exists (t1 ++ t2).
  split; [by rewrite Ht2, Ht1, app_assoc|].
  rewrite wakeups_app, echo_sets_app. lia.
Qed.

(** A step in process context that leaves the flag of [p] alone. *)
Lemma wakeups_paid_quiet k k' t :
  trace k' = trace k ++ t → handler_calls t = [] →
  echo_flag p k' = echo_flag p k → wakeups_paid p k k'.
Proof.
  intros Ht Hw Hf. exists t. split; [done|].
  unfold echo_sets, wakeups. rewrite Hw. cbn. split; [done|lia].
Qed.

Lemma echo_flag_poke k q d d' :
  heap k !! q = Some d → echo_received d' = echo_received d →
  echo_flag p (with_heap (<[q := d']> (heap k)) k) = echo_flag p k.
Proof.
  intros Hd He. unfold echo_flag. cbn [heap with_heap].
  destruct (decide (p = q)) as [->|Hne].
  - by rewrite lookup_insert_eq, Hd, He.
  - by rewrite lookup_insert_ne.
Qed.

Lemma paid_ret {A} (a : A) : keeps (wakeups_paid p) (mret a).
Proof. intros k a' k' [= _ <-]. apply wakeups_paid_refl. Qed.

Lemma paid_bind {A B} (m : M A) (f : A → M B) :
  keeps (wakeups_paid p) m →
  (∀ a, keeps (wakeups_paid p) (f a)) →
  keeps (wakeups_paid p) (m ≫= f).
Proof.
  intros Hm Hf k b k' Hrun. unfold mbind, M_bind in Hrun.
  destruct (m k) as [a k1| |] eqn:Hmk; [|done..].
  exact (wakeups_paid_trans _ _ _ (Hm k a k1 Hmk) (Hf a k1 b k' Hrun)).
Qed.

Lemma paid_emit e :
  handler_calls [e] = [] → keeps (wakeups_paid p) (emit e).
Proof.
  intros He k a k' [= _ <-].
  by apply (wakeups_paid_quiet _ _ [e]).
Qed.

Lemma paid_deref q : keeps (wakeups_paid p) (deref q).
Proof.
  intros k a k' Hrun. unfold deref in Hrun.
  destruct (heap k !! q); [|done]. injection Hrun as _ <-.
  apply wakeups_paid_refl.
Qed.

(** A store that is not to [echo_received]. *)
Lemma paid_store q w :
  (∀ v, w ≠ W_echo_received v) → keeps (wakeups_paid p) (store q w).
Proof.
  intros Hw k a k' Hrun. unfold store, mbind, M_bind, deref in Hrun.
  destruct (heap k !! q) as [d|] eqn:Hd; [|done].
  injection Hrun as _ <-.
  apply (wakeups_paid_quiet _ _ [EvStore q w]); [done|done|].
  apply (echo_flag_poke k q d); [done|].
  destruct w; try done. by destruct (Hw v).
Qed.

(** One run of the handler: it sets [echo_received] exactly when it
    wakes the waiter; a wake-up finds the flag at 0 and leaves it at 1,
    and the flag never goes down. *)
Lemma irq_wake_paid e d :
  echo_sets p [EvIrq (ev_irq e) (ev_data e) (irq_calls e d)] =
    wakeups p [EvIrq (ev_irq e) (ev_data e) (irq_calls e d)] ∧
  (ev_data e ≠ p →
   wakeups p [EvIrq (ev_irq e) (ev_data e) (irq_calls e d)] = 0%nat) ∧
  (wakeups p [EvIrq (ev_irq e) (ev_data e) (irq_calls e d)]
   + (if (echo_received d =? 0)%Z then 0 else 1)
   ≤ (if (echo_received (irq_dev e d) =? 0)%Z then 0 else 1))%nat.
Proof.
  unfold echo_sets, wakeups, handler_calls, irq_calls, irq_dev,
    echo_received_irq.
  destruct (device_triggered d =? 0).
  { cbn. repeat split; lia. }
  destruct (Z.eqb_spec (echo_received d) 0) as [Hz|Hnz]; cbn [negb].
  - destruct (ev_level e =? 1); cbn.
    + rewrite Hz. repeat split; lia.
    + case_bool_decide; cbn; repeat split; done || lia.
  - cbn. destruct (Z.eqb_spec (echo_received d) 0); [done|].
    repeat split; lia.
Qed.

Lemma paid_deliver e : keeps (wakeups_paid p) (deliver e).
Proof.
  intros k a k' Hrun. unfold deliver in Hrun.
  unfold mbind at 1 in Hrun. unfold M_bind at 1, gets in Hrun.
  destruct (registered _ _ k).
  2: { injection Hrun as _ <-. apply wakeups_paid_refl. }
  unfold mbind, M_bind, deref in Hrun.
  destruct (heap k !! ev_data e) as [d|] eqn:Hd; [|done].
  injection Hrun as _ <-.
  exists [EvIrq (ev_irq e) (ev_data e) (irq_calls e d)]. split; [done|].
  destruct (irq_wake_paid e d) as (Hsets & Hother & Hpaid).
  split; [done|].
  destruct (decide (ev_data e = p)) as [Heq|Hne].
  - unfold echo_flag. cbn [heap with_heap with_trace].
    rewrite <- Heq at 2 3. by rewrite lookup_insert_eq, Hd.
  - rewrite (Hother Hne).
    unfold echo_flag. cbn [heap with_heap with_trace].
    by rewrite lookup_insert_ne.
Qed.

Lemma paid_deliver_all es : keeps (wakeups_paid p) (deliver_all es).
Proof.
  induction es as [|e es IH]; cbn [deliver_all].
  - apply paid_ret.
  - apply paid_bind; [apply paid_deliver|done].
Qed.

Lemma paid_wait_loop q evs :
  ∀ remaining, keeps (wakeups_paid p) (wait_loop q evs remaining).
Proof.
  induction evs as [|ev evs IH]; intros remaining; rewrite wait_loop_eq;
    (apply paid_bind; [apply paid_deref|]); intros d;
    destruct (negb _); try apply paid_ret;
    destruct (remaining <=? 0); try apply paid_ret.
  destruct ev as [e| |].
  - apply paid_bind; [apply paid_deliver|]. intros _. apply IH.
  - apply IH.
  - apply paid_ret.
Qed.

Lemma paid_unlock m : keeps (wakeups_paid p) (mutex_unlock m).
Proof.
  intros k a k' Hrun. destruct m as [|q].
  - unfold mutex_unlock, mutex_held, mutex_set in Hrun.
    cbv [mbind M_bind gets modify emit fault] in Hrun.
    destruct (devices_mutex k); [|done]. injection Hrun as _ <-.
    by apply (wakeups_paid_quiet _ _ [EvMutexUnlock DevicesMutex]).
  - unfold mutex_unlock, mutex_held, mutex_set in Hrun.
    cbv [mbind M_bind mret M_ret deref poke modify emit fault] in Hrun.
    destruct (heap k !! q) as [d|] eqn:Hd; [|done].
    destruct (measurement_mutex d); [|done].
    rewrite Hd in Hrun. injection Hrun as _ <-.
    apply (wakeups_paid_quiet _ _ [EvMutexUnlock (MeasurementMutex q)]);
      [done|done|].
    by apply (echo_flag_poke k q d).
Qed.

(** What [do_measurement] does after it has reset [echo_received]. *)
Lemma paid_after_reset pf env :
  keeps (wakeups_paid p)
    (deliver_all (irqs_at env 1);;
     store p (W_device_triggered 0);;
     deliver_all (irqs_at env 2);;
     d ← deref p;
     gpio_set_value (gpio_trig d) 1;;
     deliver_all (irqs_at env 3);;
     emit (EvUdelay 10);;
     deliver_all (irqs_at env 4);;
     store p (W_device_triggered 1);;
     deliver_all (irqs_at env 5);;
     d ← deref p;
     gpio_set_value (gpio_trig d) 0;;
     deliver_all (irqs_at env 6);;
     d ← deref p;
     remaining ← wait_event_interruptible_timeout (abi pf) p
                   (wait_evs env) (timeout d);
     deliver_all (irqs_at env 7);;
     '(ret, usecs) ←
       (if remaining =? 0 then mret (neg ETIMEDOUT, None)
        else if remaining <? 0 then mret (to_int remaining, None)
        else
          d ← deref p;
          mret (0, Some (usecs_between (abi pf) d)));
     deliver_all (irqs_at env 8);;
     mutex_unlock (MeasurementMutex p);;
     mret (ret, usecs)).
Proof.
  unfold gpio_set_value, wait_event_interruptible_timeout.
  repeat first
    [ apply paid_ret
    | apply paid_emit; reflexivity
    | apply paid_deref
    | apply paid_store; done
    | apply paid_deliver_all
    | apply paid_wait_loop
    | apply paid_unlock
    | apply paid_bind
    | intros []
    | intros ?
    | match goal with |- keeps _ (if ?b then _ else _) => destruct b end ].
Qed.

End Paid.

(** Interrupts served in a row: what they log and what they leave of
    sensor [p]. *)
Lemma deliver_all_window p es k d :
  irq_live k → heap k !! p = Some d →
  ∃ k' t d',
    deliver_all es k = Ret () k' ∧ trace k' = trace k ++ t ∧
    process_events t = [] ∧ heap k' !! p = Some d' ∧
    echo_sets p t = wakeups p t ∧
    (wakeups p t ≤ 1)%nat ∧ (guard_closed d → wakeups p t = 0%nat).
Proof.
  intros Hl Hd.
  destruct (deliver_all_wakeups p es k d Hl Hd)
    as (k' & t & d' & Hrun & Ht & Hd' & Hle & Hcl).
  destruct (deliver_all_inv p (λ _, True) es ltac:(done) k d Hl Hd I)
    as (k2 & t2 & _ & Hrun2 & _ & _ & Ht2 & Hpe & _).
  rewrite Hrun in Hrun2. injection Hrun2 as <-.
  rewrite Ht in Ht2. apply app_inv_head in Ht2 as <-.
  destruct (paid_deliver_all p es k () k' Hrun) as (t3 & Ht3 & Hsets & _).
  rewrite Ht in Ht3. apply app_inv_head in Ht3 as <-.
  exists k', t, d'. repeat (split; [done|]). intros Hg. by apply Hcl.
Qed.

(** ** The claim about the interrupt handler *)

(** C1 (as amended).  When the sensor is not triggered or its echo is
    already in, the handler stores nothing, leaves [echo_received] alone
    and wakes nobody; so however many edges follow, the sensor keeps its
    contents (its [time_echoed] too) and its waiter is not woken again,
    and from any state on the waiter is woken at most once until
    [echo_received] is reset.  A measurement resets it once, after the
    settling delay: the waiter is woken at most once after that reset,
    and at most once before it, not at all before it when the
    measurement found the sensor not triggered or with its echo in; a
    handler sets [echo_received] exactly when it wakes the waiter. *)
Theorem edge_handler_guard (p : positive) (d : hc_sr04) (k : kstate)
    (now : timespec64) (level n : Z) (es : list irq_ev)
    (pf : platform) (env : measure_env) :
  heap k !! p = Some d →
  irq_live k →
  (guard_closed d →
   echo_received_irq now level n p d = (IRQ_HANDLED, d, [])) ∧
  (∃ k', deliver_all es k = Ret () k' ∧
         echo_sets p (since k k') = wakeups p (since k k') ∧
         (wakeups p (since k k') ≤ 1)%nat ∧
         (guard_closed d →
          heap k' !! p = Some d ∧ wakeups p (since k k') = 0%nat)) ∧
  (measurement_mutex d = false → devices_mutex k = true →
   ∃ r u k' t1 t2,
     do_measurement pf env p k = Ret (r, u) k' ∧
     since k k' = t1 ++ EvStore p (W_echo_received 0) :: t2 ∧
     process_events t1 =
       [ EvMutexTrylock (MeasurementMutex p) true;
         EvMutexUnlock DevicesMutex;
         EvMsleep 60 ] ∧
     echo_sets p t1 = wakeups p t1 ∧
     echo_sets p t2 = wakeups p t2 ∧
     (wakeups p t1 ≤ 1)%nat ∧
     (guard_closed d → wakeups p t1 = 0%nat) ∧
     (wakeups p t2 ≤ 1)%nat).
Proof.
  intros Hd Hl. split; [apply handler_closed|]. split.
  { destruct (deliver_all_wakeups p es k d Hl Hd)
      as (k' & t & d' & Hrun & Ht & Hd' & Hle & Hcl).
    destruct (paid_deliver_all p es k () k' Hrun) as (t3 & Ht3 & Hsets & _).
    rewrite Ht in Ht3. apply app_inv_head in Ht3 as <-.
    exists k'. rewrite (since_app _ _ _ Ht). split; [done|]. split; [done|].
    split; [done|].
    intros Hg. destruct (Hcl Hg) as [-> Hz]. done. }
  intros Hm Hdm.
  destruct (do_measurement_spec pf env p k d (λ _, True))
    as (r & u & k' & _ & _ & Hrun & _); auto.
  exists r, u, k'. pose proof Hrun as Hrun0.
  unfold do_measurement in Hrun.
  rewrite (bind_Ret _ _ _ _ _ (trylock_free_eq p k d Hd Hm)) in Hrun.
  cbn [negb] in Hrun.
  set (k1 := with_trace _ _) in Hrun.
  rewrite (bind_Ret _ _ _ _ _ (unlock_devices_eq k1 Hdm)) in Hrun.
  set (k2 := with_trace _ _) in Hrun.
  rewrite (bind_Ret _ _ _ _ _ (emit_eq (EvMsleep 60) k2)) in Hrun.
  set (k3 := with_trace _ _) in Hrun.
  assert (Hd3 : heap k3 !! p = Some (set_mutex true d))
    by apply lookup_insert_eq.
  assert (Hl3 : irq_live k3).
  { intros i q Hin. destruct (Hl i q Hin) as [dq Hdq].
    change (heap k3) with (<[p := set_mutex true d]> (heap k)).
    destruct (decide (q = p)) as [->|Hne].
    - rewrite lookup_insert_eq. by eexists.
    - rewrite lookup_insert_ne by done. by eexists. }
  destruct (deliver_all_window p (irqs_at env 0) k3 _ Hl3 Hd3)
    as (k4 & t & d4 & Hrun4 & Ht4 & Hpe4 & Hd4 & Hsets4 & Hle4 & Hcl4).
  rewrite (bind_Ret _ _ _ _ _ Hrun4) in Hrun.
  rewrite (bind_Ret _ _ _ _ _ (store_eq p _ k4 d4 Hd4)) in Hrun.
  set (k5 := with_trace _ _) in Hrun.
  destruct (paid_after_reset p pf env k5 _ k' Hrun)
    as (t2 & Ht2 & Hsets2 & Hpaid).
  exists ([ EvMutexTrylock (MeasurementMutex p) true;
            EvMutexUnlock DevicesMutex;
            EvMsleep 60 ] ++ t), t2.
  split; [exact Hrun0|].
  split.
  { apply since_app. rewrite Ht2.
    change (trace k5) with (trace k4 ++ [EvStore p (W_echo_received 0)]).
    rewrite Ht4.
    change (trace k3)
      with (((trace k ++ [EvMutexTrylock (MeasurementMutex p) true])
             ++ [EvMutexUnlock DevicesMutex]) ++ [EvMsleep 60]).
    rewrite <- !app_assoc. reflexivity. }
  split.
  { unfold process_events in *. rewrite List.filter_app, Hpe4. reflexivity. }
  rewrite wakeups_app, echo_sets_app.
  change (wakeups p [ EvMutexTrylock (MeasurementMutex p) true;
                      EvMutexUnlock DevicesMutex; EvMsleep 60 ])
    with 0%nat.
  change (echo_sets p [ EvMutexTrylock (MeasurementMutex p) true;
                        EvMutexUnlock DevicesMutex; EvMsleep 60 ])
    with 0%nat.
  split; [done|]. split; [done|]. split; [done|]. split; [exact Hcl4|].
  pose proof (echo_flag_le_1 p k'). lia.
Qed.

(** C1 on a sensor that has its echo: two more edges change nothing and
    wake nobody, and a measurement started then wakes its waiter at most
    once, after the reset. *)
Lemma edge_handler_guard_witness :
  heap k_measure !! 1%positive = Some d_idle ∧
  irq_live k_measure ∧
  guard_closed d_idle ∧
  measurement_mutex d_idle = false ∧
  devices_mutex k_measure = true ∧
  echo_received_irq {| tv_sec := 300; tv_nsec := 0 |} 0 184 1%positive d_idle
    = (IRQ_HANDLED, d_idle, []) ∧
  (∃ k', deliver_all [edge 300 0 0; edge 300 5 1] k_measure = Ret () k' ∧
         heap k' !! 1%positive = Some d_idle ∧
         wakeups 1%positive (since k_measure k') = 0%nat) ∧
  (∃ r u k' t1 t2,
     do_measurement rpi menv_echo 1%positive k_measure = Ret (r, u) k' ∧
     since k_measure k' = t1 ++ EvStore 1%positive (W_echo_received 0) :: t2 ∧
     wakeups 1%positive t1 = 0%nat ∧
     echo_sets 1%positive t2 = wakeups 1%positive t2 ∧
     (wakeups 1%positive t2 ≤ 1)%nat).
Proof.
  assert (Hg : guard_closed d_idle) by (by right).
  destruct (edge_handler_guard 1%positive d_idle k_measure
              {| tv_sec := 300; tv_nsec := 0 |} 0 184
              [edge 300 0 0; edge 300 5 1] rpi menv_echo
              eq_refl k_measure_live)
    as (Hh & (k' & Hrun & _ & _ & Hcl) & Hmeasure).
  split; [reflexivity|]. split; [exact k_measure_live|]. split; [exact Hg|].
  split; [reflexivity|]. split; [reflexivity|].
  split; [exact (Hh Hg)|].
  split. { exists k'. split; [exact Hrun|]. exact (Hcl Hg). }
  destruct (Hmeasure eq_refl eq_refl)
    as (r & u & k2 & t1 & t2 & Hrun2 & Hsince & _ & _ & Hsets & _ & Hnone
        & Hone).
  exists r, u, k2, t1, t2. split; [exact Hrun2|]. split; [exact Hsince|].
  split; [exact (Hnone Hg)|]. split; [exact Hsets|exact Hone].
Defined.

(** C1 as stated fails on a sensor left by a measurement that timed
    out: the late echo of that measurement falls during the settling
    delay and wakes the waiter, and the echo of the new measurement
    wakes it again, so in one measurement [echo_received] is set twice
    and the waiter is woken twice. *)
Lemma one_wakeup_counterexample :
  (∃ k0, do_measurement rpi menv_quiet 1%positive k_measure
           = Ret (neg ETIMEDOUT, None) k0 ∧
         heap k0 !! 1%positive = Some d_timed_out) ∧
  ∃ r u k',
    do_measurement rpi menv_late_edge 1%positive k_timed_out
      = Ret (r, u) k' ∧
    echo_sets 1%positive (since k_timed_out k') = 2%nat ∧
    wakeups 1%positive (since k_timed_out k') = 2%nat ∧
    ¬ claimed_one_echo 1%positive (since k_timed_out k').
Proof.
  split.
  { eexists. split; vm_compute; reflexivity. }
  eexists _, _, _. split; [vm_compute; reflexivity|].
  split; [vm_compute; reflexivity|].
  split; [vm_compute; reflexivity|].
  unfold claimed_one_echo. intros [H _]. vm_compute in H. lia.
Qed.
